(** * HyperBlend leaf-model optimisation: a shallow embedding of
      [src/optimization.py] and the properties of its control layer.

    Python floats are modelled as real numbers ([R]): the properties below
    are about orderings, sums and square roots of modest magnitudes, and none
    depends on a rounding.  List lengths and indices are natural numbers.

    The collaborators that the module imports (the simulator [B]/[DU], the
    persistence layer [FH]/[T], the plotter and [scipy.optimize]) are not
    part of the module; they appear here as an explicit [World] that records
    what was rendered, persisted and plotted, and as section variables for
    what they compute. *)

From Stdlib Require Import Reals Lra Lia Psatz List String ZArith Arith Bool.
Import ListNotations.
Open Scope R_scope.

Set Implicit Arguments.

(** ** Exceptions and the state-and-error monad *)

Inductive exn : Type :=
| IndexError
| ZeroDivisionError
| ValueError
| KeyError
| OSError
| Exception (msg : string).

Inductive outcome (A : Type) : Type :=
| Ok (a : A)
| Raise (e : exn).

Arguments Ok {A} a.
Arguments Raise {A} e.

(** A computation over a mutable state [S]: an effect performed before an
    exception is raised stays performed. *)
Definition M (S A : Type) : Type := S -> outcome A * S.

Definition ret {S A} (a : A) : M S A := fun s => (Ok a, s).

Definition raise {S A} (e : exn) : M S A := fun s => (Raise e, s).

Definition bind {S A B} (c : M S A) (k : A -> M S B) : M S B :=
  fun s =>
    match c s with
    | (Ok a, s') => k a s'
    | (Raise e, s') => (Raise e, s')
    end.

Definition get {S} : M S S := fun s => (Ok s, s).

Definition modify {S} (g : S -> S) : M S unit := fun s => (Ok tt, g s).

Notation "x <- c ;; k" := (bind c (fun x => k))
  (at level 61, c at next level, right associativity).
Notation "c ;;; k" := (bind c (fun _ => k))
  (at level 61, right associativity).

(** A [for] loop over a list, stopping at the first exception. *)
Fixpoint for_each {S A} (body : A -> M S unit) (l : list A) : M S unit :=
  match l with
  | [] => ret tt
  | a :: l' => body a ;;; for_each body l'
  end.

(** ** Module constants (lines 63-80) *)

Definition lb : list R := [0.01; 0.01; -0.5; 0].
Definition ub : list R := [1; 1; 0.5; 1].
Definition bounds : list R * list R := (lb, ub).
Definition density_scale : R := 200.
Definition ftol : R := 1e-2.
Definition ftol_abs : R := 1.0.
Definition xtol : R := 1e-5.
Definition diffstep : R := 0.005.

(** [x] lies in the box [bounds], component by component. *)
Fixpoint in_box (l x u : list R) : Prop :=
  match l, x, u with
  | [], [], [] => True
  | li :: l', xi :: x', ui :: u' => li <= xi <= ui /\ in_box l' x' u'
  | _, _, _ => False
  end.

Definition within_bounds (x : list R) : Prop := in_box (fst bounds) x (snd bounds).

(** ** Starting guess (lines 517-528) *)

Definition get_starting_guess (absorption : R) : list R :=
  let f (coeffs : list R) :=
    nth 2 coeffs 0 * absorption * absorption + nth 1 coeffs 0 * absorption
    + nth 0 coeffs 0 in
  let absorption_density := [0.15319704; 0.13493788; 0.43538607] in
  let scattering_density := [0.59922746; -0.0009426; -0.31473394] in
  let scattering_anisotropy := [0.29456347; -0.24329242; 0.14122699] in
  let mix_factor := [0.793028; 0.2839754; -0.88555556] in
  [f absorption_density; f scattering_density; f scattering_anisotropy;
   f mix_factor].

(** ** Data model *)

(** [RenderParametersForSingle]: what one simulator invocation is given. *)
Record RenderParametersForSingle : Type := mkRps {
  clear_rend_folder : bool;
  clear_references : bool;
  render_references : bool;
  dry_run : bool;
  rps_wl : R;
  abs_dens : R;
  scat_dens : R;
  scat_ai : R;
  mix_fac : R
}.

(** What a [scipy.optimize] routine returns: the parameter vector [x] and,
    for the routines that report it, the iteration count [nit]. *)
Record OptimizeResult : Type := mkRes {
  res_x : list R;
  res_nit : option nat
}.

(** The per-wavelength record built at lines 432-453. *)
Record Subresult : Type := mkSubresult {
  subres_wl : R;
  subres_reflectance_measured : R;
  subres_transmittance_measured : R;
  subres_reflectance_modeled : R;
  subres_transmittance_modeled : R;
  subres_reflectance_error : R;
  subres_transmittance_error : R;
  subres_iterations : nat;
  subres_optimizer : string;
  subres_optimizer_ftol : R;
  subres_optimizer_xtol : R;
  subres_optimizer_diffstep : R;
  subres_optimizer_result : OptimizeResult;
  subres_elapsed_time_s : R;
  subres_history_reflectance : list R;
  subres_history_transmittance : list R;
  subres_history_absorption_density : list R;
  subres_history_scattering_density : list R;
  subres_history_scattering_anisotropy : list R;
  subres_history_mix_factor : list R
}.

(** A tuple of one element, as [x,] builds it; [item0] is its [[0]]. *)
Record tuple1 (A : Type) : Type := Tuple1 { item0 : A }.

Arguments Tuple1 {A} item0.
Arguments item0 {A} t.

(** The aggregate record built at lines 474-507.  The optimizer identifier
    and the three tolerances are stored by assignments that end in a comma
    (lines 490-493), hence as tuples of one element. *)
Record FinalResult : Type := mkFinalResult {
  result_wall_clock_elapsed_min : R;
  result_process_elapsed_min : R;
  result_r_RMSE : R;
  result_t_RMSE : R;
  result_optimizer : tuple1 string;
  result_optimizer_ftol : tuple1 R;
  result_optimizer_xtol : tuple1 R;
  result_optimizer_diffstep : tuple1 R;
  result_basin_iterations_required : option nat;
  result_wls : list R;
  result_refls_modeled : list R;
  result_refls_measured : list R;
  result_refls_error : list R;
  result_trans_modeled : list R;
  result_trans_measured : list R;
  result_trans_error : list R;
  result_absorption_density : list R;
  result_scattering_density : list R;
  result_scattering_anisotropy : list R;
  result_mix_factor : list R
}.

(** Everything outside the process that the module reads or changes: the
    simulator invocations made so far (per set, oldest first), the persisted
    Subresults and FinalResults (per set), and the plots requested. *)
Record World : Type := mkWorld {
  renders : list (string * RenderParametersForSingle);
  subresults : list (string * Subresult);
  final_results : list (string * FinalResult);
  plots : list (string * option R)
}.

(** The state of one wavelength fit: the world and the local [history]. *)
Record FitState : Type := mkFitState {
  fs_world : World;
  fs_history : list (list R)
}.

Inductive imaging_type : Type :=
| imaging_type_refl
| imaging_type_tran.

(** ** Persistence and simulator collaborators, as operations on [World] *)

Definition Req_bool (a b : R) : bool := if Req_dec_T a b then true else false.

Definition same_subresult_file (set_name : string) (wl : R)
    (entry : string * Subresult) : bool :=
  String.eqb (fst entry) set_name && Req_bool (subres_wl (snd entry)) wl.

(** Modelled from the spec: [FH.subresult_exists] ([file_handling] is not
    among the sources); [subresult_exists(set, wl) -> bool], existence of the
    record on persistent storage being the completion marker. *)
Definition subresult_exists (set_name : string) (wl : R) (w : World) : bool :=
  existsb (same_subresult_file set_name wl) (subresults w).

(** Modelled from the spec: [T.write_subresult] ([toml_handlling] is not
    among the sources); one record per set and wavelength, the write being a
    whole-record overwrite. *)
Definition write_subresult (set_name : string) (res_dict : Subresult)
    : M World unit :=
  modify (fun w =>
    mkWorld (renders w)
      (filter (fun e => negb (same_subresult_file set_name (subres_wl res_dict) e))
              (subresults w) ++ [(set_name, res_dict)])
      (final_results w) (plots w)).

(** The Subresults persisted for a set, in the order they are listed. *)
Definition stored_subresults (set_name : string) (w : World) : list Subresult :=
  map snd (filter (fun e => String.eqb (fst e) set_name) (subresults w)).

(** Modelled from the spec: [T.collect_subresults];
    [collect_subresults(set) -> sequence<record>], every persisted Subresult
    of the set. *)
Definition collect_subresults (set_name : string) : M World (list Subresult) :=
  fun w => (Ok (stored_subresults set_name w), w).

(** Modelled from the spec: [T.read_final_result];
    [read_final_result(set) -> record | fails(NotFound)], the failure being
    the [OSError] that line 480 says it throws. *)
Definition read_final_result (set_name : string) : M World FinalResult :=
  fun w =>
    match find (fun e => String.eqb (fst e) set_name) (final_results w) with
    | Some e => (Ok (snd e), w)
    | None => (Raise OSError, w)
    end.

(** Modelled from the spec: [T.write_final_result];
    [write_final_result(set, record)], one FinalResult per set. *)
Definition write_final_result (set_name : string) (result_dict : FinalResult)
    : M World unit :=
  modify (fun w =>
    mkWorld (renders w) (subresults w)
      ((set_name, result_dict)
         :: filter (fun e => negb (String.eqb (fst e) set_name)) (final_results w))
      (plots w)).

(** Modelled from the spec: [B.run_render_single] ([blender_control] is not
    among the sources); the invocation is recorded, what it renders is read
    back through [get_relative_refl_or_tran] below. *)
Definition run_render_single (rps : RenderParametersForSingle)
    (set_name : string) : M World unit :=
  modify (fun w =>
    mkWorld (renders w ++ [(set_name, rps)]) (subresults w) (final_results w)
            (plots w)).

(** Modelled from the spec: [plotter.plot_subresult_opt_history] and
    [plotter.plot_final_result], fire-and-forget requests made after
    persistence. *)
Definition plot_subresult_opt_history (set_name : string) (wl : R)
    : M World unit :=
  modify (fun w =>
    mkWorld (renders w) (subresults w) (final_results w)
            (plots w ++ [(set_name, Some wl)])).

Definition plot_final_result (set_name : string) : M World unit :=
  modify (fun w =>
    mkWorld (renders w) (subresults w) (final_results w)
            (plots w ++ [(set_name, None)])).

(** [try: ... except OSError: ...] *)
Definition try_except_OSError {S A} (body handler : M S A) : M S A :=
  fun s =>
    match body s with
    | (Raise OSError, s') => handler s'
    | r => r
    end.

(** Run a computation on the world inside a fit. *)
Definition on_world {A} (c : M World A) : M FitState A :=
  fun st =>
    let (r, w') := c (fs_world st) in (r, mkFitState w' (fs_history st)).

(** [history.append(rec)] *)
Definition history_append (rec : list R) : M FitState unit :=
  modify (fun st => mkFitState (fs_world st) (fs_history st ++ [rec])).

(** ** What an optimisation routine does with the objective

    A routine of [scipy.optimize] is a program that evaluates the objective
    at points of its choosing, each choice depending on the values seen so
    far, and then returns its result or fails. *)
Inductive strategy : Type :=
| Finish (res : OptimizeResult)
| Abort (e : exn)
| Evaluate (x : list R) (k : R -> strategy).

Fixpoint run_strategy {S} (objective : list R -> M S R) (s : strategy)
    : M S OptimizeResult :=
  match s with
  | Finish res => ret res
  | Abort e => raise e
  | Evaluate x k => fun st =>
      match objective x st with
      | (Ok v, st') => run_strategy objective (k v) st'
      | (Raise e, st') => (Raise e, st')
      end
  end.

(** ** Python list helpers *)

Definition lift {S A} (o : outcome A) : M S A := fun s => (o, s).

(** [l[i]] for a non-negative [i] *)
Definition item {A} (l : list A) (i : nat) : outcome A :=
  match nth_error l i with
  | Some a => Ok a
  | None => Raise IndexError
  end.

(** [l[-1]] *)
Definition last_item {A} (l : list A) : outcome A :=
  match l with
  | [] => Raise IndexError
  | a :: l' => Ok (last l' a)
  end.

(** [[g(a) for a in l]] where [g] may raise *)
Fixpoint map_outcome {A B} (g : A -> outcome B) (l : list A) : outcome (list B) :=
  match l with
  | [] => Ok []
  | a :: l' =>
      match g a with
      | Ok b =>
          match map_outcome g l' with
          | Ok bs => Ok (b :: bs)
          | Raise e => Raise e
          end
      | Raise e => Raise e
      end
  end.

(** [sum(l)] and [np.mean(l)] *)
Definition sum (l : list R) : R := fold_left Rplus l 0.

Definition mean (l : list R) : R := sum l / INR (List.length l).

(** ** Aggregation (lines 464-510) *)

(** [sum([(nit > 1) for ...])] counts the [True] entries. *)
Definition count_true (flags : list bool) : nat :=
  List.length (filter (fun b => b) flags).

(** [np.sqrt(np.mean(np.array(errors)**2))] *)
Definition rmse (errors : list R) : R :=
  sqrt (mean (map (fun e => e ^ 2) errors)).

(** The root-mean-square error in the words of the specification:
    [sqrt(mean(error^2))], the mean being the sum over the count. *)
Definition rmse_spec (errors : list R) : R :=
  sqrt (fold_right (fun e acc => e * e + acc) 0 errors
        / INR (List.length errors)).

(** [subres[C.subres_key_optimizer_result]['nit'] > 1] *)
Definition more_than_one_hop (subres : Subresult) : outcome bool :=
  match res_nit (subres_optimizer_result subres) with
  | Some nit => Ok (1 <? nit)%nat
  | None => Raise KeyError
  end.

(** [make_final_result] *)
Definition make_final_result (set_name : string) (wall_clock_time_min : R)
    : M World unit :=
  subreslist <- collect_subresults set_name ;;
  wall_clock_elapsed_min <-
    try_except_OSError
      (previous_result <- read_final_result set_name ;;
       let this_result_time := wall_clock_time_min in
       let previous_result_time :=
         result_wall_clock_elapsed_min previous_result in
       ret (this_result_time + previous_result_time))
      (ret wall_clock_time_min) ;;
  let process_elapsed_min :=
    sum (map subres_elapsed_time_s subreslist) / 60.0 in
  let r_RMSE := rmse (map subres_reflectance_error subreslist) in
  let t_RMSE := rmse (map subres_transmittance_error subreslist) in
  first <- lift (item subreslist 0) ;;
  let optimizer := Tuple1 (subres_optimizer first) in
  let optimizer_ftol := Tuple1 ftol in
  let optimizer_xtol := Tuple1 xtol in
  let optimizer_diffstep := Tuple1 diffstep in
  basin_iterations_required <-
    (if String.eqb (item0 optimizer) "basin_hopping" then
       flags <- lift (map_outcome more_than_one_hop subreslist) ;;
       ret (Some (count_true flags))
     else ret None) ;;
  let final (column : Subresult -> list R) :=
    lift (map_outcome (fun subres => last_item (column subres)) subreslist) in
  absorption_density <- final subres_history_absorption_density ;;
  scattering_density <- final subres_history_scattering_density ;;
  scattering_anisotropy <- final subres_history_scattering_anisotropy ;;
  mix_factor <- final subres_history_mix_factor ;;
  write_final_result set_name
    (mkFinalResult wall_clock_elapsed_min process_elapsed_min r_RMSE t_RMSE
       optimizer optimizer_ftol optimizer_xtol optimizer_diffstep
       basin_iterations_required
       (map subres_wl subreslist)
       (map subres_reflectance_modeled subreslist)
       (map subres_reflectance_measured subreslist)
       (map subres_reflectance_error subreslist)
       (map subres_transmittance_modeled subreslist)
       (map subres_transmittance_measured subreslist)
       (map subres_transmittance_error subreslist)
       absorption_density scattering_density scattering_anisotropy mix_factor) ;;;
  plot_final_result set_name.

(** What is persisted for a set, if anything. *)
Definition persisted_final_result (set_name : string) (w : World)
    : option FinalResult :=
  match read_final_result set_name w with
  | (Ok result, _) => Some result
  | (Raise _, _) => None
  end.

(** ** The batch scheduler (lines 93-161) *)

(** [range(0, stop, step)] for a positive [step] *)
Definition range_step (stop step : nat) : list nat :=
  map (fun j => (j * step)%nat) (seq 0 ((stop + step - 1) / step)).

(** [l[0:-1:step]] for a positive [step]: the stop index [-1] is the index
    of the last entry, which a slice excludes. *)
Definition slice_0_to_minus_1 {A} (step : nat) (l : list A) : list A :=
  flat_map (fun i => match nth_error l i with Some a => [a] | None => [] end)
           (range_step (List.length l - 1) step).

(** Lines 141-143: [if resolution is not 1: targets = targets[0:-1:resolution]].
    A zero step is refused by the slice; a negative step from index 0 selects
    nothing. *)
Definition downsample {A} (resolution : Z) (targets : list A)
    : outcome (list A) :=
  if (resolution =? 1)%Z then Ok targets
  else if (resolution =? 0)%Z then Raise ValueError
  else if (resolution <? 0)%Z then Ok []
  else Ok (slice_0_to_minus_1 (Z.to_nat resolution) targets).

(** [int(a / b)] on list lengths: the true division raises on a zero
    divisor and its truncation is the integer quotient (the float quotient
    of two lengths below [2^52] never rounds up to the next integer). *)
Definition int_div (a b : nat) : outcome nat :=
  match b with
  | O => Raise ZeroDivisionError
  | S _ => Ok (a / b)%nat
  end.

(** The index lists that [run_optimization_in_batches] builds, in the order
    it uses them: one per [i in range(batch_n)] (lines 101-104), then the one
    for the last item (lines 109-110). *)
Definition batch_selectors (wl_n batch_n : nat) : outcome (list (list nat)) :=
  match int_div wl_n batch_n with
  | Raise e => Raise e
  | Ok batch_size =>
      match int_div wl_n batch_size with
      | Raise e => Raise e
      | Ok step_size =>
          Ok (map (fun i => map (fun j => (i + j * step_size)%nat)
                                (seq 0 batch_size))
                  (seq 0 batch_n)
              ++ (if (wl_n mod batch_n =? 0)%nat then []
                  else [[(wl_n - 1)%nat]]))
      end
  end.

(** *** The process pool

    [Pool.map] of [multiprocessing] cuts the argument list into chunks and
    hands each chunk to a worker, which runs its items in order and gives
    up the chunk at the first exception; every chunk is run, and the first
    exception is raised again when all of them are done.  The workers are
    run here one chunk after the other, in input order: one of the
    schedules of the pool. *)

(** The chunk size [Pool.map] chooses for [n] items and [processes]
    workers ([Pool()] has one worker per processing unit, at least one). *)
Definition pool_chunksize (n : nat) (processes : positive) : nat :=
  let chunksize := (n / (Pos.to_nat processes * 4))%nat in
  let extra := (n mod (Pos.to_nat processes * 4))%nat in
  let chunksize := if (extra =? 0)%nat then chunksize else S chunksize in
  if (n =? 0)%nat then O else chunksize.

(** [Pool._get_tasks]: successive slices of [size] items until one is
    empty; [fuel] bounds the number of slices. *)
Fixpoint get_tasks {A} (size fuel : nat) (l : list A) : list (list A) :=
  match fuel with
  | O => []
  | S fuel' =>
      match firstn size l with
      | [] => []
      | x => x :: get_tasks size fuel' (skipn size l)
      end
  end.

(** Every chunk is run; [failed] is the first exception seen so far. *)
Fixpoint run_chunks {S A} (body : A -> M S unit) (chunks : list (list A))
    (failed : option exn) : M S unit :=
  match chunks with
  | [] =>
      match failed with
      | None => ret tt
      | Some e => raise e
      end
  | chunk :: chunks' => fun s =>
      match for_each body chunk s with
      | (Ok _, s') => run_chunks body chunks' failed s'
      | (Raise e, s') =>
          run_chunks body chunks'
            (match failed with
             | None => Some e
             | Some e0 => Some e0
             end) s'
      end
  end.

(** [pool.map(body, l)] *)
Definition Pool_map {S A} (processes : positive) (body : A -> M S unit)
    (l : list A) : M S unit :=
  run_chunks body
    (get_tasks (pool_chunksize (List.length l) processes) (List.length l) l)
    None.

(** ** The per-wavelength fit (lines 287-461) *)

Section Collaborators.

(** [time.perf_counter()]: the reading depends on what has happened. *)
Variable clock : World -> R.

(** [DU.get_relative_refl_or_tran(imaging_type, wl, base_path)]: reads what
    the simulator has rendered for the set. *)
Variable get_relative_refl_or_tran : imaging_type -> R -> string -> World -> R.

(** The routines of [scipy.optimize], each with the arguments the module
    passes apart from the objective, which they reach through [Evaluate]. *)
Variable least_squares :
  forall (x0 : list R) (bounds : list R * list R) (method : string)
         (diff_step ftol xtol : R), strategy.
Variable shgo :
  forall (bounds : list (R * R)) (iters n : nat) (sampling_method : string),
    strategy.
Variable dual_annealing :
  forall (bounds : list (R * R)) (seed maxiter maxfun : nat) (initial_temp : R)
         (x0 : list R) (restart_temp_ratio visit accept : R), strategy.
Variable basinhopping :
  forall (x0 : list R) (stepsize : R) (niter : nat) (T : R) (interval : nat)
         (take_step : (nat -> R -> R -> R) -> list R -> outcome (list R))
         (callback : list R -> R -> bool -> option bool)
         (minimizer : list R -> strategy), strategy.

Definition perf_counter : M World R := fun w => (Ok (clock w), w).

(** [distance] (lines 299-303) *)
Definition distance (r_m t_m r t : R) : R :=
  let r_diff := r - r_m in
  let t_diff := t - t_m in
  sqrt (r_diff * r_diff + t_diff * t_diff).

(** The objective [f] (lines 305-333). *)
Definition f (wl r_m t_m : R) (set_name : string) (x : list R)
    : M FitState R :=
  x0 <- lift (item x 0) ;;
  x1 <- lift (item x 1) ;;
  x2 <- lift (item x 2) ;;
  x3 <- lift (item x 3) ;;
  let rps := mkRps false false false false wl
               (x0 * density_scale) (x1 * density_scale) x2 x3 in
  on_world (run_render_single rps set_name) ;;;
  st <- get ;;
  let r := get_relative_refl_or_tran imaging_type_refl (rps_wl rps) set_name
             (fs_world st) in
  let t := get_relative_refl_or_tran imaging_type_tran (rps_wl rps) set_name
             (fs_world st) in
  let dist := distance r_m t_m r t * density_scale in
  history_append (x ++ [r; t]) ;;;
  let penalty := 0 in
  let some_big_number := 1e6 in
  let penalty := if Rgt_dec (r + t) 1 then some_big_number else penalty in
  ret (dist + penalty).

(** [Stepper.__call__] (lines 391-402); [uniform i a b] is the draw of
    [np.random.uniform(a, b)] made for component [i]. *)
Fixpoint Stepper_call_from (i : nat) (stepsize : R) (uniform : nat -> R -> R -> R)
    (x : list R) : outcome (list R) :=
  match x with
  | [] => Ok []
  | xi :: x' =>
      match item ub i, item lb i with
      | Ok ubi, Ok lbi =>
          let bound_length := ubi - lbi in
          let s := bound_length * stepsize in
          let xi := xi + uniform i (- s) s in
          let xi := if Rgt_dec xi ubi then ubi else xi in
          let xi := if Rlt_dec xi lbi then lbi else xi in
          match Stepper_call_from (S i) stepsize uniform x' with
          | Ok rest => Ok (xi :: rest)
          | Raise e => Raise e
          end
      | _, _ => Raise IndexError
      end
  end.

Definition Stepper_call (stepsize : R) (uniform : nat -> R -> R -> R)
    (x : list R) : outcome (list R) :=
  Stepper_call_from 0 stepsize uniform x.

(** [callback] (lines 404-411): [True] or, falling off the end, [None]. *)
Definition callback (x : list R) (f : R) (accepted : bool) : option bool :=
  if Rle_dec f ftol_abs then Some true else None.

(** [custom_local_minimizer] (lines 413-416) *)
Definition custom_local_minimizer (x0 : list R) : strategy :=
  least_squares x0 bounds "dogbox" diffstep ftol xtol.

Definition not_recognized (opt_method : string) : exn :=
  Exception ("Optimization method '" ++ opt_method ++ "' not recognized.")%string.

(** The dispatch on [opt_method] (lines 373-425). *)
Definition select_strategy (opt_method : string) (x_0 : list R)
    : outcome strategy :=
  if String.eqb opt_method "least_squares" then
    Ok (least_squares x_0 bounds "dogbox" diffstep ftol xtol)
  else if String.eqb opt_method "shgo" then
    let shgo_bounds := combine lb ub in
    Ok (shgo shgo_bounds 10 2 "sobol")
  else if String.eqb opt_method "anneal" then
    let anneal_bounds := combine lb ub in
    Ok (dual_annealing anneal_bounds 123 500 1000 5000 x_0 0.9999 2.1 (-9000))
  else if String.eqb opt_method "basin_hopping" then
    let custom_step := Stepper_call 0.1 in
    Ok (basinhopping x_0 0.1 2 0 1 custom_step callback custom_local_minimizer)
  else Raise (not_recognized opt_method).

(** Lines 366-430: seed the history, run the chosen routine, take the
    time, evaluate once more at the returned vector. *)
Definition fit (wl r_m t_m : R) (set_name opt_method : string) (start : R)
    : M FitState (OptimizeResult * R) :=
  let x_0 := get_starting_guess (1 - (r_m + t_m)) in
  history_append (x_0 ++ [0; 0]) ;;;
  s <- lift (select_strategy opt_method x_0) ;;
  res <- run_strategy (f wl r_m t_m set_name) s ;;
  now <- on_world perf_counter ;;
  let elapsed := now - start in
  f wl r_m t_m set_name (res_x res) ;;;
  ret (res, elapsed).

(** The record of lines 432-453. *)
Definition make_res_dict (wl r_m t_m : R) (opt_method : string)
    (res : OptimizeResult) (elapsed : R) (history : list (list R))
    : outcome Subresult :=
  let column (i : nat) := map_outcome (fun h => item h i) history in
  match last_item history with
  | Raise e => Raise e
  | Ok final =>
      match item final 4, item final 5 with
      | Ok r, Ok t =>
          match column 4%nat, column 5%nat, column 0%nat, column 1%nat,
                column 2%nat, column 3%nat with
          | Ok hr, Ok ht, Ok h0, Ok h1, Ok h2, Ok h3 =>
              Ok (mkSubresult wl r_m t_m r t (Rabs (r - r_m)) (Rabs (t - t_m))
                    (List.length history - 1) opt_method ftol xtol diffstep res
                    elapsed hr ht h0 h1 h2 h3)
          | _, _, _, _, _, _ => Raise IndexError
          end
      | _, _ => Raise IndexError
      end
  end.

(** [optimize_single_wl] *)
Definition optimize_single_wl (wl r_m t_m : R) (set_name opt_method : string)
    : M World unit :=
  fun w =>
    if subresult_exists set_name wl w then (Ok tt, w)
    else
      (start <- perf_counter ;;
       let rps := mkRps false false true false wl 0 0 0 0 in
       run_render_single rps set_name ;;;
       fun w1 =>
         match (out <- fit wl r_m t_m set_name opt_method start ;;
                st <- get ;;
                res_dict <- lift (make_res_dict wl r_m t_m opt_method (fst out)
                                    (snd out) (fs_history st)) ;;
                ret res_dict) (mkFitState w1 []) with
         | (Ok res_dict, st) =>
             (write_subresult set_name res_dict ;;;
              plot_subresult_opt_history set_name wl) (fs_world st)
         | (Raise e, st) => (Raise e, fs_world st)
         end) w.

(** [optimize_single_wl_threaded] *)
Definition optimize_single_wl_threaded (args : R * R * R * string * string)
    : M World unit :=
  let '(a0, a1, a2, a3, a4) := args in optimize_single_wl a0 a1 a2 a3 a4.


(** *** The batch scheduler entry points *)

(** [T.read_target]: the target spectrum of a set, rows [(wl, r_m, t_m)]. *)
Variable read_target : string -> list (R * R * R).

(** The number of workers of [Pool()]: the processing units of the host. *)
Variable processes : positive.

(** [run_optimization].  The pool of line 150 hands every tuple to
    [optimize_single_wl_threaded]. *)
Definition run_optimization (set_name : string)
    (targets : option (list (R * R * R))) (use_threads : bool)
    (opt_method : string) (resolution : Z) : M World unit :=
  total_time_start <- perf_counter ;;
  let targets :=
    match targets with
    | None => read_target set_name
    | Some targets => targets
    end in
  targets <- lift (downsample resolution targets) ;;
  (if use_threads then
     let param_list :=
       map (fun a => (fst (fst a), snd (fst a), snd a, set_name, opt_method))
           targets in
     Pool_map processes optimize_single_wl_threaded param_list
   else
     for_each (fun target =>
                 let wl := fst (fst target) in
                 let r_m := snd (fst target) in
                 let t_m := snd target in
                 optimize_single_wl wl r_m t_m set_name opt_method)
              targets) ;;;
  now <- perf_counter ;;
  let elapsed_min := (now - total_time_start) / 60 in
  make_final_result set_name elapsed_min.

(** [run_optimization_in_batches] *)
Definition run_optimization_in_batches (set_name : string) (batch_n : nat)
    (opt_method : string) : M World unit :=
  let wl_n := List.length (read_target set_name) in
  selectors <- lift (batch_selectors wl_n batch_n) ;;
  for_each (fun selector =>
              wls <- lift (map_outcome (item (read_target set_name)) selector) ;;
              run_optimization set_name (Some wls) true opt_method 1)
           selectors.

End Collaborators.

(** The identifiers the dispatch of lines 373-425 knows. *)
Definition recognized_optimizers : list string :=
  ["least_squares"; "shgo"; "anneal"; "basin_hopping"]%string.

(** A routine that keeps to four-parameter vectors and does not fail: every
    point it evaluates, and the point it returns, has the four components
    the objective reads. *)
Inductive four_parameter : strategy -> Prop :=
| four_parameter_Finish (res : OptimizeResult) :
    (4 <= List.length (res_x res))%nat -> four_parameter (Finish res)
| four_parameter_Evaluate (x : list R) (k : R -> strategy) :
    (4 <= List.length x)%nat -> (forall v, four_parameter (k v)) ->
    four_parameter (Evaluate x k).

(** Renders and history records are added in step: one of each per
    completed evaluation, none for a failed one; a record is the vector
    followed by two outputs. *)
Definition in_step (st st' : FitState) : Prop :=
  exists rendered recorded,
    renders (fs_world st') = renders (fs_world st) ++ rendered
    /\ fs_history st' = fs_history st ++ recorded
    /\ List.length rendered = List.length recorded
    /\ Forall (fun h => (6 <= List.length h)%nat) recorded.

(** ** Concrete collaborators and stores, for running the model *)

Module Sample.

Definition clock (w : World) : R := INR (List.length (renders w)).

(** A simulator that reports [r = t = 0.25] whatever it is given. *)
Definition sim (_ : imaging_type) (_ : R) (_ : string) (_ : World) : R := 0.25.

(** A routine that evaluates its starting point once and returns it. *)
Definition one_shot (x0 : list R) : strategy :=
  Evaluate x0 (fun _ => Finish (mkRes x0 (Some 1%nat))).

Definition least_squares (x0 : list R) (_ : list R * list R) (_ : string)
    (_ _ _ : R) : strategy := one_shot x0.

Definition shgo (bounds : list (R * R)) (_ _ : nat) (_ : string) : strategy :=
  one_shot (map fst bounds).

Definition dual_annealing (_ : list (R * R)) (_ _ _ : nat) (_ : R)
    (x0 : list R) (_ _ _ : R) : strategy := one_shot x0.

Definition basinhopping (x0 : list R) (_ : R) (_ : nat) (_ : R) (_ : nat)
    (_ : (nat -> R -> R -> R) -> list R -> outcome (list R))
    (_ : list R -> R -> bool -> option bool)
    (minimizer : list R -> strategy) : strategy := minimizer x0.

(** A persisted record with the given errors and elapsed seconds. *)
Definition subresult (wl r_error t_error elapsed : R) : Subresult :=
  mkSubresult wl 0.4 0.4 0.3 0.3 r_error t_error 2 "least_squares" ftol xtol
    diffstep (mkRes [0.2; 0.3; 0.1; 0.5] None) elapsed
    [0; 0.3] [0; 0.3] [0.25; 0.2] [0.5; 0.3] [0.2; 0.1] [0.6; 0.5].

(** Three wavelengths done for the set ["leaf"], nothing aggregated yet. *)
Definition world : World :=
  mkWorld []
    [("leaf"%string, subresult 500 0.1 0.05 60);
     ("leaf"%string, subresult 510 0.2 0.05 90);
     ("leaf"%string, subresult 520 0.3 0.05 30)]
    [] [].

(** A simulator that reports [r = t = 0.75], an infeasible pair. *)
Definition infeasible_sim (_ : imaging_type) (_ : R) (_ : string) (_ : World)
    : R := 0.75.

(** A simulator whose reading depends on the last render: a quarter of the
    mix factor rendered last as reflectance, a quarter of the anisotropy
    rendered last as transmittance. *)
Definition echo_sim (it : imaging_type) (_ : R) (_ : string) (w : World)
    : R :=
  match last_item (renders w) with
  | Ok (_, rps) =>
      match it with
      | imaging_type_refl => mix_fac rps / 4
      | imaging_type_tran => scat_ai rps / 4
      end
  | Raise _ => 0
  end.

(** A routine that evaluates its starting point, then another point, and
    returns the starting point: not the last point it evaluated. *)
Definition two_shot (x0 : list R) (_ : list R * list R) (_ : string)
    (_ _ _ : R) : strategy :=
  Evaluate x0 (fun _ =>
    Evaluate [0.5; 0.5; 0.4; 1] (fun _ => Finish (mkRes x0 (Some 1%nat)))).

(** A routine that gives up on a starting point whose first component is
    0.3 or more, and evaluates any other starting point once. *)
Definition picky (x0 : list R) (_ : list R * list R) (_ : string)
    (_ _ _ : R) : strategy :=
  if Rlt_dec (hd 0 x0) 0.3 then one_shot x0
  else Abort (Exception "starting point refused").

(** A host with four processing units. *)
Definition processes : positive := 4%positive.

(** The target spectrum of the set ["leaf"]: the three wavelengths done. *)
Definition read_target (set_name : string) : list (R * R * R) :=
  if String.eqb set_name "leaf"
  then [(500, 0.4, 0.4); (510, 0.4, 0.4); (520, 0.4, 0.4)]
  else [].

End Sample.

(** Evaluation of the model on concrete stores: everything but the
    arithmetic of the reals is computed. *)
Ltac run_model :=
  cbv -[Rplus Rminus Rmult Rdiv Rinv Ropp IZR INR sqrt Rabs pow
        Rgt_dec Rle_dec Rlt_dec Req_dec_T Z.pow_pos].

(** The decision of [Sample.picky] on a concrete starting point. *)
Ltac settle_picky :=
  match goal with
  | |- context [Sample.picky ?x0 ?b ?m ?a1 ?a2 ?a3] =>
      first
        [ replace (Sample.picky x0 b m a1 a2 a3)
            with (Abort (Exception "starting point refused"))
            by (unfold Sample.picky;
                destruct (Rlt_dec _ _) as [H|H];
                [exfalso; cbv [get_starting_guess hd nth] in H; lra
                |reflexivity])
        | replace (Sample.picky x0 b m a1 a2 a3)
            with (Sample.one_shot x0)
            by (unfold Sample.picky;
                destruct (Rlt_dec _ _) as [H|H];
                [reflexivity
                |exfalso; apply H; cbv [get_starting_guess hd nth]; lra]) ]
  end.

(** * Properties *)

(** ** The starting guess *)

(** C8: for every proxy value in [[0, 1]] the starting guess, four fixed
    quadratic polynomials evaluated at the proxy, lies within the declared
    bounds: first and second components in [[0.01, 1]], third in
    [[-0.5, 0.5]], fourth in [[0, 1]]. *)
Theorem starting_guess_within_bounds (proxy : R) :
  0 <= proxy <= 1 -> within_bounds (get_starting_guess proxy).
Proof.
  intros Hproxy.
  unfold within_bounds, get_starting_guess, bounds, lb, ub; simpl.
  repeat split; nra.
Qed.

Lemma starting_guess_within_bounds_witness :
  0 <= 0.5 <= 1 /\ within_bounds (get_starting_guess 0.5).
Proof.
  assert (H : 0 <= 0.5 <= 1) by lra.
  split; [exact H | exact (starting_guess_within_bounds H)].
Defined.

(** The guess always has four components, whatever the proxy. *)
Lemma starting_guess_length (proxy : R) :
  List.length (get_starting_guess proxy) = 4%nat.
Proof. reflexivity. Qed.

(** ** The objective *)

Lemma distance_nonneg (r_m t_m r t : R) : 0 <= distance r_m t_m r t.
Proof. unfold distance. apply sqrt_pos. Qed.

Lemma distance_unit_square (r_m t_m r t : R) :
  0 <= r <= 1 -> 0 <= t <= 1 -> 0 <= r_m <= 1 -> 0 <= t_m <= 1 ->
  distance r_m t_m r t < 2.
Proof.
  intros Hr Ht Hrm Htm. unfold distance; cbv zeta.
  replace 2 with (sqrt (2 * 2)) at 1 by (apply sqrt_square; lra).
  assert (Hdr : (r - r_m) * (r - r_m) <= 1) by nra.
  assert (Hdt : (t - t_m) * (t - t_m) <= 1) by nra.
  pose proof (Rle_0_sqr (r - r_m)) as Hr0.
  pose proof (Rle_0_sqr (t - t_m)) as Ht0.
  unfold Rsqr in Hr0, Ht0.
  apply sqrt_lt_1; lra.
Qed.

Section Objective.

Variable sim : imaging_type -> R -> string -> World -> R.
Variables (wl r_m t_m : R) (set_name : string).

(** What one evaluation does to the state and what it returns. *)
Lemma f_four_components (x0 x1 x2 x3 : R) (rest : list R) (st : FitState) :
  let x := x0 :: x1 :: x2 :: x3 :: rest in
  let rps := mkRps false false false false wl (x0 * density_scale)
               (x1 * density_scale) x2 x3 in
  let w := fs_world st in
  let w' := mkWorld (renders w ++ [(set_name, rps)]) (subresults w)
              (final_results w) (plots w) in
  let r := sim imaging_type_refl wl set_name w' in
  let t := sim imaging_type_tran wl set_name w' in
  f sim wl r_m t_m set_name x st
  = (Ok (distance r_m t_m r t * density_scale
         + (if Rgt_dec (r + t) 1 then 1e6 else 0)),
     mkFitState w' (fs_history st ++ [x ++ [r; t]])).
Proof. reflexivity. Qed.

Lemma f_too_short (x : list R) (st : FitState) :
  (List.length x < 4)%nat ->
  f sim wl r_m t_m set_name x st = (Raise IndexError, st).
Proof.
  intros Hlen.
  destruct x as [|x0 [|x1 [|x2 [|x3 rest]]]]; try reflexivity.
  simpl in Hlen; lia.
Qed.

Lemma f_returns (x : list R) (st st' : FitState) (v : R) :
  f sim wl r_m t_m set_name x st = (Ok v, st') ->
  let r := sim imaging_type_refl wl set_name (fs_world st') in
  let t := sim imaging_type_tran wl set_name (fs_world st') in
  v = distance r_m t_m r t * density_scale
      + (if Rgt_dec (r + t) 1 then 1e6 else 0)
  /\ fs_history st' = fs_history st ++ [x ++ [r; t]]
  /\ subresults (fs_world st') = subresults (fs_world st)
  /\ final_results (fs_world st') = final_results (fs_world st).
Proof.
  destruct x as [|x0 [|x1 [|x2 [|x3 rest]]]];
    try (rewrite f_too_short by (simpl; lia); discriminate).
  rewrite f_four_components. intros H; inversion H; subst; clear H.
  cbn [fs_world fs_history subresults final_results]. auto.
Qed.

(** C3: an evaluation at a parameter vector of four components or more
    renders that vector and returns; with [(r, t)] the simulated outputs
    read after this render, what it returns when [r + t > 1] is the scaled
    distance plus the penalty [1e6], a value of at least [1e6]; what it
    returns when [r + t <= 1] is the scaled distance alone, which is
    strictly less than [1e6] when [r], [t], [r_m], [t_m] are each in
    [[0, 1]]. *)
Theorem objective_penalty_dominates (x : list R) (st : FitState) :
  (4 <= List.length x)%nat ->
  exists v st',
    f sim wl r_m t_m set_name x st = (Ok v, st')
    /\ renders (fs_world st')
       = renders (fs_world st)
         ++ [(set_name, mkRps false false false false wl
                (nth 0 x 0 * density_scale) (nth 1 x 0 * density_scale)
                (nth 2 x 0) (nth 3 x 0))]
    /\ let r := sim imaging_type_refl wl set_name (fs_world st') in
       let t := sim imaging_type_tran wl set_name (fs_world st') in
       (r + t > 1 ->
        v = distance r_m t_m r t * density_scale + 1e6 /\ v >= 1e6)
       /\ (r + t <= 1 ->
           v = distance r_m t_m r t * density_scale
           /\ (0 <= r <= 1 -> 0 <= t <= 1 -> 0 <= r_m <= 1 -> 0 <= t_m <= 1 ->
               v < 1e6)).
Proof.
  intros Hlen.
  destruct x as [|x0 [|x1 [|x2 [|x3 rest]]]]; try (simpl in Hlen; lia).
  rewrite f_four_components. cbv zeta. eexists. eexists.
  split; [reflexivity|]. split; [reflexivity|].
  cbv zeta. cbn [fs_world].
  set (r := sim imaging_type_refl _ _ _).
  set (t := sim imaging_type_tran _ _ _).
  split.
  - intros Hgt. destruct (Rgt_dec (r + t) 1) as [_|Hn]; [|contradiction].
    split; [reflexivity|].
    pose proof (distance_nonneg r_m t_m r t). unfold density_scale. nra.
  - intros Hle. destruct (Rgt_dec (r + t) 1) as [Hgt|_]; [lra|].
    split; [lra|].
    intros Hr Ht Hrm Htm.
    pose proof (distance_unit_square Hr Ht Hrm Htm).
    pose proof (distance_nonneg r_m t_m r t). unfold density_scale. nra.
Qed.

End Objective.

Lemma objective_penalty_dominates_witness :
  le 4 (List.length [0.2; 0.3; 0.1; 0.5])
  /\ (exists v st',
        f Sample.infeasible_sim 500 0.4 0.4 "leaf" [0.2; 0.3; 0.1; 0.5]
          (mkFitState Sample.world []) = (Ok v, st')
        /\ v = distance 0.4 0.4 0.75 0.75 * density_scale + 1e6
        /\ v >= 1e6)
  /\ (exists v st',
        f Sample.sim 500 0.4 0.4 "leaf" [0.2; 0.3; 0.1; 0.5]
          (mkFitState Sample.world []) = (Ok v, st')
        /\ v = distance 0.4 0.4 0.25 0.25 * density_scale
        /\ v < 1e6).
Proof.
  assert (Hlen : le 4 (List.length [0.2; 0.3; 0.1; 0.5]))
    by (simpl; lia).
  split; [exact Hlen|]. split.
  - destruct (@objective_penalty_dominates Sample.infeasible_sim 500 0.4 0.4
                "leaf" [0.2; 0.3; 0.1; 0.5] (mkFitState Sample.world []) Hlen)
      as (v & st' & Hf & _ & Hv).
    cbv zeta in Hv. destruct Hv as (Hgt & _).
    unfold Sample.infeasible_sim in Hgt.
    exists v, st'. split; [exact Hf|]. apply Hgt. lra.
  - destruct (@objective_penalty_dominates Sample.sim 500 0.4 0.4
                "leaf" [0.2; 0.3; 0.1; 0.5] (mkFitState Sample.world []) Hlen)
      as (v & st' & Hf & _ & Hv).
    cbv zeta in Hv. destruct Hv as (_ & Hle).
    unfold Sample.sim in Hle.
    assert (Hsum : 0.25 + 0.25 <= 1) by lra.
    destruct (Hle Hsum) as (Hv & Hlt).
    exists v, st'. split; [exact Hf|]. split; [exact Hv|].
    apply Hlt; lra.
Defined.

(** ** The basin-hopping callback *)

(** C10, as the code has it: the callback asks the outer loop to stop exactly
    when the objective value it is shown is at or below [ftol_abs = 1.0],
    whether or not the candidate was accepted; otherwise it returns [None]. *)
Theorem callback_stops_at_threshold (x : list R) (fv : R) (accepted : bool) :
  ftol_abs = 1
  /\ (callback x fv accepted = Some true <-> fv <= ftol_abs)
  /\ (callback x fv accepted = None <-> fv > ftol_abs)
  /\ callback x fv accepted = callback x fv (negb accepted).
Proof.
  unfold callback. split; [unfold ftol_abs; lra|].
  destruct (Rle_dec fv ftol_abs) as [Hle|Hgt]; repeat split;
    intros; try reflexivity; try discriminate; try lra.
Qed.

(** The claim's "does not signal stop otherwise" fails for a candidate that
    was not accepted: at objective value 0.8 the callback returns [True]
    although [accepted] is [False]. *)
Lemma callback_stops_on_rejected_candidate :
  ~ (callback [0.2; 0.5; 0.1; 0.5] 0.8 false = Some true
     <-> (false = true /\ 0.8 <= ftol_abs)).
Proof.
  intros [Hstop _].
  assert (Hcb : callback [0.2; 0.5; 0.1; 0.5] 0.8 false = Some true).
  { unfold callback. destruct (Rle_dec 0.8 ftol_abs) as [_|Hn]; [reflexivity|].
    exfalso; apply Hn; unfold ftol_abs; lra. }
  destruct (Hstop Hcb) as [Habs _]. discriminate.
Qed.

(** ** The basin-hopping step *)

(** The custom step never leaves the box: a four-parameter vector is
    jittered and clamped back into [[lb, ub]], whatever the draws. *)
Lemma Stepper_call_within_bounds (stepsize : R) (uniform : nat -> R -> R -> R)
    (x0 x1 x2 x3 : R) :
  exists x',
    Stepper_call stepsize uniform [x0; x1; x2; x3] = Ok x'
    /\ within_bounds x'.
Proof.
  eexists. split; [run_model; reflexivity|].
  unfold within_bounds, bounds, lb, ub. cbn [fst snd in_box].
  repeat match goal with
         | |- context [Rgt_dec ?a ?b] => destruct (Rgt_dec a b)
         | |- context [Rlt_dec ?a ?b] => destruct (Rlt_dec a b)
         end; repeat split; lra.
Qed.

(** A vector longer than the bounds makes the step raise. *)
Lemma Stepper_call_five_components (stepsize : R)
    (uniform : nat -> R -> R -> R) (x0 x1 x2 x3 x4 : R) :
  Stepper_call stepsize uniform [x0; x1; x2; x3; x4] = Raise IndexError.
Proof. reflexivity. Qed.

(** ** The aggregator *)

Lemma fold_left_Rplus (l : list R) (a : R) :
  fold_left Rplus l a = a + fold_right Rplus 0 l.
Proof.
  revert a. induction l as [|e l IH]; intros a; simpl.
  - lra.
  - rewrite IH. lra.
Qed.

Lemma sum_of_squares (l : list R) :
  sum (map (fun e => e ^ 2) l) = fold_right (fun e acc => e * e + acc) 0 l.
Proof.
  unfold sum. rewrite fold_left_Rplus, Rplus_0_l.
  induction l as [|e l IH]; cbn [map fold_right]; [reflexivity|].
  rewrite IH. lra.
Qed.

(** The code's computation and the specification's formula agree. *)
Lemma rmse_is_rmse_spec (errors : list R) : rmse errors = rmse_spec errors.
Proof.
  unfold rmse, rmse_spec, mean. rewrite sum_of_squares, length_map.
  reflexivity.
Qed.

Lemma persisted_after_write (set_name : string) (fr : FinalResult) (w : World) :
  persisted_final_result set_name (snd (write_final_result set_name fr w))
  = Some fr.
Proof.
  unfold persisted_final_result, read_final_result, write_final_result, modify.
  cbn [snd final_results find fst]. rewrite String.eqb_refl. reflexivity.
Qed.

(** What a completed aggregation has persisted. *)
Lemma make_final_result_completed (set_name : string) (wall : R) (w w' : World) :
  make_final_result set_name wall w = (Ok tt, w') ->
  exists fr,
    persisted_final_result set_name w' = Some fr
    /\ result_wall_clock_elapsed_min fr
       = match persisted_final_result set_name w with
         | Some previous_result =>
             wall + result_wall_clock_elapsed_min previous_result
         | None => wall
         end
    /\ result_process_elapsed_min fr
       = sum (map subres_elapsed_time_s (stored_subresults set_name w)) / 60
    /\ result_r_RMSE fr
       = rmse (map subres_reflectance_error (stored_subresults set_name w))
    /\ result_t_RMSE fr
       = rmse (map subres_transmittance_error (stored_subresults set_name w))
    /\ stored_subresults set_name w <> []
    /\ subresults w' = subresults w.
Proof.
  unfold make_final_result, item0, collect_subresults, try_except_OSError, bind, ret,
    lift, persisted_final_result.
  set (subs := stored_subresults set_name w).
  unfold read_final_result.
  destruct (find (fun e => String.eqb (fst e) set_name) (final_results w))
    as [previous|] eqn:Hfind;
    (destruct (item subs 0) as [first|] eqn:Hfirst; [|discriminate]);
    (destruct (String.eqb (subres_optimizer first) "basin_hopping");
     [destruct (map_outcome more_than_one_hop subs); [|discriminate]|]);
    repeat match goal with
      | |- context [match map_outcome ?g subs with _ => _ end] =>
          destruct (map_outcome g subs); [|discriminate]
      end;
    intros H; inversion H; subst; clear H;
    (eexists; split;
     [ cbn [final_results find fst snd]; rewrite String.eqb_refl; reflexivity
     | cbn [result_wall_clock_elapsed_min result_process_elapsed_min
            result_r_RMSE result_t_RMSE subresults snd];
       repeat split; try reflexivity; try (f_equal; lra);
       intros Hnil; rewrite Hnil in Hfirst; discriminate ]).
Qed.

Lemma map_outcome_raises {A B} (g : A -> outcome B) (l : list A) (e : exn) :
  map_outcome g l = Raise e -> exists a, In a l /\ g a = Raise e.
Proof.
  induction l as [|a l IH]; simpl; [discriminate|].
  destruct (g a) as [b|e'] eqn:Hga.
  - destruct (map_outcome g l) as [bs|e'']; [discriminate|].
    intros H; inversion H; subst.
    destruct (IH eq_refl) as (a' & Hin & Ha'). exists a'; auto.
  - intros H; inversion H; subst. exists a; auto.
Qed.

Lemma last_item_raises {A} (l : list A) (e : exn) :
  last_item l = Raise e -> e = IndexError.
Proof. destruct l; simpl; intros H; inversion H; reflexivity. Qed.

Lemma final_column_raises (column : Subresult -> list R)
    (subs : list Subresult) (e : exn) :
  map_outcome (fun subres => last_item (column subres)) subs = Raise e ->
  e = IndexError.
Proof.
  intros H. destruct (map_outcome_raises _ _ H) as (a & _ & Ha).
  exact (last_item_raises _ Ha).
Qed.

Lemma more_than_one_hop_raises (subs : list Subresult) (e : exn) :
  map_outcome more_than_one_hop subs = Raise e -> e = KeyError.
Proof.
  intros H. destruct (map_outcome_raises _ _ H) as (a & _ & Ha).
  unfold more_than_one_hop in Ha.
  destruct (res_nit (subres_optimizer_result a)); inversion Ha; reflexivity.
Qed.

Lemma persisted_final_result_ext (set_name : string) (w w' : World) :
  final_results w = final_results w' ->
  persisted_final_result set_name w = persisted_final_result set_name w'.
Proof.
  unfold persisted_final_result, read_final_result. intros H; rewrite H.
  destruct (find _ (final_results w')); reflexivity.
Qed.

(** A failed read of the previous FinalResult never leaves the aggregator. *)
Lemma read_failure_not_surfaced (set_name : string) (wall : R) (w : World) :
  fst (make_final_result set_name wall w) <> Raise OSError.
Proof.
  unfold make_final_result, item0, collect_subresults, try_except_OSError, bind, ret,
    lift, read_final_result, item.
  set (subs := stored_subresults set_name w).
  destruct (find (fun e => String.eqb (fst e) set_name) (final_results w));
    (destruct (nth_error subs 0) as [first|]; [|cbn; discriminate]);
    (destruct (String.eqb (subres_optimizer first) "basin_hopping");
     [destruct (map_outcome more_than_one_hop subs) eqn:Hhops;
      [|apply more_than_one_hop_raises in Hhops; subst; cbn; discriminate]|]);
    repeat match goal with
      | |- context [match map_outcome ?g subs with _ => _ end] =>
          let Hcol := fresh "Hcol" in
          destruct (map_outcome g subs) eqn:Hcol;
          [|apply final_column_raises in Hcol; subst; cbn; discriminate]
      end;
    cbn; discriminate.
Qed.

Lemma map_outcome_returns {A B} (g : A -> outcome B) (l : list A) :
  (forall a, In a l -> exists b, g a = Ok b) ->
  exists bs, map_outcome g l = Ok bs.
Proof.
  induction l as [|a l IH]; intros Hall; simpl.
  - exists []. reflexivity.
  - destruct (Hall a (or_introl eq_refl)) as (b & Hb). rewrite Hb.
    destruct IH as (bs & Hbs); [intros a' Ha'; apply Hall; right; exact Ha'|].
    rewrite Hbs. exists (b :: bs). reflexivity.
Qed.

Lemma final_column_returns (column : Subresult -> list R)
    (subs : list Subresult) :
  (forall s, In s subs -> column s <> []) ->
  exists finals,
    map_outcome (fun subres => last_item (column subres)) subs = Ok finals.
Proof.
  intros Hcol. apply map_outcome_returns. intros s Hs.
  specialize (Hcol s Hs). destruct (column s) as [|a l]; [contradiction|].
  eexists. reflexivity.
Qed.

(** The aggregator completes on every non-empty set of Subresults whose
    history columns are non-empty and, when the first one names
    basin-hopping, whose routine results all report [nit]. *)
Lemma make_final_result_completes (set_name : string) (wall : R) (w : World) :
  let subs := stored_subresults set_name w in
  subs <> [] ->
  (forall s, In s subs ->
     subres_history_absorption_density s <> []
     /\ subres_history_scattering_density s <> []
     /\ subres_history_scattering_anisotropy s <> []
     /\ subres_history_mix_factor s <> []) ->
  (forall first, hd_error subs = Some first ->
     subres_optimizer first = "basin_hopping"%string ->
     forall s, In s subs -> res_nit (subres_optimizer_result s) <> None) ->
  exists w', make_final_result set_name wall w = (Ok tt, w').
Proof.
  intros subs Hne Hcols Hnit.
  unfold make_final_result, item0, collect_subresults, try_except_OSError, bind, ret,
    lift, read_final_result, item.
  fold subs.
  destruct (final_column_returns subres_history_absorption_density subs)
    as (c0 & Hc0); [intros s Hs; apply (Hcols s Hs)|].
  destruct (final_column_returns subres_history_scattering_density subs)
    as (c1 & Hc1); [intros s Hs; apply (Hcols s Hs)|].
  destruct (final_column_returns subres_history_scattering_anisotropy subs)
    as (c2 & Hc2); [intros s Hs; apply (Hcols s Hs)|].
  destruct (final_column_returns subres_history_mix_factor subs)
    as (c3 & Hc3); [intros s Hs; apply (Hcols s Hs)|].
  destruct subs as [|first rest] eqn:Hsubs; [contradiction|].
  cbn [nth_error].
  destruct (find (fun e => String.eqb (fst e) set_name) (final_results w));
    (destruct (String.eqb_spec (subres_optimizer first) "basin_hopping")
       as [Hbasin|_];
     [destruct (@map_outcome_returns _ _ more_than_one_hop (first :: rest))
        as (flags & Hflags);
      [intros s Hs; unfold more_than_one_hop;
       destruct (res_nit (subres_optimizer_result s)) eqn:Hs_nit;
       [eexists; reflexivity
       |exfalso; exact (Hnit first eq_refl Hbasin s Hs Hs_nit)]
      |rewrite Hflags]
     |]);
    rewrite Hc0, Hc1, Hc2, Hc3; eexists; reflexivity.
Qed.

(** C5: whenever the aggregator completes, the Subresults of the set are
    non-empty and the persisted reflectance RMSE, and likewise the
    transmittance RMSE, is [sqrt(mean(error^2))] over the per-wavelength
    absolute errors; in particular reflectance errors [[0.1, 0.2, 0.3]] give
    [sqrt((0.01 + 0.04 + 0.09) / 3)]. *)
Theorem aggregator_rmse (set_name : string) (wall : R) (w w' : World) :
  make_final_result set_name wall w = (Ok tt, w') ->
  let subs := stored_subresults set_name w in
  subs <> []
  /\ exists fr,
       persisted_final_result set_name w' = Some fr
       /\ result_r_RMSE fr = rmse_spec (map subres_reflectance_error subs)
       /\ result_t_RMSE fr = rmse_spec (map subres_transmittance_error subs)
       /\ (map subres_reflectance_error subs = [0.1; 0.2; 0.3] ->
           result_r_RMSE fr = sqrt ((0.01 + 0.04 + 0.09) / 3)).
Proof.
  intros Hrun subs.
  destruct (make_final_result_completed _ _ _ Hrun)
    as (fr & Hfr & _ & _ & Hr & Ht & Hne & _).
  fold subs in Hr, Ht, Hne. split; [exact Hne|].
  exists fr. rewrite Hr, Ht, !rmse_is_rmse_spec.
  repeat split; try assumption.
  intros Herrors. rewrite Herrors. unfold rmse_spec. f_equal.
  cbn [fold_right List.length INR]. lra.
Qed.

(** C4: of two completed aggregations of a set, the second persists the
    first's persisted wall-clock time plus its own input (5.0 then 3.0 give
    8.0); a missing previous FinalResult makes the run a first run, its read
    failure is never surfaced; and the process time is each time the sum of
    the elapsed seconds of the Subresults then stored, in minutes. *)
Theorem wall_clock_accumulates (set_name : string) (wall1 wall2 : R)
    (w0 w1 w1' w2 : World) :
  make_final_result set_name wall1 w0 = (Ok tt, w1) ->
  final_results w1' = final_results w1 ->
  make_final_result set_name wall2 w1' = (Ok tt, w2) ->
  exists fr1 fr2,
    persisted_final_result set_name w1 = Some fr1
    /\ persisted_final_result set_name w2 = Some fr2
    /\ result_wall_clock_elapsed_min fr2
       = result_wall_clock_elapsed_min fr1 + wall2
    /\ (persisted_final_result set_name w0 = None ->
        result_wall_clock_elapsed_min fr1 = wall1)
    /\ (persisted_final_result set_name w0 = None -> wall1 = 5.0 ->
        wall2 = 3.0 -> result_wall_clock_elapsed_min fr2 = 8.0)
    /\ (forall wall w, fst (make_final_result set_name wall w) <> Raise OSError)
    /\ result_process_elapsed_min fr1
       = sum (map subres_elapsed_time_s (stored_subresults set_name w0)) / 60
    /\ result_process_elapsed_min fr2
       = sum (map subres_elapsed_time_s (stored_subresults set_name w1')) / 60.
Proof.
  intros Hrun1 Hsame Hrun2.
  destruct (make_final_result_completed _ _ _ Hrun1)
    as (fr1 & Hfr1 & Hwall1 & Hproc1 & _).
  destruct (make_final_result_completed _ _ _ Hrun2)
    as (fr2 & Hfr2 & Hwall2 & Hproc2 & _).
  assert (Hprev : persisted_final_result set_name w1' = Some fr1).
  { rewrite (persisted_final_result_ext set_name _ _ Hsame). exact Hfr1. }
  rewrite Hprev in Hwall2.
  exists fr1, fr2. repeat split; try assumption.
  - rewrite Hwall2. lra.
  - intros Hnone. rewrite Hnone in Hwall1. exact Hwall1.
  - intros Hnone H5 H3. rewrite Hnone in Hwall1. rewrite Hwall2, Hwall1. lra.
  - intros wall w. apply read_failure_not_surfaced.
Qed.

Lemma aggregator_rmse_witness :
  exists w',
    make_final_result "leaf" 5.0 Sample.world = (Ok tt, w')
    /\ (stored_subresults "leaf" Sample.world <> []
        /\ exists fr,
             persisted_final_result "leaf" w' = Some fr
             /\ result_r_RMSE fr
                = rmse_spec (map subres_reflectance_error
                               (stored_subresults "leaf" Sample.world))
             /\ result_t_RMSE fr
                = rmse_spec (map subres_transmittance_error
                               (stored_subresults "leaf" Sample.world))
             /\ (map subres_reflectance_error
                     (stored_subresults "leaf" Sample.world)
                 = [0.1; 0.2; 0.3] ->
                 result_r_RMSE fr = sqrt ((0.01 + 0.04 + 0.09) / 3))).
Proof.
  eexists.
  assert (H : make_final_result "leaf" 5.0 Sample.world = (Ok tt, _))
    by (run_model; reflexivity).
  split; [exact H | exact (aggregator_rmse _ _ _ H)].
Defined.

Lemma wall_clock_accumulates_witness :
  exists w1 w2,
    make_final_result "leaf" 5.0 Sample.world = (Ok tt, w1)
    /\ final_results w1 = final_results w1
    /\ make_final_result "leaf" 3.0 w1 = (Ok tt, w2)
    /\ exists fr2,
         persisted_final_result "leaf" w2 = Some fr2
         /\ result_wall_clock_elapsed_min fr2 = 8.0
         /\ result_process_elapsed_min fr2 = (60 + 90 + 30) / 60.
Proof.
  eexists. eexists.
  assert (H1 : make_final_result "leaf" 5.0 Sample.world = (Ok tt, _))
    by (run_model; reflexivity).
  split; [exact H1|]. split; [reflexivity|].
  match type of H1 with
  | _ = (_, ?w1) =>
      assert (H2 : make_final_result "leaf" 3.0 w1 = (Ok tt, _))
        by (run_model; reflexivity)
  end.
  split; [exact H2|].
  destruct (wall_clock_accumulates _ _ _ _ _ H1 eq_refl H2)
    as (fr1 & fr2 & _ & Hfr2 & _ & _ & H8 & _ & _ & Hproc).
  exists fr2. split; [exact Hfr2|]. split.
  - apply H8; reflexivity.
  - rewrite Hproc. unfold sum. cbn. f_equal. lra.
Defined.

(** ** The batch scheduler *)

Section Batches.

Local Open Scope nat_scope.

Example batch_selectors_10_3 :
  batch_selectors 10 3 = Ok [[0; 3; 6]; [1; 4; 7]; [2; 5; 8]; [9]].
Proof. reflexivity. Qed.

Example batch_selectors_12_3 :
  batch_selectors 12 3 = Ok [[0; 3; 6; 9]; [1; 4; 7; 10]; [2; 5; 8; 11]].
Proof. reflexivity. Qed.

Example batch_selectors_10_4 :
  batch_selectors 10 4 = Ok [[0; 5]; [1; 6]; [2; 7]; [3; 8]; [9]].
Proof. reflexivity. Qed.

Example batch_selectors_3_5 : batch_selectors 3 5 = Raise ZeroDivisionError.
Proof. reflexivity. Qed.

Lemma int_div_positive (a b : nat) : 1 <= b -> int_div a b = Ok (a / b).
Proof. destruct b; [lia | reflexivity]. Qed.

Lemma in_strided (i step count k : nat) :
  In k (map (fun j => i + j * step) (seq 0 count))
  <-> exists j, j < count /\ k = i + j * step.
Proof.
  rewrite in_map_iff. split.
  - intros (j & Hk & Hj). apply in_seq in Hj. exists j. split; lia.
  - intros (j & Hj & Hk). exists j. split; [lia|]. apply in_seq. lia.
Qed.

Lemma nth_batches (step count batch_n i : nat) :
  i < batch_n ->
  nth i (map (fun i => map (fun j => i + j * step) (seq 0 count))
             (seq 0 batch_n)) []
  = map (fun j => i + j * step) (seq 0 count).
Proof.
  intros Hi.
  rewrite (nth_indep _ [] (map (fun j => 0 + j * step) (seq 0 count)))
    by (rewrite length_map, length_seq; exact Hi).
  rewrite (map_nth (fun i => map (fun j => i + j * step) (seq 0 count))).
  rewrite seq_nth by exact Hi. reflexivity.
Qed.

(** With no batches, or more batches than targets, a division by zero is
    raised before any batch is run. *)
Lemma batch_selectors_division_by_zero (wl_n batch_n : nat) :
  batch_n = 0 \/ wl_n < batch_n ->
  batch_selectors wl_n batch_n = Raise ZeroDivisionError.
Proof.
  intros [Hz|Hlt]; unfold batch_selectors.
  - subst. reflexivity.
  - rewrite int_div_positive by lia.
    rewrite Nat.div_small by exact Hlt. reflexivity.
Qed.

(** The stride the code computes: [batch_n] plus a surplus that vanishes
    when the remainder is smaller than the batch size. *)
Lemma step_size_value (wl_n batch_n : nat) :
  1 <= batch_n <= wl_n ->
  wl_n / (wl_n / batch_n)
  = batch_n + (wl_n mod batch_n) / (wl_n / batch_n).
Proof.
  intros Hb.
  assert (Hq : 1 <= wl_n / batch_n)
    by (apply Nat.div_le_lower_bound; lia).
  rewrite (Nat.div_mod_eq wl_n batch_n) at 1.
  rewrite Nat.div_add_l by lia. reflexivity.
Qed.

(** The selections of the code where the remainder is two or more: with
    eleven targets, three batches leave index 9 out and four batches leave
    the indices 4 and 9 out. *)
Example batch_selectors_11_3 :
  batch_selectors 11 3 = Ok [[0; 3; 6]; [1; 4; 7]; [2; 5; 8]; [10]].
Proof. reflexivity. Qed.

Example batch_selectors_11_4 :
  batch_selectors 11 4 = Ok [[0; 5]; [1; 6]; [2; 7]; [3; 8]; [10]].
Proof. reflexivity. Qed.

(** C6, as the code has it: for [1 <= batch_n <= wl_n] and a remainder
    [wl_n mod batch_n] of at most one, batch [i] is the list [i],
    [i + batch_n], [i + 2 * batch_n], ... of [wl_n / batch_n] indices: exactly
    the indices congruent to [i] modulo [batch_n] below
    [batch_n * (wl_n / batch_n)]; one more selection, of the index
    [wl_n - 1] alone, follows exactly when [batch_n] does not divide
    [wl_n]. *)
Theorem batch_selection (wl_n batch_n : nat) :
  1 <= batch_n <= wl_n ->
  wl_n mod batch_n <= 1 ->
  let batch_size := wl_n / batch_n in
  exists batches,
    batch_selectors wl_n batch_n
    = Ok (batches ++ (if wl_n mod batch_n =? 0 then [] else [[wl_n - 1]]))
    /\ List.length batches = batch_n
    /\ (forall i, i < batch_n ->
        nth i batches [] = map (fun j => i + j * batch_n) (seq 0 batch_size))
    /\ (forall i k, i < batch_n ->
          (In k (nth i batches []) <->
           k mod batch_n = i /\ k < batch_n * batch_size)).
Proof.
  intros Hb Hrem batch_size.
  assert (Hq : 1 <= batch_size)
    by (apply Nat.div_le_lower_bound; lia).
  pose proof (step_size_value Hb) as Hstep. fold batch_size in Hstep.
  set (step_size := wl_n / batch_size) in *.
  assert (Hsame : forall i j, j < batch_size ->
                    i + j * step_size = i + j * batch_n).
  { intros i j Hj. destruct (Nat.lt_ge_cases (wl_n mod batch_n) batch_size)
      as [Hsmall|Hlarge].
    - rewrite Hstep, (Nat.div_small _ _ Hsmall). lia.
    - assert (j = 0) by lia. subst j. lia. }
  assert (Hbatch : forall i, i < batch_n ->
            nth i (map (fun i => map (fun j => i + j * step_size)
                                     (seq 0 batch_size))
                       (seq 0 batch_n)) []
            = map (fun j => i + j * batch_n) (seq 0 batch_size)).
  { intros i Hi. rewrite nth_batches by exact Hi.
    apply map_ext_in. intros j Hj. apply in_seq in Hj.
    apply Hsame. lia. }
  exists (map (fun i => map (fun j => i + j * step_size) (seq 0 batch_size))
              (seq 0 batch_n)).
  split; [|split; [|split]].
  - unfold batch_selectors.
    rewrite (int_div_positive wl_n) by lia. fold batch_size.
    rewrite (int_div_positive wl_n) by exact Hq.
    reflexivity.
  - rewrite length_map, length_seq. reflexivity.
  - exact Hbatch.
  - intros i k Hi. rewrite Hbatch by exact Hi.
    rewrite in_strided. split.
    + intros (j & Hj & Hk). subst k. split.
      * rewrite Nat.Div0.mod_add. apply Nat.mod_small. exact Hi.
      * nia.
    + intros (Hmod & Hlt). exists (k / batch_n). split.
      * apply Nat.Div0.div_lt_upper_bound. exact Hlt.
      * pose proof (Nat.div_mod_eq k batch_n). lia.
Qed.

Lemma batch_selection_witness :
  1 <= 3 <= 10
  /\ 10 mod 3 <= 1
  /\ exists batches,
       batch_selectors 10 3 = Ok (batches ++ [[9]])
       /\ List.length batches = 3
       /\ nth 0 batches [] = [0; 3; 6]
       /\ forall k, In k (nth 0 batches []) <-> k mod 3 = 0 /\ k < 9.
Proof.
  assert (Hb : 1 <= 3 <= 10) by lia.
  assert (Hrem : 10 mod 3 <= 1) by (cbn; lia).
  split; [exact Hb|]. split; [exact Hrem|].
  destruct (batch_selection Hb Hrem)
    as (batches & Hsel & Hlen & Hlist & Hexact).
  exists batches. split; [exact Hsel|]. split; [exact Hlen|].
  split; [apply (Hlist 0); lia|].
  intros k. apply Hexact; cbn; lia.
Defined.

(** The claim's example fails: with ten targets in three batches, batch 0 is
    [[0, 3, 6]]; index 9 is below [wl_n] and congruent to 0 but is left to
    the selection of the last item. *)
Lemma batch_zero_of_ten_in_three_omits_nine :
  ~ (forall sel rest,
       batch_selectors 10 3 = Ok (sel :: rest) ->
       forall k, In k sel <-> k < 10 /\ k mod 3 = 0).
Proof.
  intros Hclaim.
  destruct (Hclaim [0; 3; 6] [[1; 4; 7]; [2; 5; 8]; [9]] eq_refl 9)
    as [_ Hin].
  assert (H9 : In 9 [0; 3; 6]) by (apply Hin; split; [lia | reflexivity]).
  simpl in H9. lia.
Qed.

End Batches.

(** The indices a slice [0:stop:step] visits: the multiples of [step]
    strictly below [stop]. *)
Lemma range_step_indices (stop step i : nat) :
  (1 <= step)%nat ->
  In i (range_step stop step) <-> (i mod step = 0 /\ i < stop)%nat.
Proof.
  intros Hstep. unfold range_step. rewrite in_map_iff. split.
  - intros (j & Hi & Hj). apply in_seq in Hj. subst i. split.
    + apply Nat.Div0.mod_mul.
    + assert (H : (step * ((stop + step - 1) / step) <= stop + step - 1)%nat)
        by apply Nat.Div0.mul_div_le.
      nia.
  - intros (Hmod & Hlt). exists (i / step)%nat.
    pose proof (Nat.div_mod_eq i step) as Hi. rewrite Hmod in Hi.
    split; [lia|]. apply in_seq. split; [lia|]. cbn [plus].
    apply Nat.Div0.div_lt_upper_bound.
    pose proof (Nat.div_mod_eq (stop + step - 1) step) as Hd.
    pose proof (Nat.mod_upper_bound (stop + step - 1) step) as Hu.
    nia.
Qed.

(** For a resolution of 2 or more the slice stops before the last index:
    the index [len - 1] is not visited even when it is a multiple of the
    resolution. *)
Lemma downsample_never_visits_last_index {A} (resolution : nat)
    (targets : list A) :
  (2 <= resolution)%nat ->
  downsample (Z.of_nat resolution) targets
  = Ok (slice_0_to_minus_1 resolution targets)
  /\ ~ In (List.length targets - 1)%nat
          (range_step (List.length targets - 1) resolution).
Proof.
  intros Hres. split.
  - unfold downsample.
    destruct (Z.eqb_spec (Z.of_nat resolution) 1); [lia|].
    destruct (Z.eqb_spec (Z.of_nat resolution) 0); [lia|].
    destruct (Z.ltb_spec (Z.of_nat resolution) 0); [lia|].
    rewrite Nat2Z.id. reflexivity.
  - rewrite range_step_indices by lia. lia.
Qed.

(** [resolution = 1] keeps every entry. *)
Lemma downsample_resolution_1 {A} (targets : list A) :
  downsample 1 targets = Ok targets.
Proof. reflexivity. Qed.

(** C7 at a failing input: of five targets at resolution 2 the code keeps the
    entries at indices 0 and 2 only; the entry at index 4, the last, is
    dropped although 4 is a multiple of the resolution. *)
Theorem downsample_drops_last_entry {A} (a0 a1 a2 a3 a4 : A) :
  downsample 2 [a0; a1; a2; a3; a4] = Ok [a0; a2].
Proof. reflexivity. Qed.

(** A single target does not survive any resolution other than 1. *)
Lemma downsample_single_target {A} (a0 : A) :
  downsample 2 [a0] = Ok [].
Proof. reflexivity. Qed.

(** ** The per-wavelength driver *)

Lemma Req_bool_refl (a : R) : Req_bool a a = true.
Proof. unfold Req_bool. destruct (Req_dec_T a a); [reflexivity | contradiction]. Qed.

Lemma Req_bool_neq (a b : R) : a <> b -> Req_bool a b = false.
Proof. unfold Req_bool. destruct (Req_dec_T a b); [contradiction | reflexivity]. Qed.

Lemma last_item_snoc {A} (l : list A) (z : A) : last_item (l ++ [z]) = Ok z.
Proof.
  destruct l as [|a l]; [reflexivity|].
  cbn [app last_item]. rewrite last_last. reflexivity.
Qed.

Lemma select_strategy_recognized ls sh da bh (opt_method : string)
    (x_0 : list R) (s : strategy) :
  select_strategy ls sh da bh opt_method x_0 = Ok s ->
  In opt_method recognized_optimizers.
Proof.
  unfold select_strategy, recognized_optimizers.
  destruct (String.eqb_spec opt_method "least_squares"); [subst; simpl; auto|].
  destruct (String.eqb_spec opt_method "shgo"); [subst; simpl; auto|].
  destruct (String.eqb_spec opt_method "anneal"); [subst; simpl; auto|].
  destruct (String.eqb_spec opt_method "basin_hopping");
    [subst; simpl; auto 6|].
  discriminate.
Qed.

Lemma select_strategy_unrecognized ls sh da bh (opt_method : string)
    (x_0 : list R) :
  ~ In opt_method recognized_optimizers ->
  select_strategy ls sh da bh opt_method x_0
  = Raise (not_recognized opt_method).
Proof.
  unfold select_strategy, recognized_optimizers. intros Hnot.
  destruct (String.eqb_spec opt_method "least_squares");
    [subst; exfalso; apply Hnot; simpl; auto|].
  destruct (String.eqb_spec opt_method "shgo");
    [subst; exfalso; apply Hnot; simpl; auto|].
  destruct (String.eqb_spec opt_method "anneal");
    [subst; exfalso; apply Hnot; simpl; auto|].
  destruct (String.eqb_spec opt_method "basin_hopping");
    [subst; exfalso; apply Hnot; simpl; auto 6|].
  reflexivity.
Qed.

Section Fit.

Variable clock : World -> R.
Variable sim : imaging_type -> R -> string -> World -> R.
Variable least_squares :
  list R -> list R * list R -> string -> R -> R -> R -> strategy.
Variable shgo : list (R * R) -> nat -> nat -> string -> strategy.
Variable dual_annealing :
  list (R * R) -> nat -> nat -> nat -> R -> list R -> R -> R -> R -> strategy.
Variable basinhopping :
  list R -> R -> nat -> R -> nat ->
  ((nat -> R -> R -> R) -> list R -> outcome (list R)) ->
  (list R -> R -> bool -> option bool) -> (list R -> strategy) -> strategy.
Variables (wl r_m t_m : R) (set_name : string).

Local Abbreviation objective := (f sim wl r_m t_m set_name).
Local Abbreviation select :=
  (select_strategy least_squares shgo dual_annealing basinhopping).
Local Abbreviation fit_wl :=
  (fit clock sim least_squares shgo dual_annealing basinhopping wl r_m t_m
       set_name).
Local Abbreviation driver :=
  (optimize_single_wl clock sim least_squares shgo dual_annealing basinhopping
                      wl r_m t_m set_name).

(** An evaluation, completed or not, persists nothing. *)
Lemma f_keeps_stores (x : list R) (st : FitState) :
  subresults (fs_world (snd (objective x st))) = subresults (fs_world st)
  /\ final_results (fs_world (snd (objective x st)))
     = final_results (fs_world st)
  /\ plots (fs_world (snd (objective x st))) = plots (fs_world st).
Proof.
  destruct x as [|x0 [|x1 [|x2 [|x3 rest]]]];
    try (rewrite f_too_short by (simpl; lia); auto).
  rewrite f_four_components. auto.
Qed.

(** A routine only appends to the history, and persists nothing. *)
Lemma run_strategy_history (s : strategy) (st st' : FitState)
    (o : outcome OptimizeResult) :
  run_strategy objective s st = (o, st') ->
  (exists evaluated, fs_history st' = fs_history st ++ evaluated)
  /\ subresults (fs_world st') = subresults (fs_world st)
  /\ final_results (fs_world st') = final_results (fs_world st)
  /\ plots (fs_world st') = plots (fs_world st).
Proof.
  revert st. induction s as [res|e|x k IH]; intros st; simpl.
  - intros H; inversion H; subst. split; [exists []; symmetry; apply app_nil_r|auto].
  - intros H; inversion H; subst. split; [exists []; symmetry; apply app_nil_r|auto].
  - destruct (objective x st) as [[v|e] st1] eqn:Hf.
    + intros Hrun. destruct (IH v st1 Hrun) as ((ev & Hev) & Hs & Hfr & Hp).
      destruct (f_returns _ _ _ _ _ _ _ Hf) as (_ & Hh & _).
      pose proof (f_keeps_stores x st) as (Hs1 & Hfr1 & Hp1).
      rewrite Hf in Hs1, Hfr1, Hp1; cbn [snd] in Hs1, Hfr1, Hp1.
      split; [|rewrite Hs, Hfr, Hp; auto].
      eexists. rewrite Hev, Hh, <- app_assoc. reflexivity.
    + intros H; inversion H; subst.
      pose proof (f_keeps_stores x st) as (Hs1 & Hfr1 & Hp1).
      rewrite Hf in Hs1, Hfr1, Hp1; cbn [snd] in Hs1, Hfr1, Hp1.
      split; [|auto].
      destruct x as [|x0 [|x1 [|x2 [|x3 rest]]]];
        try (rewrite f_too_short in Hf by (simpl; lia); inversion Hf; subst;
             exists []; symmetry; apply app_nil_r).
      rewrite f_four_components in Hf. discriminate.
Qed.

(** A routine that keeps to four-parameter vectors returns. *)
Lemma run_strategy_returns (s : strategy) (st : FitState) :
  four_parameter s ->
  exists res st',
    run_strategy objective s st = (Ok res, st')
    /\ (4 <= List.length (res_x res))%nat.
Proof.
  intros Hs. revert st. induction Hs as [res Hlen|x k Hlen _ IH]; intros st.
  - exists res, st. split; [reflexivity | exact Hlen].
  - simpl. destruct x as [|x0 [|x1 [|x2 [|x3 rest]]]];
      try (simpl in Hlen; lia).
    rewrite f_four_components. apply IH.
Qed.

(** How a fit proceeds: the seed is the only record when the routine starts,
    the routine appends its evaluations, the forced evaluation appends one
    record more. *)
Lemma fit_unfolded (opt_method : string) (start : R) (w : World)
    (res : OptimizeResult) (elapsed : R) (st' : FitState) :
  fit_wl opt_method start (mkFitState w []) = (Ok (res, elapsed), st') ->
  let x_0 := get_starting_guess (1 - (r_m + t_m)) in
  exists s st1 v,
    select opt_method x_0 = Ok s
    /\ run_strategy objective s (mkFitState w [x_0 ++ [0; 0]]) = (Ok res, st1)
    /\ elapsed = clock (fs_world st1) - start
    /\ objective (res_x res) st1 = (Ok v, st').
Proof.
  intros Hfit x_0. unfold fit in Hfit. fold x_0 in Hfit.
  unfold bind, history_append, modify, lift, on_world, perf_counter, ret
    in Hfit.
  cbn [fs_world fs_history app] in Hfit.
  destruct (select opt_method x_0) as [s|e]; [|discriminate].
  destruct (run_strategy objective s (mkFitState w [x_0 ++ [0; 0]]))
    as [[res'|e] st1] eqn:Hrun; [|discriminate].
  destruct (objective (res_x res') (mkFitState (fs_world st1) (fs_history st1)))
    as [[v|e] st2] eqn:Hlast; [|discriminate].
  inversion Hfit; subst; clear Hfit.
  exists s, st1, v. destruct st1 as [w1 h1]. cbn [fs_world fs_history] in *.
  auto.
Qed.

(** C2: in every completed fit the optimizer identifier is one of the four
    recognized ones; the history begins with the starting guess carrying the
    placeholder outputs [(0, 0)]; and after the routine has returned, the
    objective is evaluated once more, at the vector the routine returned:
    this evaluation renders that vector, and the record it appends, the last
    of the history, is that vector with the outputs read after this render,
    whether or not the routine evaluated that vector last. *)
Theorem history_seed_first_optimum_last (opt_method : string) (start : R)
    (w : World) (res : OptimizeResult) (elapsed : R) (st' : FitState) :
  fit_wl opt_method start (mkFitState w []) = (Ok (res, elapsed), st') ->
  let x_0 := get_starting_guess (1 - (r_m + t_m)) in
  let r := sim imaging_type_refl wl set_name (fs_world st') in
  let t := sim imaging_type_tran wl set_name (fs_world st') in
  In opt_method recognized_optimizers
  /\ (exists s st1 evaluated v,
        select opt_method x_0 = Ok s
        /\ run_strategy objective s (mkFitState w [x_0 ++ [0; 0]])
           = (Ok res, st1)
        /\ fs_history st1 = (x_0 ++ [0; 0]) :: evaluated
        /\ objective (res_x res) st1 = (Ok v, st')
        /\ (4 <= List.length (res_x res))%nat
        /\ renders (fs_world st')
           = renders (fs_world st1)
             ++ [(set_name, mkRps false false false false wl
                    (nth 0 (res_x res) 0 * density_scale)
                    (nth 1 (res_x res) 0 * density_scale)
                    (nth 2 (res_x res) 0) (nth 3 (res_x res) 0))]
        /\ fs_history st' = fs_history st1 ++ [res_x res ++ [r; t]])
  /\ hd_error (fs_history st') = Some (x_0 ++ [0; 0])
  /\ last_item (fs_history st') = Ok (res_x res ++ [r; t]).
Proof.
  intros Hfit x_0 r t.
  destruct (fit_unfolded _ _ _ Hfit) as (s & st1 & v & Hsel & Hrun & _ & Hlast).
  fold x_0 in Hsel, Hrun.
  destruct (run_strategy_history _ _ Hrun) as ((evaluated & Hev) & _).
  cbn [fs_history app] in Hev.
  destruct (f_returns _ _ _ _ _ _ _ Hlast) as (_ & Hh & _). fold r t in Hh.
  assert (Hrender : (4 <= List.length (res_x res))%nat
                    /\ renders (fs_world st')
                       = renders (fs_world st1)
                         ++ [(set_name, mkRps false false false false wl
                                (nth 0 (res_x res) 0 * density_scale)
                                (nth 1 (res_x res) 0 * density_scale)
                                (nth 2 (res_x res) 0) (nth 3 (res_x res) 0))]).
  { pose proof Hlast as Hf.
    destruct (res_x res) as [|x0 [|x1 [|x2 [|x3 rest]]]];
      try (rewrite f_too_short in Hf by (simpl; lia); discriminate).
    rewrite f_four_components in Hf. inversion Hf; subst; clear Hf.
    cbn [fs_world renders nth List.length]. split; [lia | reflexivity]. }
  destruct Hrender as (Hlen & Hrender).
  split; [exact (select_strategy_recognized _ _ _ _ _ _ Hsel)|].
  split; [exists s, st1, evaluated, v; auto 8|].
  rewrite Hh, Hev. split; [reflexivity | apply last_item_snoc].
Qed.

(** With a recognized identifier and a routine that keeps to four-parameter
    vectors, the fit completes. *)
Lemma fit_completes (opt_method : string) (start : R) (w : World)
    (s : strategy) :
  select opt_method (get_starting_guess (1 - (r_m + t_m))) = Ok s ->
  four_parameter s ->
  exists res elapsed st',
    fit_wl opt_method start (mkFitState w []) = (Ok (res, elapsed), st').
Proof.
  intros Hsel Hs. unfold fit.
  unfold bind at 1, history_append, modify. cbn [fs_world fs_history app].
  unfold bind at 1, lift. rewrite Hsel.
  destruct (run_strategy_returns
              (mkFitState w [get_starting_guess (1 - (r_m + t_m)) ++ [0; 0]])
              Hs) as (res & st1 & Hrun & Hlen).
  unfold bind at 1. rewrite Hrun.
  unfold bind at 1, on_world, perf_counter.
  destruct (res_x res) as [|x0 [|x1 [|x2 [|x3 rest]]]] eqn:Hx;
    try (simpl in Hlen; lia).
  unfold bind, ret. rewrite f_four_components. eauto.
Qed.

Lemma driver_skips (opt_method : string) (w : World) :
  subresult_exists set_name wl w = true -> driver opt_method w = (Ok tt, w).
Proof.
  intros Hexists. unfold optimize_single_wl. rewrite Hexists. reflexivity.
Qed.

(** C1: when a Subresult exists for the wavelength under the set name, the
    driver returns at once: no simulator call is made and the persisted
    Subresults, like everything else in the world, are left as they were. *)
Theorem existing_subresult_is_skipped (opt_method : string) (w : World) :
  subresult_exists set_name wl w = true ->
  exists w',
    driver opt_method w = (Ok tt, w')
    /\ renders w' = renders w
    /\ subresults w' = subresults w
    /\ w' = w.
Proof.
  intros Hexists. exists w. rewrite (driver_skips _ _ Hexists). auto.
Qed.

(** The world in which a fit starts: the reference render has been made. *)
Lemma driver_starts_fit (opt_method : string) (w : World) :
  subresult_exists set_name wl w = false ->
  let w1 := mkWorld (renders w
                       ++ [(set_name, mkRps false false true false wl 0 0 0 0)])
                    (subresults w) (final_results w) (plots w) in
  driver opt_method w
  = match fit_wl opt_method (clock w) (mkFitState w1 []) with
    | (Ok (res, elapsed), st) =>
        match make_res_dict wl r_m t_m opt_method res elapsed (fs_history st)
        with
        | Ok res_dict =>
            (write_subresult set_name res_dict ;;;
             plot_subresult_opt_history set_name wl) (fs_world st)
        | Raise e => (Raise e, fs_world st)
        end
    | (Raise e, st) => (Raise e, fs_world st)
    end.
Proof.
  intros Hnew w1. unfold optimize_single_wl. rewrite Hnew.
  unfold bind at 1, perf_counter. unfold bind at 1, run_render_single, modify.
  fold w1. unfold bind at 1.
  destruct (fit_wl opt_method (clock w) (mkFitState w1 []))
    as [[[res elapsed]|e] st]; [|reflexivity].
  unfold bind, get, lift, ret. cbn [fst snd].
  destruct (make_res_dict wl r_m t_m opt_method res elapsed (fs_history st));
    reflexivity.
Qed.

(** C9, as the code has it: with an identifier outside the four recognized
    names and no Subresult yet for the wavelength, the driver raises the
    "not recognized" exception; by then it has made the reference render and
    nothing else, no routine has been run and no Subresult is persisted. *)
Theorem unrecognized_optimizer_aborts (opt_method : string) (w : World) :
  ~ In opt_method recognized_optimizers ->
  subresult_exists set_name wl w = false ->
  exists w',
    driver opt_method w = (Raise (not_recognized opt_method), w')
    /\ subresults w' = subresults w
    /\ subresult_exists set_name wl w' = false
    /\ renders w'
       = renders w ++ [(set_name, mkRps false false true false wl 0 0 0 0)]
    /\ final_results w' = final_results w
    /\ plots w' = plots w.
Proof.
  intros Hnot Hnew. rewrite (driver_starts_fit _ _ Hnew).
  unfold fit, bind, history_append, modify, lift.
  rewrite select_strategy_unrecognized by exact Hnot.
  cbn [fs_world]. eexists. split; [reflexivity|].
  cbn [subresults renders final_results plots]. repeat split.
  unfold subresult_exists in *. exact Hnew.
Qed.

Lemma make_res_dict_wl (opt_method : string) (res : OptimizeResult)
    (elapsed : R) (history : list (list R)) (res_dict : Subresult) :
  make_res_dict wl r_m t_m opt_method res elapsed history = Ok res_dict ->
  subres_wl res_dict = wl.
Proof.
  unfold make_res_dict. intros H.
  repeat match type of H with
         | context [match ?x with _ => _ end] => destruct x; try discriminate
         end.
  inversion H; reflexivity.
Qed.

(** A completed invocation leaves a Subresult for the wavelength, so the
    next invocation for it is the skip of C1. *)
Lemma completed_fit_is_persisted (opt_method : string) (w w' : World) :
  driver opt_method w = (Ok tt, w') ->
  subresult_exists set_name wl w' = true.
Proof.
  destruct (subresult_exists set_name wl w) eqn:Hexists.
  - rewrite (driver_skips _ _ Hexists).
    intros H; inversion H; subst. exact Hexists.
  - rewrite (driver_starts_fit _ _ Hexists).
    destruct (fit_wl opt_method (clock w) _) as [[[res elapsed]|e] st];
      [|discriminate].
    destruct (make_res_dict wl r_m t_m opt_method res elapsed (fs_history st))
      as [res_dict|e] eqn:Hdict; [|discriminate].
    apply make_res_dict_wl in Hdict.
    unfold bind, write_subresult, plot_subresult_opt_history, modify.
    intros H; inversion H; subst; clear H.
    unfold subresult_exists. cbn [subresults].
    rewrite existsb_app. apply orb_true_iff. right.
    cbn [existsb]. unfold same_subresult_file. cbn [fst snd].
    rewrite String.eqb_refl, Req_bool_refl. reflexivity.
Qed.

Lemma reinvocation_is_noop (opt_method opt_method' : string) (w w' : World) :
  driver opt_method w = (Ok tt, w') ->
  driver opt_method' w' = (Ok tt, w').
Proof.
  intros Hrun. apply completed_fit_is_persisted in Hrun.
  exact (driver_skips _ _ Hrun).
Qed.

End Fit.

(** *** The driver on the sample store *)

Lemma sample_500_exists : subresult_exists "leaf" 500 Sample.world = true.
Proof.
  unfold subresult_exists, Sample.world, same_subresult_file.
  cbn [subresults existsb fst snd Sample.subresult subres_wl].
  rewrite Req_bool_refl. reflexivity.
Defined.

Lemma sample_530_missing : subresult_exists "leaf" 530 Sample.world = false.
Proof.
  unfold subresult_exists, Sample.world, same_subresult_file.
  cbn [subresults existsb fst snd Sample.subresult subres_wl].
  rewrite !Req_bool_neq by lra. reflexivity.
Defined.

Lemma newton_not_recognized : ~ In "newton"%string recognized_optimizers.
Proof.
  unfold recognized_optimizers. simpl.
  intros [H|[H|[H|[H|[]]]]]; discriminate.
Defined.

Lemma existing_subresult_is_skipped_witness :
  subresult_exists "leaf" 500 Sample.world = true
  /\ exists w',
       optimize_single_wl Sample.clock Sample.sim Sample.least_squares
         Sample.shgo Sample.dual_annealing Sample.basinhopping
         500 0.4 0.4 "leaf" "basin_hopping" Sample.world = (Ok tt, w')
       /\ renders w' = renders Sample.world
       /\ subresults w' = subresults Sample.world
       /\ w' = Sample.world.
Proof.
  split; [exact sample_500_exists|].
  exact (@existing_subresult_is_skipped Sample.clock Sample.sim
           Sample.least_squares Sample.shgo Sample.dual_annealing
           Sample.basinhopping 500 0.4 0.4 "leaf" "basin_hopping" Sample.world
           sample_500_exists).
Defined.

Lemma history_seed_first_optimum_last_witness :
  exists res elapsed st',
    fit Sample.clock Sample.echo_sim Sample.two_shot Sample.shgo
      Sample.dual_annealing Sample.basinhopping 530 0.4 0.4 "leaf"
      "least_squares" 0 (mkFitState Sample.world []) = (Ok (res, elapsed), st')
    /\ In "least_squares"%string recognized_optimizers
    /\ res_x res = get_starting_guess (1 - (0.4 + 0.4))
    /\ hd_error (fs_history st')
       = Some (get_starting_guess (1 - (0.4 + 0.4)) ++ [0; 0])
    /\ nth_error (fs_history st') 2 = Some [0.5; 0.5; 0.4; 1; 1 / 4; 0.4 / 4]
    /\ List.length (fs_history st') = 4%nat
    /\ last_item (fs_history st')
       = Ok (res_x res
             ++ [nth 3 (res_x res) 0 / 4; nth 2 (res_x res) 0 / 4]).
Proof.
  eexists. eexists. eexists.
  assert (H : fit Sample.clock Sample.echo_sim Sample.two_shot Sample.shgo
                Sample.dual_annealing Sample.basinhopping 530 0.4 0.4 "leaf"
                "least_squares" 0 (mkFitState Sample.world [])
              = (Ok (_, _), _))
    by (run_model; reflexivity).
  split; [exact H|].
  destruct (@history_seed_first_optimum_last _ _ _ _ _ _ _ _ _ _ _ _ _ _ _ _ H)
    as (Hopt & (s & st1 & evaluated & v & _ & _ & _ & _ & _ & Hrender & _)
        & Hhd & Hlast).
  split; [exact Hopt|]. split; [reflexivity|]. split; [exact Hhd|].
  split; [reflexivity|]. split; [reflexivity|].
  unfold Sample.echo_sim in Hlast.
  rewrite Hrender, last_item_snoc in Hlast. exact Hlast.
Defined.

Lemma unrecognized_optimizer_aborts_witness :
  ~ In "newton"%string recognized_optimizers
  /\ subresult_exists "leaf" 530 Sample.world = false
  /\ exists w',
       optimize_single_wl Sample.clock Sample.sim Sample.least_squares
         Sample.shgo Sample.dual_annealing Sample.basinhopping
         530 0.4 0.4 "leaf" "newton" Sample.world
       = (Raise (not_recognized "newton"), w')
       /\ subresults w' = subresults Sample.world
       /\ subresult_exists "leaf" 530 w' = false
       /\ renders w'
          = renders Sample.world
            ++ [("leaf"%string, mkRps false false true false 530 0 0 0 0)]
       /\ final_results w' = final_results Sample.world
       /\ plots w' = plots Sample.world.
Proof.
  split; [exact newton_not_recognized|].
  split; [exact sample_530_missing|].
  exact (@unrecognized_optimizer_aborts Sample.clock Sample.sim
           Sample.least_squares Sample.shgo Sample.dual_annealing
           Sample.basinhopping 530 0.4 0.4 "leaf" "newton" Sample.world
           newton_not_recognized sample_530_missing).
Defined.

(** The claim fails where a Subresult already exists: the identifier is not
    examined, the driver returns normally and no exception is raised. *)
Lemma unrecognized_optimizer_skipped_when_subresult_exists :
  ~ In "newton"%string recognized_optimizers
  /\ ~ (exists e w',
          optimize_single_wl Sample.clock Sample.sim Sample.least_squares
            Sample.shgo Sample.dual_annealing Sample.basinhopping
            500 0.4 0.4 "leaf" "newton" Sample.world = (Raise e, w')).
Proof.
  split; [exact newton_not_recognized|].
  intros (e & w' & Hraise).
  rewrite (@driver_skips Sample.clock Sample.sim Sample.least_squares
             Sample.shgo Sample.dual_annealing Sample.basinhopping 500 0.4 0.4
             "leaf" "newton" Sample.world sample_500_exists) in Hraise.
  discriminate.
Qed.

(** On the sample store a fit for a wavelength not yet done runs through:
    the Subresult is persisted and a second invocation is a skip. *)
Example driver_runs_on_sample :
  exists w',
    optimize_single_wl Sample.clock Sample.sim Sample.least_squares
      Sample.shgo Sample.dual_annealing Sample.basinhopping
      530 0.4 0.4 "leaf" "least_squares" Sample.world = (Ok tt, w')
    /\ subresult_exists "leaf" 530 w' = true
    /\ optimize_single_wl Sample.clock Sample.sim Sample.least_squares
         Sample.shgo Sample.dual_annealing Sample.basinhopping
         530 0.4 0.4 "leaf" "least_squares" w' = (Ok tt, w').
Proof.
  eexists.
  assert (H : optimize_single_wl Sample.clock Sample.sim Sample.least_squares
                Sample.shgo Sample.dual_annealing Sample.basinhopping
                530 0.4 0.4 "leaf" "least_squares" Sample.world = (Ok tt, _))
    by (rewrite (@driver_starts_fit Sample.clock Sample.sim
                   Sample.least_squares Sample.shgo Sample.dual_annealing
                   Sample.basinhopping 530 0.4 0.4 "leaf" "least_squares"
                   Sample.world sample_530_missing);
        run_model; reflexivity).
  split; [exact H|]. split.
  - eapply completed_fit_is_persisted. exact H.
  - eapply reinvocation_is_noop. exact H.
Qed.

(** * Further properties of the module *)

(** ** The starting guess outside the unit interval *)

(** X1: the proxy [1 - (r_m + t_m)] is not clamped.  The guess stays within the
    bounds on the wider interval [[-0.62, 1.12]]; beyond [-0.63] the third
    component exceeds its upper bound and beyond [1.13] the fourth falls
    below zero. *)
Theorem starting_guess_bounds_range (proxy : R) :
  (-0.62 <= proxy <= 1.12 -> within_bounds (get_starting_guess proxy))
  /\ (proxy <= -0.63 \/ 1.13 <= proxy ->
      ~ within_bounds (get_starting_guess proxy)).
Proof.
  unfold within_bounds, get_starting_guess, bounds, lb, ub; simpl. split.
  - intros Hproxy. repeat split; nra.
  - intros [Hlow|Hhigh] (_ & _ & H3 & H4 & _); nra.
Qed.

Lemma starting_guess_bounds_range_witness :
  -0.62 <= 1.12 <= 1.12
  /\ within_bounds (get_starting_guess 1.12)
  /\ 1.13 <= 2
  /\ ~ within_bounds (get_starting_guess 2).
Proof.
  assert (Hin : -0.62 <= 1.12 <= 1.12) by lra.
  assert (Hout : 1.13 <= 2) by lra.
  split; [exact Hin|].
  split; [exact (proj1 (starting_guess_bounds_range 1.12) Hin)|].
  split; [exact Hout|].
  exact (proj2 (starting_guess_bounds_range 2) (or_intror Hout)).
Defined.

(** ** The objective and the early stop *)

Lemma distance_zero_iff (r_m t_m r t : R) :
  distance r_m t_m r t = 0 <-> r = r_m /\ t = t_m.
Proof.
  unfold distance; cbv zeta.
  pose proof (Rle_0_sqr (r - r_m)) as Hr0.
  pose proof (Rle_0_sqr (t - t_m)) as Ht0.
  unfold Rsqr in Hr0, Ht0. split.
  - intros Hs. apply sqrt_eq_0 in Hs; [|lra]. split; nra.
  - intros [Hr Ht]. subst.
    replace ((r_m - r_m) * (r_m - r_m) + (t_m - t_m) * (t_m - t_m)) with 0
      by ring.
    apply sqrt_0.
Qed.

(** Each absolute error is at most the Euclidean distance. *)
Lemma errors_below_distance (r_m t_m r t : R) :
  Rabs (r - r_m) <= distance r_m t_m r t
  /\ Rabs (t - t_m) <= distance r_m t_m r t.
Proof.
  unfold distance; cbv zeta.
  pose proof (Rle_0_sqr (r - r_m)) as Hr0.
  pose proof (Rle_0_sqr (t - t_m)) as Ht0.
  split.
  - rewrite <- (sqrt_Rsqr_abs (r - r_m)).
    apply sqrt_le_1; unfold Rsqr in *; lra.
  - rewrite <- (sqrt_Rsqr_abs (t - t_m)).
    apply sqrt_le_1; unfold Rsqr in *; lra.
Qed.

Section ObjectiveValue.

Variable sim : imaging_type -> R -> string -> World -> R.
Variables (wl r_m t_m : R) (set_name : string).

(** X2: the objective is never negative, and it is zero exactly when the
    simulated pair equals the measured pair and is feasible
    ([r + t <= 1]). *)
Theorem objective_zero_iff_exact_match (x : list R) (st st' : FitState)
    (v : R) :
  f sim wl r_m t_m set_name x st = (Ok v, st') ->
  let r := sim imaging_type_refl wl set_name (fs_world st') in
  let t := sim imaging_type_tran wl set_name (fs_world st') in
  0 <= v /\ (v = 0 <-> r = r_m /\ t = t_m /\ r + t <= 1).
Proof.
  intros Hf r t. destruct (f_returns _ _ _ _ _ _ _ Hf) as (Hv & _).
  fold r t in Hv. rewrite Hv.
  pose proof (distance_nonneg r_m t_m r t) as Hd.
  pose proof (distance_zero_iff r_m t_m r t) as Hz.
  unfold density_scale.
  destruct (Rgt_dec (r + t) 1) as [Hgt|Hle].
  - split; [nra|]. split; [intros H0; nra | intros (_ & _ & H); lra].
  - split; [nra|]. split.
    + intros H0. assert (Hd0 : distance r_m t_m r t = 0) by nra.
      apply Hz in Hd0. destruct Hd0. repeat split; try assumption. lra.
    + intros (Hr & Ht & _).
      assert (Hd0 : distance r_m t_m r t = 0) by (apply Hz; auto).
      rewrite Hd0. lra.
Qed.

(** X3: the basin-hopping callback, shown the value of an evaluation, asks for
    the stop exactly when the simulated pair is feasible and within
    Euclidean distance [1 / 200] of the measured pair; both absolute errors
    are then at most 0.005. *)
Theorem early_stop_means_close_fit (x : list R) (st st' : FitState) (v : R)
    (accepted : bool) :
  f sim wl r_m t_m set_name x st = (Ok v, st') ->
  let r := sim imaging_type_refl wl set_name (fs_world st') in
  let t := sim imaging_type_tran wl set_name (fs_world st') in
  (callback x v accepted = Some true
   <-> r + t <= 1 /\ distance r_m t_m r t <= 0.005)
  /\ (callback x v accepted = Some true ->
      Rabs (r - r_m) <= 0.005 /\ Rabs (t - t_m) <= 0.005).
Proof.
  intros Hf r t. destruct (f_returns _ _ _ _ _ _ _ Hf) as (Hv & _).
  fold r t in Hv.
  pose proof (distance_nonneg r_m t_m r t) as Hd.
  pose proof (errors_below_distance r_m t_m r t) as (Her & Het).
  assert (Hiff : callback x v accepted = Some true
                 <-> r + t <= 1 /\ distance r_m t_m r t <= 0.005).
  { unfold callback, ftol_abs. rewrite Hv. unfold density_scale.
    destruct (Rgt_dec (r + t) 1) as [Hgt|Hle];
      match goal with
      | |- context [Rle_dec ?a ?b] => destruct (Rle_dec a b) as [Hs|Hs]
      end; split; intros H; try discriminate; try reflexivity;
      try (split; lra); try (destruct H; exfalso; lra). }
  split; [exact Hiff|].
  intros Hstop. apply Hiff in Hstop. destruct Hstop as (_ & Hclose).
  split; lra.
Qed.

(** X4: the objective returns a value exactly for vectors of four or more
    components; a shorter one raises [IndexError] before anything is
    rendered or logged. *)
Theorem objective_needs_four_components (x : list R) (st : FitState) :
  ((4 <= List.length x)%nat ->
   exists v st',
     f sim wl r_m t_m set_name x st = (Ok v, st')
     /\ List.length (renders (fs_world st'))
        = S (List.length (renders (fs_world st)))
     /\ List.length (fs_history st') = S (List.length (fs_history st)))
  /\ ((List.length x < 4)%nat ->
      f sim wl r_m t_m set_name x st = (Raise IndexError, st)).
Proof.
  split.
  - intros Hlen. destruct x as [|x0 [|x1 [|x2 [|x3 rest]]]];
      try (simpl in Hlen; lia).
    rewrite f_four_components. eexists. eexists. split; [reflexivity|].
    cbn [fs_world fs_history renders].
    rewrite !length_app. cbn [List.length]. lia.
  - apply f_too_short.
Qed.

End ObjectiveValue.

Lemma objective_zero_iff_exact_match_witness :
  exists v st',
    f Sample.sim 500 0.25 0.25 "leaf" [0.2; 0.3; 0.1; 0.5]
      (mkFitState Sample.world []) = (Ok v, st')
    /\ (0 <= v /\ (v = 0 <-> 0.25 = 0.25 /\ 0.25 = 0.25 /\ 0.25 + 0.25 <= 1)).
Proof.
  eexists. eexists.
  assert (H : f Sample.sim 500 0.25 0.25 "leaf" [0.2; 0.3; 0.1; 0.5]
                (mkFitState Sample.world []) = (Ok _, _))
    by (apply f_four_components).
  split; [exact H|].
  exact (@objective_zero_iff_exact_match Sample.sim 500 0.25 0.25 "leaf"
           _ _ _ _ H).
Defined.

Lemma early_stop_means_close_fit_witness :
  exists v st',
    f Sample.sim 500 0.25 0.25 "leaf" [0.2; 0.3; 0.1; 0.5]
      (mkFitState Sample.world []) = (Ok v, st')
    /\ ((callback [0.2; 0.3; 0.1; 0.5] v true = Some true
         <-> 0.25 + 0.25 <= 1 /\ distance 0.25 0.25 0.25 0.25 <= 0.005)
        /\ (callback [0.2; 0.3; 0.1; 0.5] v true = Some true ->
            Rabs (0.25 - 0.25) <= 0.005 /\ Rabs (0.25 - 0.25) <= 0.005)).
Proof.
  eexists. eexists.
  assert (H : f Sample.sim 500 0.25 0.25 "leaf" [0.2; 0.3; 0.1; 0.5]
                (mkFitState Sample.world []) = (Ok _, _))
    by (apply f_four_components).
  split; [exact H|].
  exact (@early_stop_means_close_fit Sample.sim 500 0.25 0.25 "leaf"
           _ _ _ _ true H).
Defined.

Lemma objective_needs_four_components_witness :
  le 4 (List.length [0.2; 0.3; 0.1; 0.5])
  /\ (exists v st',
        f Sample.sim 500 0.4 0.4 "leaf" [0.2; 0.3; 0.1; 0.5]
          (mkFitState Sample.world []) = (Ok v, st')
        /\ List.length (renders (fs_world st'))
           = S (List.length (renders Sample.world))
        /\ List.length (fs_history st') = 1%nat)
  /\ lt (List.length [0.2; 0.3; 0.1]) 4
  /\ f Sample.sim 500 0.4 0.4 "leaf" [0.2; 0.3; 0.1]
       (mkFitState Sample.world [])
     = (Raise IndexError, mkFitState Sample.world []).
Proof.
  assert (H4 : le 4 (List.length [0.2; 0.3; 0.1; 0.5]))
    by (cbn [List.length]; lia).
  assert (H3 : lt (List.length [0.2; 0.3; 0.1]) 4)
    by (cbn [List.length]; lia).
  split; [exact H4|]. split.
  - exact (proj1 (@objective_needs_four_components Sample.sim 500 0.4 0.4
                    "leaf" [0.2; 0.3; 0.1; 0.5] (mkFitState Sample.world []))
                 H4).
  - split; [exact H3|].
    exact (proj2 (@objective_needs_four_components Sample.sim 500 0.4 0.4
                    "leaf" [0.2; 0.3; 0.1] (mkFitState Sample.world []))
                 H3).
Defined.

(** ** The basin-hopping step, in general *)

Lemma clamp_in_range (lo hi y : R) :
  lo <= hi ->
  let y1 := if Rgt_dec y hi then hi else y in
  lo <= (if Rlt_dec y1 lo then lo else y1) <= hi.
Proof.
  intros Hle y1. unfold y1.
  destruct (Rgt_dec y hi); destruct (Rlt_dec _ lo); lra.
Qed.

(** X5: the custom step takes vectors of up to four components, keeps their
    length and returns every component inside its bounds whatever the
    draws; a vector that is within the bounds is returned unchanged when all
    draws are zero; a longer vector raises [IndexError]. *)
Theorem Stepper_call_clamps (stepsize : R) (uniform : nat -> R -> R -> R)
    (x : list R) :
  ((List.length x = 4)%nat ->
   exists x',
     Stepper_call stepsize uniform x = Ok x'
     /\ within_bounds x'
     /\ (within_bounds x -> (forall i a b, uniform i a b = 0) -> x' = x))
  /\ ((List.length x < 4)%nat ->
      exists x',
        Stepper_call stepsize uniform x = Ok x'
        /\ List.length x' = List.length x)
  /\ ((4 < List.length x)%nat ->
      Stepper_call stepsize uniform x = Raise IndexError).
Proof.
  split; [|split].
  - intros Hlen.
    destruct x as [|x0 [|x1 [|x2 [|x3 [|x4 rest]]]]]; try discriminate.
    eexists. split; [run_model; reflexivity|]. split.
    + unfold within_bounds, bounds, lb, ub. cbn [fst snd in_box].
      repeat match goal with
             | |- context [Rgt_dec ?a ?b] => destruct (Rgt_dec a b)
             | |- context [Rlt_dec ?a ?b] => destruct (Rlt_dec a b)
             end; repeat split; lra.
    + unfold within_bounds, bounds, lb, ub. cbn [fst snd in_box].
      intros (H0 & H1 & H2 & H3 & _) Hzero. rewrite !Hzero.
      repeat match goal with
             | |- context [Rgt_dec ?a ?b] => destruct (Rgt_dec a b)
             | |- context [Rlt_dec ?a ?b] => destruct (Rlt_dec a b)
             end; repeat f_equal; lra.
  - intros Hlen.
    destruct x as [|x0 [|x1 [|x2 [|x3 rest]]]];
      try (simpl in Hlen; lia);
      eexists; (split; [run_model; reflexivity | reflexivity]).
  - intros Hlen.
    destruct x as [|x0 [|x1 [|x2 [|x3 [|x4 rest]]]]];
      try (simpl in Hlen; lia).
    reflexivity.
Qed.

Lemma Stepper_call_clamps_witness :
  List.length [0.2; 0.3; 0.1; 0.5] = 4%nat
  /\ (exists x',
        Stepper_call 0.1 (fun _ _ b => b) [0.2; 0.3; 0.1; 0.5] = Ok x'
        /\ within_bounds x')
  /\ lt 4 (List.length [0.2; 0.3; 0.1; 0.5; 0.7])
  /\ Stepper_call 0.1 (fun _ _ b => b) [0.2; 0.3; 0.1; 0.5; 0.7]
     = Raise IndexError.
Proof.
  assert (H4 : List.length [0.2; 0.3; 0.1; 0.5] = 4%nat) by reflexivity.
  assert (H5 : lt 4 (List.length [0.2; 0.3; 0.1; 0.5; 0.7]))
    by (cbn [List.length]; lia).
  split; [exact H4|]. split.
  - destruct (proj1 (Stepper_call_clamps 0.1 (fun _ _ b => b)
                       [0.2; 0.3; 0.1; 0.5]) H4) as (x' & Hx' & Hb & _).
    exists x'. split; [exact Hx' | exact Hb].
  - split; [exact H5|].
    exact (proj2 (proj2 (Stepper_call_clamps 0.1 (fun _ _ b => b)
                           [0.2; 0.3; 0.1; 0.5; 0.7])) H5).
Defined.

(** ** What a fit leaves behind *)

Lemma map_outcome_length {A B} (g : A -> outcome B) (l : list A)
    (bs : list B) :
  map_outcome g l = Ok bs -> List.length bs = List.length l.
Proof.
  revert bs. induction l as [|a l IH]; intros bs; simpl.
  - intros H; inversion H; reflexivity.
  - destruct (g a); [|discriminate].
    destruct (map_outcome g l) as [bs'|]; [|discriminate].
    intros H; inversion H; subst. simpl. rewrite (IH bs' eq_refl). reflexivity.
Qed.

Lemma map_outcome_cons {A B} (g : A -> outcome B) (a : A) (l : list A)
    (bs : list B) :
  map_outcome g (a :: l) = Ok bs ->
  exists b bs', bs = b :: bs' /\ g a = Ok b /\ map_outcome g l = Ok bs'.
Proof.
  simpl. destruct (g a) as [b|]; [|discriminate].
  destruct (map_outcome g l) as [bs'|]; [|discriminate].
  intros H; inversion H; subst. exists b, bs'. auto.
Qed.

Lemma map_outcome_snoc {A B} (g : A -> outcome B) (l : list A) (z : A)
    (bs : list B) :
  map_outcome g (l ++ [z]) = Ok bs ->
  exists bs' b, bs = bs' ++ [b] /\ g z = Ok b /\ map_outcome g l = Ok bs'.
Proof.
  revert bs. induction l as [|a l IH]; intros bs H.
  - cbn [app] in H. apply map_outcome_cons in H.
    destruct H as (b & bs' & Hbs & Hb & Hnil). simpl in Hnil.
    inversion Hnil; subst. exists [], b. auto.
  - cbn [app] in H. apply map_outcome_cons in H.
    destruct H as (b & bs' & Hbs & Hb & Hrest).
    destruct (IH _ Hrest) as (bs'' & bz & Hbs' & Hbz & Hl). subst.
    exists (b :: bs''), bz. split; [reflexivity|]. split; [exact Hbz|].
    simpl. rewrite Hb, Hl. reflexivity.
Qed.

Lemma filter_keeps_all {A} (p : A -> bool) (l : list A) :
  existsb p l = false -> filter (fun e => negb (p e)) l = l.
Proof.
  induction l as [|a l IH]; simpl; [reflexivity|].
  intros H. apply orb_false_iff in H. destruct H as [Ha Hl].
  rewrite Ha. simpl. rewrite (IH Hl). reflexivity.
Qed.

(** The fields of the record built from a history. *)
Lemma make_res_dict_fields (wl r_m t_m : R) (opt_method : string)
    (res : OptimizeResult) (elapsed : R) (history : list (list R))
    (d : Subresult) :
  make_res_dict wl r_m t_m opt_method res elapsed history = Ok d ->
  exists final r t hr ht h0 h1 h2 h3,
    last_item history = Ok final
    /\ item final 4 = Ok r /\ item final 5 = Ok t
    /\ map_outcome (fun h => item h 4) history = Ok hr
    /\ map_outcome (fun h => item h 5) history = Ok ht
    /\ map_outcome (fun h => item h 0) history = Ok h0
    /\ map_outcome (fun h => item h 1) history = Ok h1
    /\ map_outcome (fun h => item h 2) history = Ok h2
    /\ map_outcome (fun h => item h 3) history = Ok h3
    /\ d = mkSubresult wl r_m t_m r t (Rabs (r - r_m)) (Rabs (t - t_m))
             (List.length history - 1) opt_method ftol xtol diffstep res
             elapsed hr ht h0 h1 h2 h3.
Proof.
  unfold make_res_dict.
  destruct (last_item history) as [final|] eqn:Hfinal; [|discriminate].
  destruct (item final 4) as [r|] eqn:Hr; [|discriminate].
  destruct (item final 5) as [t|] eqn:Ht; [|discriminate].
  destruct (map_outcome (fun h => item h 4) history) as [hr|] eqn:Hhr;
    [|discriminate].
  destruct (map_outcome (fun h => item h 5) history) as [ht|] eqn:Hht;
    [|discriminate].
  destruct (map_outcome (fun h => item h 0) history) as [h0|] eqn:Hh0;
    [|discriminate].
  destruct (map_outcome (fun h => item h 1) history) as [h1|] eqn:Hh1;
    [|discriminate].
  destruct (map_outcome (fun h => item h 2) history) as [h2|] eqn:Hh2;
    [|discriminate].
  destruct (map_outcome (fun h => item h 3) history) as [h3|] eqn:Hh3;
    [|discriminate].
  intros H; inversion H; subst; clear H.
  exists final, r, t, hr, ht, h0, h1, h2, h3. repeat split; auto.
Qed.

Section FitRecord.

Variable clock : World -> R.
Variable sim : imaging_type -> R -> string -> World -> R.
Variable least_squares :
  list R -> list R * list R -> string -> R -> R -> R -> strategy.
Variable shgo : list (R * R) -> nat -> nat -> string -> strategy.
Variable dual_annealing :
  list (R * R) -> nat -> nat -> nat -> R -> list R -> R -> R -> R -> strategy.
Variable basinhopping :
  list R -> R -> nat -> R -> nat ->
  ((nat -> R -> R -> R) -> list R -> outcome (list R)) ->
  (list R -> R -> bool -> option bool) -> (list R -> strategy) -> strategy.
Variables (wl r_m t_m : R) (set_name : string).

Local Abbreviation objective := (f sim wl r_m t_m set_name).
Local Abbreviation select :=
  (select_strategy least_squares shgo dual_annealing basinhopping).
Local Abbreviation fit_wl :=
  (fit clock sim least_squares shgo dual_annealing basinhopping wl r_m t_m
       set_name).
Local Abbreviation driver :=
  (optimize_single_wl clock sim least_squares shgo dual_annealing basinhopping
                      wl r_m t_m set_name).

Lemma in_step_refl (st : FitState) : in_step st st.
Proof.
  exists [], []. rewrite !app_nil_r. repeat split; auto.
Qed.

Lemma in_step_trans (st1 st2 st3 : FitState) :
  in_step st1 st2 -> in_step st2 st3 -> in_step st1 st3.
Proof.
  intros (r1 & h1 & Hr1 & Hh1 & Hl1 & Hf1) (r2 & h2 & Hr2 & Hh2 & Hl2 & Hf2).
  exists (r1 ++ r2), (h1 ++ h2).
  rewrite Hr2, Hr1, Hh2, Hh1, <- !app_assoc, !length_app.
  repeat split; auto. apply Forall_app; auto.
Qed.

Lemma f_in_step (x : list R) (st : FitState) :
  in_step st (snd (objective x st)).
Proof.
  destruct x as [|x0 [|x1 [|x2 [|x3 rest]]]];
    try (rewrite f_too_short by (simpl; lia); apply in_step_refl).
  rewrite f_four_components. cbn [snd].
  eexists [_], [_]. cbn [fs_world fs_history renders].
  repeat split; auto. constructor; [|constructor].
  rewrite length_app. cbn [List.length]. lia.
Qed.

Lemma run_strategy_in_step (s : strategy) (st : FitState) :
  in_step st (snd (run_strategy objective s st)).
Proof.
  revert st. induction s as [res|e|x k IH]; intros st; simpl;
    try apply in_step_refl.
  pose proof (f_in_step x st) as Hf.
  destruct (objective x st) as [[v|e] st1]; cbn [snd] in *.
  - eapply in_step_trans; [exact Hf | apply IH].
  - exact Hf.
Qed.

(** A fit, completed or not, persists nothing and plots nothing. *)
Lemma fit_keeps_stores (opt_method : string) (start : R) (st st' : FitState)
    (o : outcome (OptimizeResult * R)) :
  fit_wl opt_method start st = (o, st') ->
  subresults (fs_world st') = subresults (fs_world st)
  /\ final_results (fs_world st') = final_results (fs_world st)
  /\ plots (fs_world st') = plots (fs_world st)
  /\ exists rendered,
       renders (fs_world st') = renders (fs_world st) ++ rendered.
Proof.
  unfold fit, bind, history_append, modify, lift, on_world, perf_counter, ret.
  cbn [fs_world fs_history].
  destruct (select opt_method _) as [s|e].
  - set (st0 := mkFitState (fs_world st) _).
    pose proof (run_strategy_in_step s st0) as (rd & _ & Hrd & _).
    destruct (run_strategy objective s st0) as [[res|e] st1] eqn:Hrun.
    + pose proof Hrun as Hkeep. apply run_strategy_history in Hkeep.
      destruct Hkeep as (_ & Hs & Hf & Hp).
      cbn [snd fs_world] in *.
      pose proof (f_keeps_stores sim wl r_m t_m set_name (res_x res)
                    (mkFitState (fs_world st1) (fs_history st1)))
        as (Hs2 & Hf2 & Hp2).
      pose proof (f_in_step (res_x res)
                    (mkFitState (fs_world st1) (fs_history st1)))
        as (rd2 & _ & Hrd2 & _).
      destruct (objective (res_x res)
                  (mkFitState (fs_world st1) (fs_history st1)))
        as [[v|e] st2]; cbn [snd fs_world] in *;
        intros H; inversion H; subst; clear H;
        unfold st0 in *; cbn [fs_world] in *;
        (split; [congruence|]); (split; [congruence|]);
        (split; [congruence|]);
        exists (rd ++ rd2); rewrite Hrd2, Hrd, app_assoc; reflexivity.
    + pose proof Hrun as Hkeep. apply run_strategy_history in Hkeep.
      destruct Hkeep as (_ & Hs & Hf & Hp).
      cbn [snd fs_world] in *.
      intros H; inversion H; subst; clear H.
      unfold st0 in *; cbn [fs_world] in *.
      repeat split; try assumption. exists rd. exact Hrd.
  - intros H; inversion H; subst; clear H. cbn [fs_world].
    repeat split. exists []. symmetry; apply app_nil_r.
Qed.

(** The shape of a completed fit: at least one record after the seed, one
    render per record, the last record made at the returned vector. *)
Lemma fit_in_step (opt_method : string) (start : R) (w1 : World)
    (res : OptimizeResult) (elapsed : R) (st' : FitState) :
  fit_wl opt_method start (mkFitState w1 []) = (Ok (res, elapsed), st') ->
  let x_0 := get_starting_guess (1 - (r_m + t_m)) in
  let r := sim imaging_type_refl wl set_name (fs_world st') in
  let t := sim imaging_type_tran wl set_name (fs_world st') in
  exists rendered evaluated,
    renders (fs_world st') = renders w1 ++ rendered
    /\ fs_history st'
       = (x_0 ++ [0; 0]) :: evaluated ++ [res_x res ++ [r; t]]
    /\ List.length rendered = S (List.length evaluated)
    /\ Forall (fun h => (6 <= List.length h)%nat)
              (evaluated ++ [res_x res ++ [r; t]]).
Proof.
  intros Hfit x_0 r t.
  pose proof Hfit as Hu. apply fit_unfolded in Hu.
  destruct Hu as (s & st1 & v & _ & Hrun & _ & Hlast).
  fold x_0 in Hrun.
  pose proof (run_strategy_in_step s (mkFitState w1 [x_0 ++ [0; 0]]))
    as (rd1 & rec1 & Hrd1 & Hrec1 & Hlen1 & Hall1).
  rewrite Hrun in Hrd1, Hrec1. cbn [snd fs_world fs_history app] in Hrd1, Hrec1.
  pose proof (f_in_step (res_x res) st1) as (rd2 & rec2 & Hrd2 & Hrec2 & Hlen2 & Hall2).
  rewrite Hlast in Hrd2, Hrec2. cbn [snd] in Hrd2, Hrec2.
  apply f_returns in Hlast. destruct Hlast as (_ & Hh & _). fold r t in Hh.
  rewrite Hh in Hrec2. apply app_inv_head in Hrec2. subst rec2.
  exists (rd1 ++ rd2), rec1.
  rewrite Hrd2, Hrd1, Hh, Hrec1, <- app_assoc, length_app, Hlen2, Hlen1.
  cbn [List.length app]. repeat split; try lia.
  apply Forall_app; auto.
Qed.

(** What an invocation of the driver can change, whatever its outcome. *)
Lemma driver_frame (opt_method : string) (w w' : World)
    (o : outcome unit) :
  driver opt_method w = (o, w') ->
  final_results w' = final_results w
  /\ (exists rendered, renders w' = renders w ++ rendered)
  /\ (exists added,
        subresults w' = subresults w ++ added
        /\ (List.length added <= 1)%nat
        /\ Forall (fun e => fst e = set_name /\ subres_wl (snd e) = wl) added)
  /\ (o <> Ok tt -> subresults w' = subresults w /\ plots w' = plots w)
  /\ (subresult_exists set_name wl w = true -> o = Ok tt /\ w' = w).
Proof.
  destruct (subresult_exists set_name wl w) eqn:Hexists.
  - rewrite driver_skips by exact Hexists.
    intros H; inversion H; subst; clear H.
    split; [reflexivity|]. split; [exists []; symmetry; apply app_nil_r|].
    split; [exists []; rewrite app_nil_r; repeat split; auto|].
    split; [intros Hne; contradiction|auto].
  - rewrite driver_starts_fit by exact Hexists.
    destruct (fit_wl opt_method (clock w) _) as [[[res elapsed]|e] st] eqn:Hfit;
      apply fit_keeps_stores in Hfit; cbn [fs_world subresults final_results
        plots renders] in Hfit;
      destruct Hfit as (Hs & Hf & Hp & (rd & Hrd)).
    + destruct (make_res_dict wl r_m t_m opt_method res elapsed (fs_history st))
        as [d|e] eqn:Hdict.
      * apply make_res_dict_wl in Hdict.
        unfold bind, write_subresult, plot_subresult_opt_history, modify.
        intros H; inversion H; subst; clear H.
        cbn [subresults final_results plots renders].
        split; [exact Hf|].
        split; [exists ((set_name, mkRps false false true false (subres_wl d)
                           0 0 0 0) :: rd);
                rewrite Hrd, <- app_assoc; reflexivity|].
        split.
        { exists [(set_name, d)]. rewrite Hs.
          rewrite (filter_keeps_all _ _ Hexists).
          repeat split; auto. }
        split; [intros Hne; contradiction | discriminate].
      * intros H; inversion H; subst; clear H.
        split; [exact Hf|].
        split; [exists ((set_name, mkRps false false true false wl 0 0 0 0)
                          :: rd);
                rewrite Hrd, <- app_assoc; reflexivity|].
        split; [exists []; rewrite app_nil_r; repeat split; auto|].
        split; [auto | discriminate].
    + intros H; inversion H; subst; clear H.
      split; [exact Hf|].
      split; [exists ((set_name, mkRps false false true false wl 0 0 0 0)
                        :: rd);
              rewrite Hrd, <- app_assoc; reflexivity|].
      split; [exists []; rewrite app_nil_r; repeat split; auto|].
      split; [auto | discriminate].
Qed.

(** X6: the driver only adds: whatever the outcome, earlier renders and
    persisted Subresults stay in place, no FinalResult is touched, at most
    one Subresult is appended and it is for this set and wavelength; an
    invocation that raises persists and plots nothing; an invocation for a
    wavelength already done changes nothing at all. *)
Theorem driver_is_append_only (opt_method : string) (w w' : World)
    (o : outcome unit) :
  driver opt_method w = (o, w') ->
  final_results w' = final_results w
  /\ (exists rendered, renders w' = renders w ++ rendered)
  /\ (exists added,
        subresults w' = subresults w ++ added
        /\ (List.length added <= 1)%nat
        /\ Forall (fun e => fst e = set_name /\ subres_wl (snd e) = wl) added)
  /\ (o <> Ok tt -> subresults w' = subresults w /\ plots w' = plots w)
  /\ (subresult_exists set_name wl w = true -> o = Ok tt /\ w' = w).
Proof. apply driver_frame. Qed.

(** X7: the record a completed fit persists: it is appended for this set,
    wavelength and identifier with the measured pair and the module's
    tolerances; its iteration count is the number of objective evaluations,
    the forced one included, hence at least one, and one less than the
    renders made (the reference render is the extra one); the six history
    columns each hold one entry more than the count; the errors are the
    absolute differences of modeled and measured values. *)
Theorem completed_fit_record (opt_method : string) (w w' : World) :
  subresult_exists set_name wl w = false ->
  driver opt_method w = (Ok tt, w') ->
  exists d,
    subresults w' = subresults w ++ [(set_name, d)]
    /\ plots w' = plots w ++ [(set_name, Some wl)]
    /\ subres_wl d = wl
    /\ subres_optimizer d = opt_method
    /\ subres_reflectance_measured d = r_m
    /\ subres_transmittance_measured d = t_m
    /\ (subres_optimizer_ftol d, subres_optimizer_xtol d,
        subres_optimizer_diffstep d) = (ftol, xtol, diffstep)
    /\ (1 <= subres_iterations d)%nat
    /\ List.length (renders w')
       = (List.length (renders w) + 1 + subres_iterations d)%nat
    /\ Forall (fun column =>
                 List.length (column d) = S (subres_iterations d))
              [subres_history_reflectance; subres_history_transmittance;
               subres_history_absorption_density;
               subres_history_scattering_density;
               subres_history_scattering_anisotropy;
               subres_history_mix_factor]
    /\ subres_reflectance_error d
       = Rabs (subres_reflectance_modeled d - r_m)
    /\ subres_transmittance_error d
       = Rabs (subres_transmittance_modeled d - t_m).
Proof.
  intros Hnew. rewrite driver_starts_fit by exact Hnew.
  destruct (fit_wl opt_method (clock w) _) as [[[res elapsed]|e] st] eqn:Hfit;
    [|discriminate].
  pose proof Hfit as Hkeep. apply fit_keeps_stores in Hkeep.
  cbn [fs_world subresults plots] in Hkeep. destruct Hkeep as (Hs & _ & Hp & _).
  apply fit_in_step in Hfit.
  destruct Hfit as (rd & ev & Hrd & Hh & Hlen & _). cbn [renders] in Hrd.
  destruct (make_res_dict wl r_m t_m opt_method res elapsed (fs_history st))
    as [d|e] eqn:Hdict; [|discriminate].
  apply make_res_dict_fields in Hdict.
  destruct Hdict as (final & r & t & hr & ht & h0 & h1 & h2 & h3 & _ & _ & _
                     & Hhr & Hht & Hh0 & Hh1 & Hh2 & Hh3 & Hd).
  apply map_outcome_length in Hhr, Hht, Hh0, Hh1, Hh2, Hh3.
  assert (Hhist : List.length (fs_history st) = S (S (List.length ev))).
  { rewrite Hh. cbn [List.length]. rewrite length_app. cbn [List.length]. lia. }
  unfold bind, write_subresult, plot_subresult_opt_history, modify.
  intros H; inversion H; subst; clear H.
  exists (mkSubresult wl r_m t_m r t (Rabs (r - r_m)) (Rabs (t - t_m))
            (List.length (fs_history st) - 1) opt_method ftol xtol diffstep
            res elapsed hr ht h0 h1 h2 h3).
  cbn [subresults plots renders subres_wl subres_optimizer
       subres_reflectance_measured subres_transmittance_measured
       subres_optimizer_ftol subres_optimizer_xtol subres_optimizer_diffstep
       subres_iterations subres_reflectance_error subres_transmittance_error
       subres_reflectance_modeled subres_transmittance_modeled].
  rewrite Hs, Hp, (filter_keeps_all _ _ Hnew), Hrd, !length_app, Hlen, Hhist.
  cbn [List.length].
  repeat split; try reflexivity; try lia.
  repeat constructor; cbn [subres_history_reflectance
    subres_history_transmittance subres_history_absorption_density
    subres_history_scattering_density subres_history_scattering_anisotropy
    subres_history_mix_factor subres_iterations]; lia.
Qed.

Lemma last_item_cons_snoc {A} (a : A) (l : list A) (z : A) :
  last_item (a :: l ++ [z]) = Ok z.
Proof. exact (last_item_snoc (a :: l) z). Qed.

Lemma column_ends {B} (g : list R -> outcome B) (seed final : list R)
    (evaluated : list (list R)) (column : list B) :
  map_outcome g (seed :: evaluated ++ [final]) = Ok column ->
  exists b z,
    g seed = Ok b /\ g final = Ok z
    /\ hd_error column = Some b /\ last_item column = Ok z.
Proof.
  intros H. apply map_outcome_cons in H.
  destruct H as (b & col' & Hcol & Hb & Hrest).
  apply map_outcome_snoc in Hrest.
  destruct Hrest as (col'' & z & Hcol' & Hz & _). subst.
  exists b, z. repeat split; auto.
  exact (last_item_snoc (b :: col'') z).
Qed.

(** X8: when the routine returns a vector of exactly four components, the
    persisted record ends where the routine ended: the modeled pair is what
    the simulator reports after the last render, each history column ends
    with the matching component of the returned vector or of the modeled
    pair, and each begins with the matching component of the starting guess
    or with the placeholder 0. *)
Theorem persisted_subresult_matches_final_evaluation (opt_method : string)
    (w w' : World) (d : Subresult) :
  subresult_exists set_name wl w = false ->
  driver opt_method w = (Ok tt, w') ->
  last_item (subresults w') = Ok (set_name, d) ->
  List.length (res_x (subres_optimizer_result d)) = 4%nat ->
  let x_0 := get_starting_guess (1 - (r_m + t_m)) in
  let x := res_x (subres_optimizer_result d) in
  let w_last := mkWorld (renders w') (subresults w) (final_results w)
                        (plots w) in
  subres_reflectance_modeled d = sim imaging_type_refl wl set_name w_last
  /\ subres_transmittance_modeled d = sim imaging_type_tran wl set_name w_last
  /\ last_item (subres_history_reflectance d)
     = Ok (subres_reflectance_modeled d)
  /\ last_item (subres_history_transmittance d)
     = Ok (subres_transmittance_modeled d)
  /\ last_item (subres_history_absorption_density d) = item x 0
  /\ last_item (subres_history_scattering_density d) = item x 1
  /\ last_item (subres_history_scattering_anisotropy d) = item x 2
  /\ last_item (subres_history_mix_factor d) = item x 3
  /\ hd_error (subres_history_reflectance d) = Some 0
  /\ hd_error (subres_history_transmittance d) = Some 0
  /\ hd_error (subres_history_absorption_density d) = nth_error x_0 0
  /\ hd_error (subres_history_scattering_density d) = nth_error x_0 1
  /\ hd_error (subres_history_scattering_anisotropy d) = nth_error x_0 2
  /\ hd_error (subres_history_mix_factor d) = nth_error x_0 3.
Proof.
  intros Hnew Hrun Hlast Hfour x_0 x w_last. revert Hrun.
  rewrite driver_starts_fit by exact Hnew.
  destruct (fit_wl opt_method (clock w) _) as [[[res elapsed]|e] st] eqn:Hfit;
    [|discriminate].
  pose proof Hfit as Hkeep. apply fit_keeps_stores in Hkeep.
  cbn [fs_world subresults plots final_results] in Hkeep.
  destruct Hkeep as (Hs & Hf & Hp & _).
  apply fit_in_step in Hfit.
  destruct Hfit as (rd & ev & Hrd & Hh & _ & _). cbn [renders] in Hrd.
  destruct (make_res_dict wl r_m t_m opt_method res elapsed (fs_history st))
    as [d'|e] eqn:Hdict; [|discriminate].
  apply make_res_dict_fields in Hdict.
  destruct Hdict as (final & r & t & hr & ht & h0 & h1 & h2 & h3 & Hfinal
                     & Hr & Ht & Hhr & Hht & Hh0 & Hh1 & Hh2 & Hh3 & Hd).
  unfold bind, write_subresult, plot_subresult_opt_history, modify.
  intros H; inversion H; subst w'; clear H.
  cbn [subresults renders] in *. rewrite last_item_snoc in Hlast.
  subst d'. injection Hlast as Hdeq. subst d.
  unfold x in *. cbn [subres_optimizer_result] in *. clear x.
  assert (Hworld : fs_world st = w_last).
  { unfold w_last. cbn [renders]. rewrite <- Hs, <- Hf, <- Hp.
    destruct (fs_world st); reflexivity. }
  rewrite Hworld in Hh.
  set (rr := sim imaging_type_refl wl set_name w_last) in *.
  set (tt' := sim imaging_type_tran wl set_name w_last) in *.
  rewrite Hh in Hfinal, Hhr, Hht, Hh0, Hh1, Hh2, Hh3.
  rewrite last_item_cons_snoc in Hfinal.
  inversion Hfinal; subst final; clear Hfinal.
  destruct (res_x res) as [|a0 [|a1 [|a2 [|a3 [|a4 rest]]]]] eqn:Hres;
    try discriminate.
  cbn in Hr, Ht. inversion Hr; inversion Ht; subst r t.
  apply column_ends in Hhr, Hht, Hh0, Hh1, Hh2, Hh3.
  destruct Hhr as (b4 & z4 & Hb4 & Hz4 & Hhd4 & Hl4).
  destruct Hht as (b5 & z5 & Hb5 & Hz5 & Hhd5 & Hl5).
  destruct Hh0 as (b0 & z0 & Hb0 & Hz0 & Hhd0 & Hl0).
  destruct Hh1 as (b1 & z1 & Hb1 & Hz1 & Hhd1 & Hl1).
  destruct Hh2 as (b2 & z2 & Hb2 & Hz2 & Hhd2 & Hl2).
  destruct Hh3 as (b3 & z3 & Hb3 & Hz3 & Hhd3 & Hl3).
  cbn in Hb4, Hb5, Hb0, Hb1, Hb2, Hb3, Hz4, Hz5, Hz0, Hz1, Hz2, Hz3.
  inversion Hb4; inversion Hb5; inversion Hb0; inversion Hb1; inversion Hb2;
    inversion Hb3; inversion Hz4; inversion Hz5; inversion Hz0; inversion Hz1;
    inversion Hz2; inversion Hz3; subst.
  cbn [subres_reflectance_modeled subres_transmittance_modeled
    subres_history_reflectance subres_history_transmittance
    subres_history_absorption_density subres_history_scattering_density
    subres_history_scattering_anisotropy subres_history_mix_factor].
  repeat split; assumption.
Qed.

(** X9: a completed invocation is a checkpoint: the Subresult then exists, and
    every later invocation for the wavelength, whatever the identifier it
    is given, returns at once and leaves the world as it is. *)
Theorem completed_fit_then_skip (opt_method : string) (w w' : World) :
  driver opt_method w = (Ok tt, w') ->
  subresult_exists set_name wl w' = true
  /\ forall opt_method',
       optimize_single_wl clock sim least_squares shgo dual_annealing
         basinhopping wl r_m t_m set_name opt_method' w' = (Ok tt, w').
Proof.
  intros Hrun. apply completed_fit_is_persisted in Hrun.
  split; [exact Hrun|]. intros opt_method'.
  apply driver_skips. exact Hrun.
Qed.

End FitRecord.

(** The fit of 530 nm on the sample store. *)
Lemma sample_fit_530 :
  exists w' d,
    optimize_single_wl Sample.clock Sample.sim Sample.least_squares
      Sample.shgo Sample.dual_annealing Sample.basinhopping
      530 0.4 0.4 "leaf" "least_squares" Sample.world = (Ok tt, w')
    /\ last_item (subresults w') = Ok ("leaf"%string, d)
    /\ List.length (res_x (subres_optimizer_result d)) = 4%nat.
Proof.
  eexists. eexists.
  assert (H : optimize_single_wl Sample.clock Sample.sim Sample.least_squares
                Sample.shgo Sample.dual_annealing Sample.basinhopping
                530 0.4 0.4 "leaf" "least_squares" Sample.world = (Ok tt, _))
    by (rewrite (@driver_starts_fit Sample.clock Sample.sim
                   Sample.least_squares Sample.shgo Sample.dual_annealing
                   Sample.basinhopping 530 0.4 0.4 "leaf" "least_squares"
                   Sample.world sample_530_missing);
        cbv -[Rplus Rminus Rmult Rdiv Rinv Ropp IZR INR sqrt Rabs pow
              Rgt_dec Rle_dec Rlt_dec Req_dec_T Z.pow_pos filter];
        reflexivity).
  split; [exact H|]. cbn [subresults]. split.
  - apply last_item_snoc.
  - reflexivity.
Defined.

Lemma driver_is_append_only_witness :
  exists w',
    optimize_single_wl Sample.clock Sample.sim Sample.least_squares
      Sample.shgo Sample.dual_annealing Sample.basinhopping
      530 0.4 0.4 "leaf" "least_squares" Sample.world = (Ok tt, w')
    /\ final_results w' = final_results Sample.world
    /\ (exists rendered, renders w' = renders Sample.world ++ rendered)
    /\ (exists added,
          subresults w' = subresults Sample.world ++ added
          /\ (List.length added <= 1)%nat).
Proof.
  destruct sample_fit_530 as (w' & d & Hrun & _).
  exists w'. split; [exact Hrun|].
  destruct (@driver_is_append_only Sample.clock Sample.sim Sample.least_squares
              Sample.shgo Sample.dual_annealing Sample.basinhopping
              530 0.4 0.4 "leaf" "least_squares" Sample.world w' (Ok tt) Hrun)
    as (Hf & Hr & (added & Hadd & Hlen & _) & _).
  split; [exact Hf|]. split; [exact Hr|].
  exists added. split; [exact Hadd | exact Hlen].
Defined.

Lemma completed_fit_record_witness :
  subresult_exists "leaf" 530 Sample.world = false
  /\ exists w' d,
       optimize_single_wl Sample.clock Sample.sim Sample.least_squares
         Sample.shgo Sample.dual_annealing Sample.basinhopping
         530 0.4 0.4 "leaf" "least_squares" Sample.world = (Ok tt, w')
       /\ subresults w' = subresults Sample.world ++ [("leaf"%string, d)]
       /\ subres_wl d = 530
       /\ (1 <= subres_iterations d)%nat
       /\ List.length (renders w')
          = (List.length (renders Sample.world) + 1 + subres_iterations d)%nat.
Proof.
  split; [exact sample_530_missing|].
  destruct sample_fit_530 as (w' & _ & Hrun & _).
  destruct (@completed_fit_record Sample.clock Sample.sim Sample.least_squares
              Sample.shgo Sample.dual_annealing Sample.basinhopping
              530 0.4 0.4 "leaf" "least_squares" Sample.world w'
              sample_530_missing Hrun)
    as (d & Hadd & _ & Hwl & _ & _ & _ & _ & Hit & Hrd & _).
  exists w', d. repeat split; assumption.
Defined.

Lemma persisted_subresult_matches_final_evaluation_witness :
  subresult_exists "leaf" 530 Sample.world = false
  /\ exists w' d,
       optimize_single_wl Sample.clock Sample.sim Sample.least_squares
         Sample.shgo Sample.dual_annealing Sample.basinhopping
         530 0.4 0.4 "leaf" "least_squares" Sample.world = (Ok tt, w')
       /\ last_item (subresults w') = Ok ("leaf"%string, d)
       /\ List.length (res_x (subres_optimizer_result d)) = 4%nat
       /\ subres_reflectance_modeled d = 0.25
       /\ last_item (subres_history_reflectance d) = Ok 0.25
       /\ hd_error (subres_history_reflectance d) = Some 0.
Proof.
  split; [exact sample_530_missing|].
  destruct sample_fit_530 as (w' & d & Hrun & Hlast & Hfour).
  destruct (@persisted_subresult_matches_final_evaluation Sample.clock
              Sample.sim Sample.least_squares Sample.shgo Sample.dual_annealing
              Sample.basinhopping 530 0.4 0.4 "leaf" "least_squares"
              Sample.world w' d sample_530_missing Hrun Hlast Hfour)
    as (Hr & _ & Hlr & _ & _ & _ & _ & _ & Hhr & _).
  exists w', d. split; [exact Hrun|]. split; [exact Hlast|].
  split; [exact Hfour|]. split; [exact Hr|]. split.
  - rewrite Hlr, Hr. reflexivity.
  - exact Hhr.
Defined.

Lemma completed_fit_then_skip_witness :
  exists w',
    optimize_single_wl Sample.clock Sample.sim Sample.least_squares
      Sample.shgo Sample.dual_annealing Sample.basinhopping
      530 0.4 0.4 "leaf" "least_squares" Sample.world = (Ok tt, w')
    /\ subresult_exists "leaf" 530 w' = true
    /\ optimize_single_wl Sample.clock Sample.sim Sample.least_squares
         Sample.shgo Sample.dual_annealing Sample.basinhopping
         530 0.4 0.4 "leaf" "newton" w' = (Ok tt, w').
Proof.
  destruct sample_fit_530 as (w' & _ & Hrun & _).
  destruct (@completed_fit_then_skip Sample.clock Sample.sim
              Sample.least_squares Sample.shgo Sample.dual_annealing
              Sample.basinhopping 530 0.4 0.4 "leaf" "least_squares"
              Sample.world w' Hrun) as (Hex & Hskip).
  exists w'. split; [exact Hrun|]. split; [exact Hex | exact (Hskip _)].
Defined.

(** ** The aggregator, in full *)

(** The world a completed aggregation leaves and the record it persists. *)
Lemma make_final_result_record (set_name : string) (wall : R) (w w' : World) :
  make_final_result set_name wall w = (Ok tt, w') ->
  let subs := stored_subresults set_name w in
  exists first rest c0 c1 c2 c3 basin,
    subs = first :: rest
    /\ map_outcome (fun s => last_item (subres_history_absorption_density s))
                   subs = Ok c0
    /\ map_outcome (fun s => last_item (subres_history_scattering_density s))
                   subs = Ok c1
    /\ map_outcome (fun s => last_item (subres_history_scattering_anisotropy s))
                   subs = Ok c2
    /\ map_outcome (fun s => last_item (subres_history_mix_factor s))
                   subs = Ok c3
    /\ ((subres_optimizer first = "basin_hopping"%string
         /\ exists flags,
              map_outcome more_than_one_hop subs = Ok flags
              /\ basin = Some (count_true flags))
        \/ (subres_optimizer first <> "basin_hopping"%string
            /\ basin = None))
    /\ w' = mkWorld (renders w) (subresults w)
              ((set_name,
                mkFinalResult
                  (match persisted_final_result set_name w with
                   | Some previous_result =>
                       wall + result_wall_clock_elapsed_min previous_result
                   | None => wall
                   end)
                  (sum (map subres_elapsed_time_s subs) / 60.0)
                  (rmse (map subres_reflectance_error subs))
                  (rmse (map subres_transmittance_error subs))
                  (Tuple1 (subres_optimizer first)) (Tuple1 ftol)
                  (Tuple1 xtol) (Tuple1 diffstep) basin
                  (map subres_wl subs)
                  (map subres_reflectance_modeled subs)
                  (map subres_reflectance_measured subs)
                  (map subres_reflectance_error subs)
                  (map subres_transmittance_modeled subs)
                  (map subres_transmittance_measured subs)
                  (map subres_transmittance_error subs)
                  c0 c1 c2 c3)
                 :: filter (fun e => negb (String.eqb (fst e) set_name))
                           (final_results w))
              (plots w ++ [(set_name, None)]).
Proof.
  intros Hrun subs. revert Hrun.
  unfold make_final_result, item0, collect_subresults, try_except_OSError, bind, ret,
    lift, persisted_final_result, read_final_result, item,
    write_final_result, plot_final_result, modify.
  fold subs.
  destruct subs as [|first rest] eqn:Hsubs;
    [destruct (find _ (final_results w)); discriminate|].
  cbn [nth_error].
  destruct (find (fun e => String.eqb (fst e) set_name) (final_results w))
    as [previous|];
    (destruct (String.eqb_spec (subres_optimizer first) "basin_hopping")
       as [Hbasin|Hbasin];
     [destruct (map_outcome more_than_one_hop (first :: rest)) as [flags|]
        eqn:Hflags; [|discriminate]|]);
    repeat match goal with
      | |- context [match map_outcome ?g (first :: rest) with _ => _ end] =>
          let Hcol := fresh "Hcol" in
          destruct (map_outcome g (first :: rest)) eqn:Hcol; [|discriminate]
      end;
    intros H; inversion H; subst; clear H;
    do 7 eexists;
    (split; [reflexivity|]); (split; [reflexivity|]);
    (split; [reflexivity|]); (split; [reflexivity|]);
    (split; [reflexivity|]);
    (split; [first [left; split; [exact Hbasin|eexists; split; reflexivity]
                   |right; split; [exact Hbasin|reflexivity]]
            |reflexivity]).
Qed.

Lemma map_outcome_all_return {A B} (g : A -> outcome B) (l : list A)
    (bs : list B) :
  map_outcome g l = Ok bs -> forall a, In a l -> exists b, g a = Ok b.
Proof.
  revert bs. induction l as [|a l IH]; intros bs H a' Hin; [contradiction|].
  apply map_outcome_cons in H. destruct H as (b & bs' & _ & Hb & Hrest).
  destruct Hin as [Heq|Hin]; [subst; eauto | eapply IH; eauto].
Qed.

Lemma aggregator_failure_keeps_world (set_name : string) (wall : R)
    (w : World) :
  (stored_subresults set_name w = [] ->
   make_final_result set_name wall w = (Raise IndexError, w))
  /\ (forall e w',
        make_final_result set_name wall w = (Raise e, w') ->
        w' = w /\ (e = IndexError \/ e = KeyError)).
Proof.
  unfold make_final_result, item0, collect_subresults, try_except_OSError, bind, ret,
    lift, read_final_result, item, write_final_result, plot_final_result,
    modify.
  set (subs := stored_subresults set_name w). split.
  - intros Hnil. rewrite Hnil.
    destruct (find _ (final_results w)); reflexivity.
  - intros e w'.
    destruct (find (fun e => String.eqb (fst e) set_name) (final_results w));
      (destruct (nth_error subs 0) as [first|];
       [|intros H; inversion H; auto]);
      (destruct (String.eqb (subres_optimizer first) "basin_hopping");
       [destruct (map_outcome more_than_one_hop subs) eqn:Hhops;
        [|apply more_than_one_hop_raises in Hhops; subst;
          intros H; inversion H; auto]|]);
      repeat match goal with
        | |- context [match map_outcome ?g subs with _ => _ end] =>
            let Hcol := fresh "Hcol" in
            destruct (map_outcome g subs) eqn:Hcol;
            [|apply final_column_raises in Hcol; subst;
              intros H; inversion H; auto]
        end;
      discriminate.
Qed.

(** X10: an aggregation that fails has changed nothing, and it fails with
    [IndexError] (no Subresult, or an empty history column) or [KeyError]
    (a routine result without [nit] in a basin-hopping set); on a set
    without Subresults it always fails. *)
Theorem aggregator_fails_cleanly (set_name : string) (wall : R) (w : World) :
  (stored_subresults set_name w = [] ->
   make_final_result set_name wall w = (Raise IndexError, w))
  /\ (forall e w',
        make_final_result set_name wall w = (Raise e, w') ->
        w' = w /\ (e = IndexError \/ e = KeyError)).
Proof. apply aggregator_failure_keeps_world. Qed.

Lemma aggregator_fails_cleanly_witness :
  stored_subresults "bark" Sample.world = []
  /\ make_final_result "bark" 5.0 Sample.world
     = (Raise IndexError, Sample.world).
Proof.
  assert (H : stored_subresults "bark" Sample.world = []) by reflexivity.
  split; [exact H|].
  exact (proj1 (aggregator_fails_cleanly "bark" 5.0 Sample.world) H).
Defined.

(** X11: the aggregator completes exactly when the set has a Subresult, every
    Subresult has non-empty parameter histories and, if the first one names
    basin-hopping, every routine result reports [nit]. *)
Theorem aggregator_completes_iff (set_name : string) (wall : R) (w : World) :
  let subs := stored_subresults set_name w in
  (exists w', make_final_result set_name wall w = (Ok tt, w'))
  <-> subs <> []
      /\ (forall s, In s subs ->
            subres_history_absorption_density s <> []
            /\ subres_history_scattering_density s <> []
            /\ subres_history_scattering_anisotropy s <> []
            /\ subres_history_mix_factor s <> [])
      /\ (forall first, hd_error subs = Some first ->
            subres_optimizer first = "basin_hopping"%string ->
            forall s, In s subs ->
              res_nit (subres_optimizer_result s) <> None).
Proof.
  intros subs. split.
  - intros (w' & Hrun). apply make_final_result_record in Hrun.
    destruct Hrun as (first & rest & c0 & c1 & c2 & c3 & basin & Hsubs & H0
                      & H1 & H2 & H3 & Hbasin & _).
    fold subs in Hsubs, H0, H1, H2, H3, Hbasin.
    split; [rewrite Hsubs; discriminate|]. split.
    + intros s Hs.
      destruct (map_outcome_all_return _ _ H0 s Hs) as (b0 & Hb0).
      destruct (map_outcome_all_return _ _ H1 s Hs) as (b1 & Hb1).
      destruct (map_outcome_all_return _ _ H2 s Hs) as (b2 & Hb2).
      destruct (map_outcome_all_return _ _ H3 s Hs) as (b3 & Hb3).
      cbv beta in Hb0, Hb1, Hb2, Hb3.
      repeat split; intros Hnil;
        [rewrite Hnil in Hb0|rewrite Hnil in Hb1|rewrite Hnil in Hb2
        |rewrite Hnil in Hb3]; discriminate.
    + intros first' Hhd Hopt s Hs Hnone.
      rewrite Hsubs in Hhd. inversion Hhd; subst first'.
      destruct Hbasin as [(_ & flags & Hflags & _)|(Hne & _)];
        [|contradiction].
      destruct (map_outcome_all_return _ _ Hflags s Hs) as (b & Hb).
      unfold more_than_one_hop in Hb. rewrite Hnone in Hb. discriminate.
  - intros (Hne & Hcols & Hnit).
    apply make_final_result_completes; assumption.
Qed.

Lemma aggregator_completes_iff_witness :
  (exists w', make_final_result "leaf" 5.0 Sample.world = (Ok tt, w'))
  /\ stored_subresults "leaf" Sample.world <> [].
Proof.
  assert (H : exists w', make_final_result "leaf" 5.0 Sample.world = (Ok tt, w'))
    by (eexists; run_model; reflexivity).
  split; [exact H|].
  exact (proj1 (proj1 (aggregator_completes_iff "leaf" 5.0 Sample.world) H)).
Defined.

(** X12: the persisted FinalResult is a table with one row per Subresult, in
    stored order: its eleven arrays all have the length of the Subresult
    list and the wavelength array lists the Subresults' wavelengths; the
    optimizer entry is the one-element tuple of the first Subresult's
    identifier, the tolerance entries are one-element tuples of the module's
    constants whatever the Subresults recorded, and the count of
    basin-hopping fits that needed more than one hop is present exactly when
    that identifier is ['basin_hopping'], never exceeding the row count. *)
Theorem aggregator_record_is_parallel (set_name : string) (wall : R)
    (w w' : World) :
  make_final_result set_name wall w = (Ok tt, w') ->
  let subs := stored_subresults set_name w in
  exists fr,
    persisted_final_result set_name w' = Some fr
    /\ result_wls fr = map subres_wl subs
    /\ Forall (fun column =>
                 List.length (column fr) = List.length subs)
              [result_wls; result_refls_modeled; result_refls_measured;
               result_refls_error; result_trans_modeled;
               result_trans_measured; result_trans_error;
               result_absorption_density; result_scattering_density;
               result_scattering_anisotropy; result_mix_factor]
    /\ Some (result_optimizer fr)
       = option_map (fun first => Tuple1 (subres_optimizer first))
                    (hd_error subs)
    /\ (result_optimizer_ftol fr, result_optimizer_xtol fr,
        result_optimizer_diffstep fr)
       = (Tuple1 ftol, Tuple1 xtol, Tuple1 diffstep)
    /\ (item0 (result_optimizer fr) = "basin_hopping"%string
        <-> exists n, result_basin_iterations_required fr = Some n)
    /\ (forall n, result_basin_iterations_required fr = Some n ->
          (n <= List.length subs)%nat).
Proof.
  intros Hrun subs. apply make_final_result_record in Hrun.
  destruct Hrun as (first & rest & c0 & c1 & c2 & c3 & basin & Hsubs & H0
                    & H1 & H2 & H3 & Hbasin & Hw').
  fold subs in Hsubs, H0, H1, H2, H3, Hbasin, Hw'.
  eexists. split.
  - rewrite Hw'. unfold persisted_final_result, read_final_result.
    cbn [final_results find fst snd]. rewrite String.eqb_refl. reflexivity.
  - cbn [result_wls result_refls_modeled result_refls_measured
         result_refls_error result_trans_modeled result_trans_measured
         result_trans_error result_absorption_density
         result_scattering_density result_scattering_anisotropy
         result_mix_factor result_optimizer result_optimizer_ftol
         result_optimizer_xtol result_optimizer_diffstep
         result_basin_iterations_required snd item0].
    apply map_outcome_length in H0, H1, H2, H3.
    split; [reflexivity|]. split.
    { repeat constructor;
        cbn [result_wls result_refls_modeled result_refls_measured
             result_refls_error result_trans_modeled result_trans_measured
             result_trans_error result_absorption_density
             result_scattering_density result_scattering_anisotropy
             result_mix_factor];
        rewrite ?length_map; auto. }
    split; [rewrite Hsubs; reflexivity|]. split; [reflexivity|].
    destruct Hbasin as [(Hopt & flags & Hflags & Hb)|(Hopt & Hb)]; subst basin.
    + split; [split; eauto|].
      intros n Hn. inversion Hn; subst n.
      apply map_outcome_length in Hflags. rewrite <- Hflags.
      unfold count_true. apply filter_length_le.
    + split; [split; [contradiction | intros (n & Hn); discriminate]|].
      intros n Hn. discriminate.
Qed.

Lemma aggregator_record_is_parallel_witness :
  exists w' fr,
    make_final_result "leaf" 5.0 Sample.world = (Ok tt, w')
    /\ persisted_final_result "leaf" w' = Some fr
    /\ result_wls fr = [500; 510; 520]
    /\ result_optimizer fr = Tuple1 "least_squares"%string
    /\ result_optimizer_ftol fr = Tuple1 ftol
    /\ result_basin_iterations_required fr = None.
Proof.
  assert (H : make_final_result "leaf" 5.0 Sample.world = (Ok tt, _))
    by (run_model; reflexivity).
  destruct (aggregator_record_is_parallel _ _ _ H)
    as (fr & Hfr & Hwls & _ & Hopt & Htol & Hbasin & _).
  eexists. exists fr. split; [exact H|]. split; [exact Hfr|].
  split; [exact Hwls|].
  assert (Ho : result_optimizer fr = Tuple1 "least_squares"%string)
    by (cbn in Hopt; inversion Hopt; reflexivity).
  split; [exact Ho|].
  split; [inversion Htol; reflexivity|].
  destruct (result_basin_iterations_required fr) as [n|]; [|reflexivity].
  exfalso. assert (Hb : item0 (result_optimizer fr) = "basin_hopping"%string)
    by (apply Hbasin; eauto).
  rewrite Ho in Hb. discriminate.
Defined.

Lemma persisted_final_result_find (set_name : string) (w : World) :
  persisted_final_result set_name w
  = option_map snd (find (fun e => String.eqb (fst e) set_name)
                         (final_results w)).
Proof.
  unfold persisted_final_result, read_final_result.
  destruct (find _ (final_results w)); reflexivity.
Qed.

Lemma find_other_after_write (set_name other : string) (fr : FinalResult)
    (l : list (string * FinalResult)) :
  other <> set_name ->
  find (fun e => String.eqb (fst e) other)
       ((set_name, fr)
          :: filter (fun e => negb (String.eqb (fst e) set_name)) l)
  = find (fun e => String.eqb (fst e) other) l.
Proof.
  intros Hother. cbn [find fst].
  destruct (String.eqb_spec set_name other) as [Heq|_];
    [symmetry in Heq; contradiction|].
  induction l as [|[name fr'] l IH]; [reflexivity|].
  cbn [filter fst]. destruct (String.eqb_spec name set_name) as [Hn|Hn].
  - cbn [negb find fst]. subst name.
    destruct (String.eqb_spec set_name other) as [Heq|_];
      [symmetry in Heq; contradiction|]. exact IH.
  - cbn [negb find fst]. destruct (String.eqb name other); [reflexivity|].
    exact IH.
Qed.

(** X13: a completed aggregation touches only the set's FinalResult and the
    plot list: renders and Subresults are as before, one final plot is
    requested, and the FinalResult of every other set is what it was. *)
Theorem aggregator_frame (set_name : string) (wall : R) (w w' : World) :
  make_final_result set_name wall w = (Ok tt, w') ->
  renders w' = renders w
  /\ subresults w' = subresults w
  /\ plots w' = plots w ++ [(set_name, None)]
  /\ forall other,
       other <> set_name ->
       persisted_final_result other w' = persisted_final_result other w.
Proof.
  intros Hrun. apply make_final_result_record in Hrun.
  destruct Hrun as (first & rest & c0 & c1 & c2 & c3 & basin & _ & _ & _ & _
                    & _ & _ & Hw').
  subst w'. cbn [renders subresults plots]. repeat split.
  intros other Hother.
  rewrite !persisted_final_result_find. cbn [final_results].
  rewrite find_other_after_write by exact Hother. reflexivity.
Qed.

Lemma aggregator_frame_witness :
  exists w',
    make_final_result "leaf" 5.0 Sample.world = (Ok tt, w')
    /\ renders w' = renders Sample.world
    /\ subresults w' = subresults Sample.world
    /\ plots w' = plots Sample.world ++ [("leaf"%string, None)].
Proof.
  assert (H : make_final_result "leaf" 5.0 Sample.world = (Ok tt, _))
    by (run_model; reflexivity).
  destruct (aggregator_frame _ _ _ H) as (Hr & Hs & Hp & _).
  eexists. split; [exact H|]. repeat split; assumption.
Defined.

(** X14: aggregating a set again and again, with nothing fitted in between: the
    persisted wall-clock time is what was there before plus the sum of all
    the inputs, while process time and both RMSE values are those of a
    single aggregation of the stored Subresults. *)
Theorem wall_clock_sums_over_runs (set_name : string) (walls : list R)
    (w w' : World) :
  walls <> [] ->
  for_each (make_final_result set_name) walls w = (Ok tt, w') ->
  let subs := stored_subresults set_name w in
  exists fr,
    persisted_final_result set_name w' = Some fr
    /\ result_wall_clock_elapsed_min fr
       = match persisted_final_result set_name w with
         | Some previous_result =>
             result_wall_clock_elapsed_min previous_result
         | None => 0
         end + fold_right Rplus 0 walls
    /\ result_process_elapsed_min fr
       = sum (map subres_elapsed_time_s subs) / 60
    /\ result_r_RMSE fr = rmse (map subres_reflectance_error subs)
    /\ result_t_RMSE fr = rmse (map subres_transmittance_error subs)
    /\ subresults w' = subresults w.
Proof.
  revert w. induction walls as [|a walls IH]; intros w Hne; [contradiction|].
  cbn [for_each]. unfold bind at 1.
  destruct (make_final_result set_name a w) as [[[]|e] w1] eqn:Hrun;
    [|discriminate].
  apply make_final_result_completed in Hrun.
  destruct Hrun as (fr1 & Hfr1 & Hwall1 & Hproc1 & Hr1 & Ht1 & _ & Hsub1).
  destruct walls as [|b walls].
  - cbn [for_each]. unfold ret. intros H.
    inversion H; subst w'; clear H. exists fr1. cbn [fold_right].
    repeat split; try assumption.
    rewrite Hwall1. destruct (persisted_final_result set_name w); lra.
  - intros Hrest. cbv zeta. set (subs := stored_subresults set_name w) in *.
    assert (Hstored : stored_subresults set_name w1 = subs)
      by (unfold subs, stored_subresults; rewrite Hsub1; reflexivity).
    destruct (IH w1 ltac:(discriminate) Hrest)
      as (fr & Hfr & Hwall & Hproc & Hr & Ht & Hsub).
    rewrite Hstored in Hproc, Hr, Ht. rewrite Hfr1 in Hwall.
    exists fr. repeat split; try assumption; [|congruence].
    rewrite Hwall, Hwall1. cbn [fold_right].
    destruct (persisted_final_result set_name w); lra.
Qed.

Lemma wall_clock_sums_over_runs_witness :
  [5.0; 3.0; 2.0] <> []
  /\ exists w' fr,
       for_each (make_final_result "leaf") [5.0; 3.0; 2.0] Sample.world
       = (Ok tt, w')
       /\ persisted_final_result "leaf" w' = Some fr
       /\ result_wall_clock_elapsed_min fr = 10.
Proof.
  assert (Hne : [5.0; 3.0; 2.0] <> []) by discriminate.
  split; [exact Hne|].
  assert (H : for_each (make_final_result "leaf") [5.0; 3.0; 2.0] Sample.world
              = (Ok tt, _)) by (run_model; reflexivity).
  destruct (@wall_clock_sums_over_runs _ _ _ _ Hne H)
    as (fr & Hfr & Hwall & _).
  eexists. exists fr. split; [exact H|]. split; [exact Hfr|].
  rewrite Hwall. cbn. lra.
Defined.

(** ** The scheduler, in full *)

Section Downsampling.

Local Open Scope nat_scope.

Lemma pick_in_range {A} (l : list A) (indices : list nat) (k : nat) :
  Forall (fun i => i < List.length l) indices ->
  nth_error (flat_map (fun i => match nth_error l i with
                                | Some a => [a]
                                | None => []
                                end) indices) k
  = match nth_error indices k with
    | Some i => nth_error l i
    | None => None
    end.
Proof.
  intros Hall. revert k. induction Hall as [|i indices Hi _ IH]; intros k.
  - destruct k; reflexivity.
  - cbn [flat_map]. destruct (nth_error l i) as [a|] eqn:Ha.
    + destruct k as [|k]; cbn [app nth_error]; [symmetry; exact Ha | apply IH].
    + apply nth_error_None in Ha. lia.
Qed.

Lemma range_step_below (stop step : nat) :
  1 <= step -> Forall (fun i => i < stop) (range_step stop step).
Proof.
  intros Hstep. apply Forall_forall. intros i Hi.
  apply range_step_indices in Hi; [lia | exact Hstep].
Qed.

(** X15: with a resolution of 2 or more the scheduler keeps, in order, the
    targets at the multiples of the resolution that lie strictly before the
    last index: [ceil((len - 1) / resolution)] of them, the last target
    never among the visited indices. *)
Theorem downsample_keeps_multiples_before_last {A} (resolution : nat)
    (targets : list A) :
  2 <= resolution ->
  exists kept,
    downsample (Z.of_nat resolution) targets = Ok kept
    /\ List.length kept
       = (List.length targets - 1 + resolution - 1) / resolution
    /\ forall k,
         k < List.length kept ->
         k * resolution < List.length targets - 1
         /\ nth_error kept k = nth_error targets (k * resolution).
Proof.
  intros Hres.
  assert (Hdown : downsample (Z.of_nat resolution) targets
                  = Ok (slice_0_to_minus_1 resolution targets)).
  { unfold downsample.
    destruct (Z.eqb_spec (Z.of_nat resolution) 1); [lia|].
    destruct (Z.eqb_spec (Z.of_nat resolution) 0); [lia|].
    destruct (Z.ltb_spec (Z.of_nat resolution) 0); [lia|].
    rewrite Nat2Z.id. reflexivity. }
  exists (slice_0_to_minus_1 resolution targets). split; [exact Hdown|].
  set (stop := List.length targets - 1).
  set (count := (stop + resolution - 1) / resolution).
  assert (Hall : Forall (fun i => i < List.length targets)
                        (range_step stop resolution)).
  { eapply Forall_impl; [|apply range_step_below; lia].
    intros i Hi. unfold stop in Hi. cbv beta in *. lia. }
  assert (Hnth : forall k,
             nth_error (slice_0_to_minus_1 resolution targets) k
             = if k <? count then nth_error targets (k * resolution)
               else None).
  { intros k. unfold slice_0_to_minus_1. fold stop.
    rewrite (pick_in_range _ k Hall). unfold range_step. fold count.
    rewrite nth_error_map, nth_error_seq.
    destruct (k <? count); reflexivity. }
  assert (Hlen : List.length (slice_0_to_minus_1 resolution targets) = count).
  { destruct (Nat.lt_trichotomy
                (List.length (slice_0_to_minus_1 resolution targets)) count)
      as [Hlt|[Heq|Hgt]]; [|exact Heq|].
    - pose proof (Hnth (List.length (slice_0_to_minus_1 resolution targets)))
        as Hk.
      apply Nat.ltb_lt in Hlt. rewrite Hlt in Hk.
      assert (Hnone : nth_error (slice_0_to_minus_1 resolution targets)
                        (List.length (slice_0_to_minus_1 resolution targets))
                      = None) by (apply nth_error_None; lia).
      rewrite Hnone in Hk. symmetry in Hk. apply nth_error_None in Hk.
      apply Nat.ltb_lt in Hlt.
      assert (Hin : In (List.length (slice_0_to_minus_1 resolution targets)
                        * resolution) (range_step stop resolution)).
      { unfold range_step. fold count. apply in_map_iff.
        eexists. split; [reflexivity|]. apply in_seq. lia. }
      apply range_step_indices in Hin; [|lia]. unfold stop in Hin. lia.
    - pose proof (Hnth count) as Hk. rewrite Nat.ltb_irrefl in Hk.
      apply nth_error_None in Hk. lia. }
  split; [exact Hlen|].
  intros k Hk. rewrite Hlen in Hk. split.
  - assert (Hin : In (k * resolution) (range_step stop resolution)).
    { unfold range_step. fold count. apply in_map_iff.
      eexists. split; [reflexivity|]. apply in_seq. lia. }
    apply range_step_indices in Hin; [|lia]. lia.
  - rewrite Hnth. apply Nat.ltb_lt in Hk. rewrite Hk. reflexivity.
Qed.

Lemma downsample_keeps_multiples_before_last_witness :
  2 <= 3
  /\ exists kept,
       downsample 3 [10; 20; 30; 40; 50; 60; 70] = Ok kept
       /\ List.length kept = 2
       /\ nth_error kept 1 = Some 40.
Proof.
  assert (Hres : 2 <= 3) by lia.
  split; [exact Hres|].
  destruct (downsample_keeps_multiples_before_last
              [10; 20; 30; 40; 50; 60; 70] Hres) as (kept & Hk & Hlen & Hnth).
  exists kept. split; [exact Hk|]. split; [exact Hlen|].
  assert (H1 : 1 < List.length kept) by (rewrite Hlen; cbn; lia).
  destruct (Hnth 1 H1) as (_ & Hkept). exact Hkept.
Defined.

End Downsampling.

Section BatchCoverage.

Local Open Scope nat_scope.

(** The selections as lists, for [1 <= batch_n <= wl_n]. *)
Lemma batch_selectors_value (wl_n batch_n : nat) :
  1 <= batch_n <= wl_n ->
  batch_selectors wl_n batch_n
  = Ok (map (fun i => map (fun j => i + j * (wl_n / (wl_n / batch_n)))
                          (seq 0 (wl_n / batch_n)))
            (seq 0 batch_n)
        ++ (if wl_n mod batch_n =? 0 then [] else [[wl_n - 1]])).
Proof.
  intros Hb. unfold batch_selectors.
  assert (Hq : 1 <= wl_n / batch_n) by (apply Nat.div_le_lower_bound; lia).
  rewrite (int_div_positive wl_n) by lia.
  rewrite (int_div_positive wl_n) by exact Hq. reflexivity.
Qed.

(** An index is selected by a batch or by the last-item selection. *)
Lemma selected_iff (wl_n batch_n k : nat) (selectors : list (list nat)) :
  1 <= batch_n <= wl_n ->
  batch_selectors wl_n batch_n = Ok selectors ->
  (exists selector, In selector selectors /\ In k selector)
  <-> (exists i j, i < batch_n /\ j < wl_n / batch_n
                   /\ k = i + j * (wl_n / (wl_n / batch_n)))
      \/ (wl_n mod batch_n <> 0 /\ k = wl_n - 1).
Proof.
  intros Hb Hsel. rewrite (batch_selectors_value Hb) in Hsel.
  inversion Hsel; subst selectors; clear Hsel. split.
  - intros (sel & Hin & Hk). apply in_app_or in Hin. destruct Hin as [Hin|Hin].
    + left. apply in_map_iff in Hin. destruct Hin as (i & Hs & Hi).
      apply in_seq in Hi. subst sel. apply in_strided in Hk.
      destruct Hk as (j & Hj & Hk). exists i, j. repeat split; lia.
    + right. destruct (Nat.eqb_spec (wl_n mod batch_n) 0) as [|Hr];
        [contradiction|].
      destruct Hin as [Hs|[]]. subst sel. destruct Hk as [Hk|[]].
      split; [exact Hr | lia].
  - intros [(i & j & Hi & Hj & Hk)|(Hr & Hk)].
    + exists (map (fun j => i + j * (wl_n / (wl_n / batch_n)))
                  (seq 0 (wl_n / batch_n))).
      split.
      * apply in_or_app. left. apply in_map_iff. exists i.
        split; [reflexivity|]. apply in_seq. lia.
      * apply in_strided. exists j. split; assumption.
    + exists [wl_n - 1]. split.
      * apply in_or_app. right.
        destruct (Nat.eqb_spec (wl_n mod batch_n) 0); [contradiction|].
        left; reflexivity.
      * left. symmetry. exact Hk.
Qed.

(** X16: the batched entry point reaches every target exactly when the number
    of targets leaves a remainder of at most one on division by the batch
    count; with a larger remainder some target is in no selection.  No
    selection ever points outside the target list. *)
Theorem batches_cover_iff (wl_n batch_n : nat) :
  1 <= batch_n <= wl_n ->
  exists selectors,
    batch_selectors wl_n batch_n = Ok selectors
    /\ ((forall k, k < wl_n ->
           exists selector, In selector selectors /\ In k selector)
        <-> wl_n mod batch_n <= 1)
    /\ (forall selector k,
          In selector selectors -> In k selector -> k < wl_n).
Proof.
  intros Hb. eexists. split; [apply batch_selectors_value; exact Hb|].
  pose proof (batch_selectors_value Hb) as Hsel.
  set (q := wl_n / batch_n) in *. set (r := wl_n mod batch_n).
  assert (Hq : 1 <= q) by (apply Nat.div_le_lower_bound; lia).
  assert (Hn : wl_n = batch_n * q + r) by (apply Nat.div_mod_eq).
  assert (Hr : r < batch_n) by (apply Nat.mod_upper_bound; lia).
  assert (Hstep : wl_n / q = batch_n + r / q)
    by (apply step_size_value; exact Hb).
  assert (Hle : q * (wl_n / q) <= wl_n) by (apply Nat.Div0.mul_div_le).
  split; [split|].
  - intros Hall. destruct (le_lt_dec r 1) as [|Hbig]; [assumption|exfalso].
    destruct (le_lt_dec q r) as [Hqr|Hrq].
    + assert (Hk : batch_n < wl_n) by nia.
      destruct (proj1 (selected_iff batch_n Hb Hsel) (Hall _ Hk))
        as [(i & j & Hi & Hj & Hkk)|(_ & Hkk)]; [|nia].
      fold q in Hkk. rewrite Hstep in Hkk.
      assert (1 <= r / q) by (apply Nat.div_le_lower_bound; lia).
      destruct j; nia.
    + assert (Hk : batch_n * q < wl_n) by lia.
      destruct (proj1 (selected_iff (batch_n * q) Hb Hsel) (Hall _ Hk))
        as [(i & j & Hi & Hj & Hkk)|(_ & Hkk)]; [|lia].
      fold q in Hkk, Hj.
      rewrite Hstep, (Nat.div_small r q) in Hkk by exact Hrq. nia.
  - intros Hsmall k Hk. apply (selected_iff k Hb Hsel).
    destruct (Nat.eq_dec k (batch_n * q)) as [Hlast|Hnot].
    + right. split; lia.
    + left. exists (k mod batch_n), (k / batch_n).
      pose proof (Nat.div_mod_eq k batch_n) as Hkd.
      pose proof (Nat.mod_upper_bound k batch_n ltac:(lia)) as Hkm.
      assert (Hkq : k / batch_n < q)
        by (apply Nat.Div0.div_lt_upper_bound; lia).
      fold q. repeat split; try assumption.
      destruct (k / batch_n) as [|j] eqn:Hj; [lia|].
      assert (Hrq : r / q = 0) by (apply Nat.div_small; lia).
      rewrite Hstep, Hrq. lia.
  - intros sel k Hin Hk.
    destruct (proj1 (selected_iff k Hb Hsel) (ex_intro _ sel (conj Hin Hk)))
      as [(i & j & Hi & Hj & Hkk)|(_ & Hkk)]; [|lia].
    fold q in Hkk, Hj.
    assert (batch_n <= wl_n / q) by lia.
    assert (j * (wl_n / q) + wl_n / q <= q * (wl_n / q)) by nia.
    lia.
Qed.

Lemma batches_cover_iff_witness :
  1 <= 3 <= 10
  /\ exists selectors,
       batch_selectors 10 3 = Ok selectors
       /\ (forall k, k < 10 ->
             exists selector, In selector selectors /\ In k selector).
Proof.
  assert (Hb : 1 <= 3 <= 10) by lia.
  split; [exact Hb|].
  destruct (batches_cover_iff Hb) as (selectors & Hsel & Hcover & _).
  exists selectors. split; [exact Hsel|].
  apply Hcover. cbn. lia.
Defined.

Lemma NoDup_strided (i step start count : nat) :
  1 <= step -> NoDup (map (fun j => i + j * step) (seq start count)).
Proof.
  intros Hstep. revert start. induction count as [|c IH]; intros start.
  - constructor.
  - cbn [seq map]. constructor; [|apply IH].
    intros Hin. apply in_map_iff in Hin. destruct Hin as (j & Hj & Hin).
    apply in_seq in Hin. nia.
Qed.

(** X17: no target is selected twice: a selection holds no index twice, and two
    different selections share no index. *)
Theorem batches_select_each_index_once (wl_n batch_n : nat)
    (selectors : list (list nat)) :
  1 <= batch_n <= wl_n ->
  batch_selectors wl_n batch_n = Ok selectors ->
  (forall selector, In selector selectors -> NoDup selector)
  /\ (forall a b k,
        a < List.length selectors -> b < List.length selectors ->
        In k (nth a selectors []) -> In k (nth b selectors []) -> a = b).
Proof.
  intros Hb Hsel. rewrite (batch_selectors_value Hb) in Hsel.
  inversion Hsel; subst selectors; clear Hsel.
  set (q := wl_n / batch_n). set (r := wl_n mod batch_n).
  set (step := wl_n / q).
  assert (Hq : 1 <= q) by (apply Nat.div_le_lower_bound; lia).
  assert (Hn : wl_n = batch_n * q + r) by (apply Nat.div_mod_eq).
  assert (Hr : r < batch_n) by (apply Nat.mod_upper_bound; lia).
  assert (Hstep : step = batch_n + r / q)
    by (apply step_size_value; exact Hb).
  assert (Hle : q * step <= wl_n) by (apply Nat.Div0.mul_div_le).
  assert (Hrq : (q - 1) * (r / q) < r \/ r = 0).
  { destruct (Nat.eq_dec r 0) as [|Hr0]; [right; assumption|left].
    pose proof (Nat.Div0.mul_div_le r q) as Hd. nia. }
  set (batches := map (fun i => map (fun j => i + j * step) (seq 0 q))
                      (seq 0 batch_n)).
  assert (Hlen : List.length batches = batch_n)
    by (unfold batches; rewrite length_map, length_seq; reflexivity).
  assert (Hbatch : forall a k, a < batch_n -> In k (nth a batches []) ->
                     exists j, j < q /\ k = a + j * step).
  { intros a k Ha Hk. unfold batches in Hk. rewrite nth_batches in Hk by lia.
    apply in_strided in Hk. exact Hk. }
  assert (Hlast : forall a k, batch_n <= a ->
                    In k (nth a (batches
                                 ++ (if r =? 0 then [] else [[wl_n - 1]])) [])
                    -> r <> 0 /\ k = wl_n - 1).
  { intros a k Ha Hk. rewrite app_nth2 in Hk by lia. rewrite Hlen in Hk.
    destruct (Nat.eqb_spec r 0) as [|Hr0].
    - destruct (a - batch_n); destruct Hk.
    - destruct (a - batch_n) as [|[|m]]; cbn in Hk; try contradiction.
      destruct Hk as [Hk|[]]. split; [exact Hr0 | lia]. }
  split.
  - intros sel Hin. apply in_app_or in Hin. destruct Hin as [Hin|Hin].
    + apply in_map_iff in Hin. destruct Hin as (i & Hs & _). subst sel.
      apply NoDup_strided. lia.
    + destruct (r =? 0); [contradiction|].
      destruct Hin as [Hs|[]]. subst sel. repeat constructor. intros [].
  - intros a b k Ha Hb' Hka Hkb.
    destruct (le_lt_dec batch_n a) as [Hage|Halt];
      destruct (le_lt_dec batch_n b) as [Hbge|Hblt].
    + rewrite length_app, Hlen in Ha, Hb'.
      destruct (r =? 0); cbn [List.length] in Ha, Hb'; lia.
    + apply Hlast in Hka; [|exact Hage]. rewrite app_nth1 in Hkb by lia.
      apply Hbatch in Hkb; [|exact Hblt].
      destruct Hka as (Hr0 & Hk). destruct Hkb as (j & Hj & Hk').
      exfalso. destruct Hrq as [Hrq|]; [|contradiction]. nia.
    + apply Hlast in Hkb; [|exact Hbge]. rewrite app_nth1 in Hka by lia.
      apply Hbatch in Hka; [|exact Halt].
      destruct Hkb as (Hr0 & Hk). destruct Hka as (j & Hj & Hk').
      exfalso. destruct Hrq as [Hrq|]; [|contradiction]. nia.
    + rewrite app_nth1 in Hka, Hkb by lia.
      apply Hbatch in Hka; [|exact Halt]. apply Hbatch in Hkb; [|exact Hblt].
      destruct Hka as (j & _ & Hk). destruct Hkb as (j' & _ & Hk').
      assert (Hmod : (a + j * step) mod step = (b + j' * step) mod step)
        by congruence.
      rewrite !Nat.Div0.mod_add, !Nat.mod_small in Hmod by lia. exact Hmod.
Qed.

Lemma batches_select_each_index_once_witness :
  1 <= 3 <= 10
  /\ exists selectors,
       batch_selectors 10 3 = Ok selectors
       /\ (forall selector, In selector selectors -> NoDup selector)
       /\ (forall k, In k (nth 0 selectors []) ->
                     In k (nth 3 selectors []) -> False).
Proof.
  assert (Hb : 1 <= 3 <= 10) by lia.
  split; [exact Hb|].
  assert (Hsel : batch_selectors 10 3
                 = Ok [[0; 3; 6]; [1; 4; 7]; [2; 5; 8]; [9]]) by reflexivity.
  destruct (batches_select_each_index_once Hb Hsel) as (Hnodup & Hdisj).
  eexists. split; [exact Hsel|]. split; [exact Hnodup|].
  intros k H0 H3.
  assert (Heq : 0 = 3) by (apply (Hdisj 0 3 k); cbn; try lia; assumption).
  discriminate.
Defined.

End BatchCoverage.

Lemma subresult_exists_after_append (set_name : string) (wl : R)
    (w w' : World) (added : list (string * Subresult)) :
  subresults w' = subresults w ++ added ->
  subresult_exists set_name wl w = true ->
  subresult_exists set_name wl w' = true.
Proof.
  unfold subresult_exists. intros Hadd Hex.
  rewrite Hadd, existsb_app, Hex. reflexivity.
Qed.

(** An aggregation, completed or not, makes no render and leaves the
    Subresults alone. *)
Lemma aggregation_keeps_fits (set_name : string) (wall : R) (w w' : World)
    (o : outcome unit) :
  make_final_result set_name wall w = (o, w') ->
  renders w' = renders w /\ subresults w' = subresults w.
Proof.
  destruct o as [[]|e]; intros Hagg.
  - apply make_final_result_record in Hagg.
    destruct Hagg as (first & rest & c0 & c1 & c2 & c3 & basin & _ & _ & _ & _
                      & _ & _ & Hw').
    subst w'. auto.
  - apply (proj2 (aggregator_failure_keeps_world set_name wall w)) in Hagg.
    destruct Hagg as (Hw' & _). subst w'. auto.
Qed.

(** *** The process pool *)

Lemma get_tasks_map {A B} (g : A -> B) (size fuel : nat) (l : list A) :
  get_tasks size fuel (map g l) = map (map g) (get_tasks size fuel l).
Proof.
  revert l. induction fuel as [|fuel IH]; intros l; [reflexivity|].
  cbn [get_tasks]. rewrite firstn_map.
  destruct (firstn size l) as [|a chunk]; [reflexivity|].
  cbn [map]. rewrite skipn_map, IH. reflexivity.
Qed.

(** The chunks are the argument list, cut. *)
Lemma concat_get_tasks {A} (size fuel : nat) (l : list A) :
  (1 <= size)%nat -> (List.length l <= fuel)%nat ->
  List.concat (get_tasks size fuel l) = l.
Proof.
  intros Hsize. revert l. induction fuel as [|fuel IH]; intros l Hfuel.
  - destruct l; [reflexivity | cbn in Hfuel; lia].
  - cbn [get_tasks]. destruct l as [|a l]; [rewrite firstn_nil; reflexivity|].
    destruct size as [|size]; [lia|].
    rewrite firstn_cons. cbn [List.concat].
    rewrite IH.
    + rewrite <- firstn_cons. apply firstn_skipn.
    + rewrite length_skipn. cbn [List.length] in *. lia.
Qed.

Lemma pool_chunksize_positive (n : nat) (processes : positive) :
  (1 <= n)%nat -> (1 <= pool_chunksize n processes)%nat.
Proof.
  intros Hn. unfold pool_chunksize.
  destruct (Nat.eqb_spec n 0); [lia|].
  destruct (Nat.eqb_spec (n mod (Pos.to_nat processes * 4)) 0) as [Hmod|Hmod];
    [|lia].
  pose proof (Nat.div_mod_eq n (Pos.to_nat processes * 4)) as Hdiv.
  rewrite Hmod in Hdiv. nia.
Qed.

Lemma pool_tasks {A} (processes : positive) (l : list A) :
  List.concat (get_tasks (pool_chunksize (List.length l) processes)
                    (List.length l) l) = l.
Proof.
  destruct l as [|a l]; [reflexivity|].
  apply concat_get_tasks; [|lia].
  apply pool_chunksize_positive. cbn [List.length]. lia.
Qed.

(** The scheduler keeps targets of the list it is given, no other. *)
Lemma downsample_incl {A} (resolution : Z) (targets kept : list A) :
  downsample resolution targets = Ok kept -> incl kept targets.
Proof.
  unfold downsample.
  destruct (resolution =? 1)%Z;
    [intros H; inversion H; subst; apply incl_refl|].
  destruct (resolution =? 0)%Z; [discriminate|].
  destruct (resolution <? 0)%Z;
    intros H; inversion H; subst; clear H; [intros a []|].
  intros a Ha. unfold slice_0_to_minus_1 in Ha.
  apply in_flat_map in Ha. destruct Ha as (i & _ & Hi).
  destruct (nth_error targets i) as [b|] eqn:Hb; [|destruct Hi].
  destruct Hi as [Hi|[]]. subst b. eapply nth_error_In. exact Hb.
Qed.

Section Runs.

Variable clock : World -> R.
Variable sim : imaging_type -> R -> string -> World -> R.
Variable least_squares :
  list R -> list R * list R -> string -> R -> R -> R -> strategy.
Variable shgo : list (R * R) -> nat -> nat -> string -> strategy.
Variable dual_annealing :
  list (R * R) -> nat -> nat -> nat -> R -> list R -> R -> R -> R -> strategy.
Variable basinhopping :
  list R -> R -> nat -> R -> nat ->
  ((nat -> R -> R -> R) -> list R -> outcome (list R)) ->
  (list R -> R -> bool -> option bool) -> (list R -> strategy) -> strategy.
Variable read_target : string -> list (R * R * R).
Variable processes : positive.
Variables (set_name opt_method : string).

Local Abbreviation driver :=
  (optimize_single_wl clock sim least_squares shgo dual_annealing
                      basinhopping).
Local Abbreviation threaded :=
  (optimize_single_wl_threaded clock sim least_squares shgo dual_annealing
                               basinhopping).
Local Abbreviation run :=
  (run_optimization clock sim least_squares shgo dual_annealing basinhopping
                    read_target processes set_name).
Local Abbreviation fit_target :=
  (fun target : R * R * R =>
     driver (fst (fst target)) (snd (fst target)) (snd target)
            set_name opt_method).
Local Abbreviation loop := (for_each fit_target).
Local Abbreviation param_list :=
  (map (fun a : R * R * R =>
          (fst (fst a), snd (fst a), snd a, set_name, opt_method))).
Local Abbreviation fits use_threads kept :=
  (if use_threads : bool
   then Pool_map processes threaded (param_list kept)
   else loop kept).
Local Abbreviation done w :=
  (fun a : R * R * R => subresult_exists set_name (fst (fst a)) w = true).
Local Abbreviation of_targets targets :=
  (fun entry : string * Subresult =>
     fst entry = set_name
     /\ exists a : R * R * R,
          In a targets /\ subres_wl (snd entry) = fst (fst a)).

Lemma of_targets_incl (targets targets' : list (R * R * R))
    (added : list (string * Subresult)) :
  incl targets targets' ->
  Forall (of_targets targets) added -> Forall (of_targets targets') added.
Proof.
  intros Hincl. apply Forall_impl. intros entry (Hname & a & Ha & Hwl).
  split; [exact Hname|]. exists a. split; [apply Hincl; exact Ha | exact Hwl].
Qed.

(** The pool's tuples lead to the same invocations as the plain loop. *)
Lemma threaded_loop (targets : list (R * R * R)) (w : World) :
  for_each threaded (param_list targets) w = loop targets w.
Proof.
  revert w. induction targets as [|[[wl r_m] t_m] targets IH]; intros w;
    [reflexivity|].
  cbn [map for_each fst snd]. unfold bind.
  cbn [optimize_single_wl_threaded].
  destruct (driver wl r_m t_m set_name opt_method w) as [[u|e] w1];
    [apply IH | reflexivity].
Qed.

Lemma threaded_chunks (chunks : list (list (R * R * R)))
    (failed : option exn) (w : World) :
  run_chunks threaded (map param_list chunks) failed w
  = run_chunks fit_target chunks failed w.
Proof.
  revert failed w. induction chunks as [|chunk chunks IH]; intros failed w;
    [reflexivity|].
  cbn [map run_chunks]. rewrite threaded_loop.
  destruct (loop chunk w) as [[u|e] w1]; apply IH.
Qed.

(** What the loop over the targets can change. *)
Lemma loop_frame (targets : list (R * R * R)) (w w' : World)
    (o : outcome unit) :
  loop targets w = (o, w') ->
  final_results w' = final_results w
  /\ (exists rendered, renders w' = renders w ++ rendered)
  /\ (exists added,
        subresults w' = subresults w ++ added
        /\ Forall (of_targets targets) added)
  /\ (o = Ok tt -> Forall (done w') targets)
  /\ (Forall (done w) targets -> o = Ok tt /\ w' = w).
Proof.
  revert w. induction targets as [|a targets IH]; intros w.
  - cbn [for_each]. unfold ret. intros H; inversion H; subst.
    split; [reflexivity|].
    split; [exists []; symmetry; apply app_nil_r|].
    split; [exists []; split; [symmetry; apply app_nil_r | constructor]|].
    split; auto.
  - cbn [for_each]. unfold bind.
    destruct (driver (fst (fst a)) (snd (fst a)) (snd a) set_name opt_method w)
      as [[[]|e] w1] eqn:Hfit.
    + intros Hrest. pose proof Hfit as Hdone.
      apply completed_fit_is_persisted in Hdone.
      apply driver_frame in Hfit.
      destruct Hfit as (Hf1 & (rd1 & Hr1) & (ad1 & Ha1 & _ & Hk1) & _ & Hskip).
      destruct (IH _ Hrest)
        as (Hf & (rd & Hr) & (ad & Ha & Hk) & Hall & Hdone').
      split; [congruence|].
      split; [exists (rd1 ++ rd); rewrite Hr, Hr1, app_assoc; reflexivity|].
      split.
      { exists (ad1 ++ ad). split; [rewrite Ha, Ha1, app_assoc; reflexivity|].
        apply Forall_app. split.
        - eapply Forall_impl; [|exact Hk1]. intros entry (Hname & Hwl).
          split; [exact Hname|]. exists a. split; [left; reflexivity|exact Hwl].
        - eapply of_targets_incl; [|exact Hk]. apply incl_tl, incl_refl. }
      split.
      * intros Ho. constructor; [|exact (Hall Ho)].
        eapply subresult_exists_after_append; [exact Ha | exact Hdone].
      * intros Hex. inversion Hex as [|? ? Hhead Htail]; subst.
        destruct (Hskip Hhead) as (_ & Hw1). subst w1.
        exact (Hdone' Htail).
    + intros H; inversion H; subst; clear H.
      apply driver_frame in Hfit.
      destruct Hfit as (Hf1 & Hr1 & (ad1 & Ha1 & _ & Hk1) & _ & Hskip).
      split; [exact Hf1|]. split; [exact Hr1|].
      split.
      { exists ad1. split; [exact Ha1|].
        eapply Forall_impl; [|exact Hk1]. intros entry (Hname & Hwl).
        split; [exact Hname|]. exists a. split; [left; reflexivity|exact Hwl]. }
      split; [discriminate|].
      intros Hex. inversion Hex as [|? ? Hhead Htail]; subst.
      destruct (Hskip Hhead) as (Habs & _). discriminate.
Qed.

(** What the chunks of a pool can change: every chunk is run, a chunk that
    raised or not, and the exception seen first is the outcome. *)
Lemma chunks_frame (chunks : list (list (R * R * R))) (failed : option exn)
    (w w' : World) (o : outcome unit) :
  run_chunks fit_target chunks failed w = (o, w') ->
  final_results w' = final_results w
  /\ (exists rendered, renders w' = renders w ++ rendered)
  /\ (exists added,
        subresults w' = subresults w ++ added
        /\ Forall (of_targets (List.concat chunks)) added)
  /\ (o = Ok tt -> failed = None /\ Forall (done w') (List.concat chunks))
  /\ (Forall (done w) (List.concat chunks) ->
      w' = w /\ o = match failed with None => Ok tt | Some e => Raise e end).
Proof.
  revert failed w. induction chunks as [|chunk chunks IH]; intros failed w.
  - cbn [run_chunks List.concat]. intros H.
    assert (Hw : w' = w) by (destruct failed; inversion H; reflexivity).
    assert (Ho : o = match failed with None => Ok tt | Some e => Raise e end)
      by (destruct failed; inversion H; reflexivity).
    subst w'.
    split; [reflexivity|].
    split; [exists []; symmetry; apply app_nil_r|].
    split; [exists []; split; [symmetry; apply app_nil_r | constructor]|].
    split; [|auto].
    intros Hok. split; [|constructor].
    destruct failed; [rewrite Ho in Hok; discriminate | reflexivity].
  - cbn [run_chunks List.concat].
    destruct (loop chunk w) as [o1 w1] eqn:Hloop.
    apply loop_frame in Hloop.
    destruct Hloop as (Hf1 & (rd1 & Hr1) & (ad1 & Ha1 & Hk1) & Hall1 & Hskip1).
    intros Hrest.
    assert (Hrest' : exists failed',
               run_chunks fit_target chunks failed' w1 = (o, w')
               /\ (failed' = None -> o1 = Ok tt /\ failed' = failed)
               /\ (o1 = Ok tt -> failed' = failed)).
    { destruct o1 as [[]|e].
      - exists failed. split; [exact Hrest|]. auto.
      - eexists. split; [exact Hrest|].
        split; [destruct failed; discriminate | discriminate]. }
    clear Hrest. destruct Hrest' as (failed' & Hrest & Hnone & Hsame).
    destruct (IH _ _ Hrest)
      as (Hf & (rd & Hr) & (ad & Ha & Hk) & Hall & Hskip).
    split; [congruence|].
    split; [exists (rd1 ++ rd); rewrite Hr, Hr1, app_assoc; reflexivity|].
    split.
    { exists (ad1 ++ ad). split; [rewrite Ha, Ha1, app_assoc; reflexivity|].
      apply Forall_app. split.
      - eapply of_targets_incl; [|exact Hk1]. apply incl_appl, incl_refl.
      - eapply of_targets_incl; [|exact Hk]. apply incl_appr, incl_refl. }
    split.
    + intros Ho. destruct (Hall Ho) as (Hfailed' & Hdone').
      destruct (Hnone Hfailed') as (Ho1 & Heq).
      split; [congruence|].
      apply Forall_app. split; [|exact Hdone'].
      eapply Forall_impl; [|exact (Hall1 Ho1)].
      intros a Hdone. eapply subresult_exists_after_append; eauto.
    + intros Hex. apply Forall_app in Hex. destruct Hex as (Hhead & Htail).
      destruct (Hskip1 Hhead) as (Ho1 & Hw1). subst w1.
      rewrite <- (Hsame Ho1). exact (Hskip Htail).
Qed.

(** What the pool can change. *)
Lemma pool_frame (targets : list (R * R * R)) (w w' : World)
    (o : outcome unit) :
  Pool_map processes threaded (param_list targets) w = (o, w') ->
  final_results w' = final_results w
  /\ (exists rendered, renders w' = renders w ++ rendered)
  /\ (exists added,
        subresults w' = subresults w ++ added
        /\ Forall (of_targets targets) added)
  /\ (o = Ok tt -> Forall (done w') targets)
  /\ (Forall (done w) targets -> o = Ok tt /\ w' = w).
Proof.
  unfold Pool_map. rewrite length_map, get_tasks_map, threaded_chunks.
  intros Hrun. apply chunks_frame in Hrun. rewrite pool_tasks in Hrun.
  destruct Hrun as (Hf & Hr & Ha & Hall & Hskip).
  split; [exact Hf|]. split; [exact Hr|]. split; [exact Ha|].
  split; [intros Ho; exact (proj2 (Hall Ho))|].
  intros Hex. destruct (Hskip Hex) as (Hw' & Ho). auto.
Qed.

(** What the fits of a run can change, with the pool or without. *)
Lemma fits_frame (use_threads : bool) (kept : list (R * R * R))
    (w w' : World) (o : outcome unit) :
  fits use_threads kept w = (o, w') ->
  final_results w' = final_results w
  /\ (exists rendered, renders w' = renders w ++ rendered)
  /\ (exists added,
        subresults w' = subresults w ++ added
        /\ Forall (of_targets kept) added)
  /\ (o = Ok tt -> Forall (done w') kept)
  /\ (Forall (done w) kept -> o = Ok tt /\ w' = w).
Proof.
  destruct use_threads; [apply pool_frame | apply loop_frame].
Qed.

(** [run_optimization] once the targets are settled: the fits, then the
    aggregation with the wall-clock minutes the fits took. *)
Lemma run_optimization_unfolded (targets : option (list (R * R * R)))
    (use_threads : bool) (resolution : Z) (kept : list (R * R * R))
    (w : World) :
  downsample resolution
    (match targets with
     | None => read_target set_name
     | Some targets => targets
     end) = Ok kept ->
  run targets use_threads opt_method resolution w
  = match fits use_threads kept w with
    | (Ok _, w1) => make_final_result set_name ((clock w1 - clock w) / 60) w1
    | (Raise e, w1) => (Raise e, w1)
    end.
Proof.
  intros Hkept. unfold run_optimization.
  unfold bind at 1, perf_counter. unfold bind at 1, lift. rewrite Hkept.
  unfold bind at 1.
  destruct use_threads;
    [destruct (Pool_map processes threaded (param_list kept) w)
       as [[u|e] w1]
    |destruct (loop kept w) as [[u|e] w1]];
    try reflexivity; unfold bind; reflexivity.
Qed.

(** X18: resuming a finished set: when every selected target already has its
    Subresult, a run renders nothing and fits nothing; it is the aggregation
    of the set alone, with the minutes the run took as its input. *)
Theorem run_optimization_resumes_finished_set
    (targets : option (list (R * R * R))) (use_threads : bool)
    (resolution : Z) (kept : list (R * R * R)) (w : World) :
  downsample resolution
    (match targets with
     | None => read_target set_name
     | Some targets => targets
     end) = Ok kept ->
  Forall (fun a => subresult_exists set_name (fst (fst a)) w = true) kept ->
  (exists wall_clock_time_min,
     run targets use_threads opt_method resolution w
     = make_final_result set_name wall_clock_time_min w)
  /\ forall o w',
       run targets use_threads opt_method resolution w = (o, w') ->
       renders w' = renders w /\ subresults w' = subresults w.
Proof.
  intros Hkept Hdone. rewrite (@run_optimization_unfolded _ _ _ _ _ Hkept).
  destruct (fits use_threads kept w) as [o w1] eqn:Hfits.
  apply fits_frame in Hfits. destruct Hfits as (_ & _ & _ & _ & Hskip).
  destruct (Hskip Hdone) as (Ho & Hw1). subst o w1.
  split; [eexists; reflexivity|].
  intros o w' Hagg. apply aggregation_keeps_fits in Hagg. exact Hagg.
Qed.

(** X19: a completed run has checkpointed every selected target and persisted
    a FinalResult for the set; the Subresults that were stored before are
    still there, in place. *)
Theorem completed_run_checkpoints_every_target
    (targets : option (list (R * R * R))) (use_threads : bool)
    (resolution : Z) (kept : list (R * R * R)) (w w' : World) :
  downsample resolution
    (match targets with
     | None => read_target set_name
     | Some targets => targets
     end) = Ok kept ->
  run targets use_threads opt_method resolution w = (Ok tt, w') ->
  Forall (fun a => subresult_exists set_name (fst (fst a)) w' = true) kept
  /\ (exists fr, persisted_final_result set_name w' = Some fr)
  /\ (exists added, subresults w' = subresults w ++ added)
  /\ stored_subresults set_name w' <> [].
Proof.
  intros Hkept. rewrite (@run_optimization_unfolded _ _ _ _ _ Hkept).
  destruct (fits use_threads kept w) as [[u|e] w1] eqn:Hfits; [|discriminate].
  destruct u. apply fits_frame in Hfits.
  destruct Hfits as (_ & _ & (added & Hadd & _) & Hall & _).
  intros Hagg. apply make_final_result_completed in Hagg.
  destruct Hagg as (fr & Hfr & _ & _ & _ & _ & Hne & Hsub).
  assert (Hstored : stored_subresults set_name w'
                    = stored_subresults set_name w1)
    by (unfold stored_subresults; rewrite Hsub; reflexivity).
  split.
  - eapply Forall_impl; [|exact (Hall eq_refl)].
    intros a Ha. unfold subresult_exists in *. rewrite Hsub. exact Ha.
  - split; [exists fr; exact Hfr|].
    split; [exists added; rewrite Hsub; exact Hadd|].
    rewrite Hstored. exact Hne.
Qed.

(** X20: a run that raises, in a fit or in the aggregation, with the pool or
    without, leaves every FinalResult as it was and every Subresult stored
    before in place; all it has added to the store are Subresults of this
    set, each at the wavelength of one of the targets it was given, so every
    wavelength that was done before the run is still done after it. *)
Theorem failed_run_keeps_checkpoints
    (targets : option (list (R * R * R))) (use_threads : bool)
    (resolution : Z) (w w' : World) (e : exn) :
  run targets use_threads opt_method resolution w = (Raise e, w') ->
  final_results w' = final_results w
  /\ (exists added,
        subresults w' = subresults w ++ added
        /\ Forall (fun entry =>
                     fst entry = set_name
                     /\ exists a,
                          In a (match targets with
                                | None => read_target set_name
                                | Some targets => targets
                                end)
                          /\ subres_wl (snd entry) = fst (fst a)) added)
  /\ (forall wl,
        subresult_exists set_name wl w = true ->
        subresult_exists set_name wl w' = true).
Proof.
  destruct (downsample resolution
              (match targets with
               | None => read_target set_name
               | Some targets => targets
               end)) as [kept|e'] eqn:Hkept.
  - rewrite (@run_optimization_unfolded _ _ _ _ _ Hkept).
    apply downsample_incl in Hkept.
    destruct (fits use_threads kept w) as [o1 w1] eqn:Hfits.
    apply fits_frame in Hfits.
    destruct Hfits as (Hf & _ & (added & Hadd & Hkeys) & _).
    apply (of_targets_incl Hkept) in Hkeys.
    intros Hrun.
    assert (Hw' : w' = w1).
    { destruct o1 as [u|e1]; [|inversion Hrun; reflexivity].
      destruct (proj2 (aggregator_failure_keeps_world set_name _ w1) _ _ Hrun)
        as (Hw' & _).
      exact Hw'. }
    subst w'. split; [exact Hf|].
    split; [exists added; split; [exact Hadd | exact Hkeys]|].
    intros wl Hex. eapply subresult_exists_after_append; eauto.
  - unfold run_optimization. unfold bind at 1, perf_counter.
    unfold bind at 1, lift. rewrite Hkept.
    intros H; inversion H; subst; clear H.
    split; [reflexivity|].
    split; [exists []; split; [symmetry; apply app_nil_r | constructor]|].
    auto.
Qed.

(** X21: a resolution of zero is refused before anything is rendered; a negative
    resolution selects no target, so the run is the aggregation alone, with
    the minutes the run took as its input. *)
Theorem run_optimization_degenerate_resolution
    (targets : option (list (R * R * R))) (use_threads : bool)
    (resolution : Z) (w : World) :
  run targets use_threads opt_method 0 w = (Raise ValueError, w)
  /\ ((resolution < 0)%Z ->
      exists wall_clock_time_min,
        run targets use_threads opt_method resolution w
        = make_final_result set_name wall_clock_time_min w).
Proof.
  split.
  - unfold run_optimization. unfold bind at 1, perf_counter.
    unfold bind at 1, lift. reflexivity.
  - intros Hneg.
    assert (Hkept : downsample resolution
                      (match targets with
                       | None => read_target set_name
                       | Some targets => targets
                       end) = Ok []).
    { unfold downsample.
      destruct (Z.eqb_spec resolution 1); [lia|].
      destruct (Z.eqb_spec resolution 0); [lia|].
      destruct (Z.ltb_spec resolution 0); [reflexivity | lia]. }
    rewrite (@run_optimization_unfolded _ _ _ _ _ Hkept).
    destruct (fits use_threads [] w) as [o w1] eqn:Hfits.
    apply fits_frame in Hfits. destruct Hfits as (_ & _ & _ & _ & Hskip).
    destruct (Hskip (Forall_nil _)) as (Ho & Hw1). subst o w1.
    eexists. reflexivity.
Qed.

(** X22: the batched entry point raises a division by zero, before any target
    is fitted, when the batch count is zero or exceeds the number of
    targets; so it always does on an empty target list. *)
Theorem run_optimization_in_batches_division_by_zero (batch_n : nat)
    (w : World) :
  batch_n = 0%nat \/ (List.length (read_target set_name) < batch_n)%nat ->
  run_optimization_in_batches clock sim least_squares shgo dual_annealing
    basinhopping read_target processes set_name batch_n opt_method w
  = (Raise ZeroDivisionError, w).
Proof.
  intros Hbad. unfold run_optimization_in_batches, bind, lift.
  rewrite (batch_selectors_division_by_zero Hbad). reflexivity.
Qed.

End Runs.

(** *** Runs on the sample store *)

Lemma sample_all_done :
  Forall (fun a => subresult_exists "leaf" (fst (fst a)) Sample.world = true)
         [(500, 0.4, 0.4); (510, 0.4, 0.4); (520, 0.4, 0.4)].
Proof.
  repeat constructor; unfold subresult_exists, Sample.world,
    same_subresult_file;
    cbn [subresults existsb fst snd Sample.subresult subres_wl String.eqb
         Ascii.eqb Bool.eqb andb];
    rewrite ?Req_bool_refl, ?(@Req_bool_neq 500 510), ?(@Req_bool_neq 500 520),
      ?(@Req_bool_neq 510 520) by lra; reflexivity.
Defined.

Lemma run_optimization_resumes_finished_set_witness :
  downsample 1 (Sample.read_target "leaf")
  = Ok [(500, 0.4, 0.4); (510, 0.4, 0.4); (520, 0.4, 0.4)]
  /\ Forall (fun a => subresult_exists "leaf" (fst (fst a)) Sample.world = true)
            [(500, 0.4, 0.4); (510, 0.4, 0.4); (520, 0.4, 0.4)]
  /\ exists wall_clock_time_min,
       run_optimization Sample.clock Sample.sim Sample.least_squares
         Sample.shgo Sample.dual_annealing Sample.basinhopping
         Sample.read_target
    Sample.processes "leaf" None true "basin_hopping" 1 Sample.world
       = make_final_result "leaf" wall_clock_time_min Sample.world.
Proof.
  assert (Hkept : downsample 1 (Sample.read_target "leaf")
                  = Ok [(500, 0.4, 0.4); (510, 0.4, 0.4); (520, 0.4, 0.4)])
    by reflexivity.
  split; [exact Hkept|]. split; [exact sample_all_done|].
  exact (proj1 (@run_optimization_resumes_finished_set Sample.clock
                  Sample.sim Sample.least_squares Sample.shgo
                  Sample.dual_annealing Sample.basinhopping Sample.read_target
    Sample.processes "leaf" "basin_hopping" None true 1 _ Sample.world Hkept
                  sample_all_done)).
Defined.

Lemma run_optimization_degenerate_resolution_witness :
  run_optimization Sample.clock Sample.sim Sample.least_squares
    Sample.shgo Sample.dual_annealing Sample.basinhopping
    Sample.read_target
    Sample.processes "leaf" None true "basin_hopping" 0 Sample.world
  = (Raise ValueError, Sample.world)
  /\ (-2 < 0)%Z
  /\ exists wall_clock_time_min,
       run_optimization Sample.clock Sample.sim Sample.least_squares
         Sample.shgo Sample.dual_annealing Sample.basinhopping
         Sample.read_target
    Sample.processes "leaf" None true "basin_hopping" (-2) Sample.world
       = make_final_result "leaf" wall_clock_time_min Sample.world.
Proof.
  assert (Hneg : (-2 < 0)%Z) by lia.
  destruct (@run_optimization_degenerate_resolution Sample.clock Sample.sim
              Sample.least_squares Sample.shgo Sample.dual_annealing
              Sample.basinhopping Sample.read_target
    Sample.processes "leaf" "basin_hopping"
              None true (-2)%Z Sample.world) as (Hzero & Hnegative).
  split; [exact Hzero|]. split; [exact Hneg | exact (Hnegative Hneg)].
Defined.

Lemma run_optimization_in_batches_division_by_zero_witness :
  (5 = 0 \/ List.length (Sample.read_target "leaf") < 5)%nat
  /\ run_optimization_in_batches Sample.clock Sample.sim Sample.least_squares
       Sample.shgo Sample.dual_annealing Sample.basinhopping
       Sample.read_target
    Sample.processes "leaf" 5 "basin_hopping" Sample.world
     = (Raise ZeroDivisionError, Sample.world).
Proof.
  assert (Hbad : (5 = 0 \/ List.length (Sample.read_target "leaf") < 5)%nat)
    by (right; cbn; lia).
  split; [exact Hbad|].
  exact (@run_optimization_in_batches_division_by_zero Sample.clock Sample.sim
           Sample.least_squares Sample.shgo Sample.dual_annealing
           Sample.basinhopping Sample.read_target
    Sample.processes "leaf" "basin_hopping" 5
           Sample.world Hbad).
Defined.

Lemma sample_540_missing : subresult_exists "leaf" 540 Sample.world = false.
Proof.
  unfold subresult_exists, Sample.world, same_subresult_file.
  cbn [subresults existsb fst snd Sample.subresult subres_wl].
  rewrite !Req_bool_neq by lra. reflexivity.
Defined.

(** With [Sample.picky] the fit of 540 nm raises and the fit of 530 nm
    completes. *)
Lemma sample_picky_540 :
  exists w1,
    optimize_single_wl Sample.clock Sample.sim Sample.picky
      Sample.shgo Sample.dual_annealing Sample.basinhopping
      540 0.1 0.1 "leaf" "least_squares" Sample.world
    = (Raise (Exception "starting point refused"), w1)
    /\ subresults w1 = subresults Sample.world.
Proof.
  eexists.
  rewrite (@driver_starts_fit Sample.clock Sample.sim
                   Sample.picky Sample.shgo Sample.dual_annealing
                   Sample.basinhopping 540 0.1 0.1 "leaf" "least_squares"
                   Sample.world sample_540_missing).
  cbv -[Rplus Rminus Rmult Rdiv Rinv Ropp IZR INR sqrt Rabs pow
        Rgt_dec Rle_dec Rlt_dec Req_dec_T Z.pow_pos Sample.picky
        get_starting_guess].
  settle_picky.
  split; reflexivity.
Defined.

Lemma sample_picky_530 (w1 : World) :
  subresults w1 = subresults Sample.world ->
  exists w2,
    optimize_single_wl Sample.clock Sample.sim Sample.picky
      Sample.shgo Sample.dual_annealing Sample.basinhopping
      530 0.4 0.4 "leaf" "least_squares" w1
    = (Ok tt, w2).
Proof.
  intros Hsub.
  assert (Hnew : subresult_exists "leaf" 530 w1 = false)
    by (unfold subresult_exists; rewrite Hsub; exact sample_530_missing).
  rewrite (@driver_starts_fit Sample.clock Sample.sim
                   Sample.picky Sample.shgo Sample.dual_annealing
                   Sample.basinhopping 530 0.4 0.4 "leaf" "least_squares"
                   w1 Hnew).
  cbv -[Rplus Rminus Rmult Rdiv Rinv Ropp IZR INR sqrt Rabs pow
        Rgt_dec Rle_dec Rlt_dec Req_dec_T Z.pow_pos Sample.picky
        get_starting_guess filter].
  settle_picky.
  cbv -[Rplus Rminus Rmult Rdiv Rinv Ropp IZR INR sqrt Rabs pow
        Rgt_dec Rle_dec Rlt_dec Req_dec_T Z.pow_pos filter].
  eexists. reflexivity.
Defined.

Lemma failed_run_keeps_checkpoints_witness :
  exists e w',
    run_optimization Sample.clock Sample.sim Sample.picky Sample.shgo
      Sample.dual_annealing Sample.basinhopping Sample.read_target
      Sample.processes "leaf" (Some [(540, 0.1, 0.1); (530, 0.4, 0.4)]) true
      "least_squares" 1 Sample.world = (Raise e, w')
    /\ final_results w' = final_results Sample.world
    /\ (exists added,
          subresults w' = subresults Sample.world ++ added
          /\ Forall (fun entry =>
                       fst entry = "leaf"%string
                       /\ exists a,
                            In a [(540, 0.1, 0.1); (530, 0.4, 0.4)]
                            /\ subres_wl (snd entry) = fst (fst a)) added)
    /\ subresult_exists "leaf" 500 w' = true
    /\ subresult_exists "leaf" 530 w' = true.
Proof.
  destruct sample_picky_540 as (w1 & H540 & Hsub).
  destruct (sample_picky_530 w1 Hsub) as (w2 & H530).
  exists (Exception "starting point refused"), w2.
  assert (H : run_optimization Sample.clock Sample.sim Sample.picky
                Sample.shgo Sample.dual_annealing Sample.basinhopping
                Sample.read_target Sample.processes "leaf"
                (Some [(540, 0.1, 0.1); (530, 0.4, 0.4)]) true
                "least_squares" 1 Sample.world
              = (Raise (Exception "starting point refused"), w2)).
  { rewrite (@run_optimization_unfolded Sample.clock Sample.sim
               Sample.picky Sample.shgo Sample.dual_annealing
               Sample.basinhopping Sample.read_target Sample.processes
               "leaf" "least_squares"
               (Some [(540, 0.1, 0.1); (530, 0.4, 0.4)]) true 1
               [(540, 0.1, 0.1); (530, 0.4, 0.4)] Sample.world eq_refl).
    unfold Pool_map. cbn [map List.length fst snd].
    change (pool_chunksize 2 Sample.processes) with 1%nat.
    cbn [get_tasks firstn skipn run_chunks for_each
         optimize_single_wl_threaded].
    unfold bind at 1. rewrite H540.
    unfold bind at 1. rewrite H530. reflexivity. }
  split; [exact H|].
  destruct (@failed_run_keeps_checkpoints Sample.clock Sample.sim
              Sample.picky Sample.shgo Sample.dual_annealing
              Sample.basinhopping Sample.read_target Sample.processes
              "leaf" "least_squares" _ _ _ _ _ _ H) as (Hf & Ha & Hkeep).
  split; [exact Hf|]. split; [exact Ha|].
  split; [exact (Hkeep 500 sample_500_exists)|].
  exact (@completed_fit_is_persisted Sample.clock Sample.sim Sample.picky
           Sample.shgo Sample.dual_annealing Sample.basinhopping
           530 0.4 0.4 "leaf" "least_squares" w1 w2 H530).
Defined.

(** The store after the fit of 530 nm: the three records and the new one. *)
Lemma sample_fit_530_store :
  exists w1 d,
    optimize_single_wl Sample.clock Sample.sim Sample.least_squares
      Sample.shgo Sample.dual_annealing Sample.basinhopping
      530 0.4 0.4 "leaf" "least_squares" Sample.world = (Ok tt, w1)
    /\ subresults w1 = subresults Sample.world ++ [("leaf"%string, d)]
    /\ subres_optimizer d = "least_squares"%string
    /\ subres_history_absorption_density d <> []
    /\ subres_history_scattering_density d <> []
    /\ subres_history_scattering_anisotropy d <> []
    /\ subres_history_mix_factor d <> [].
Proof.
  eexists. eexists.
  assert (H : optimize_single_wl Sample.clock Sample.sim Sample.least_squares
                Sample.shgo Sample.dual_annealing Sample.basinhopping
                530 0.4 0.4 "leaf" "least_squares" Sample.world = (Ok tt, _))
    by (rewrite (@driver_starts_fit Sample.clock Sample.sim
                   Sample.least_squares Sample.shgo Sample.dual_annealing
                   Sample.basinhopping 530 0.4 0.4 "leaf" "least_squares"
                   Sample.world sample_530_missing);
        cbv -[Rplus Rminus Rmult Rdiv Rinv Ropp IZR INR sqrt Rabs pow
              Rgt_dec Rle_dec Rlt_dec Req_dec_T Z.pow_pos filter];
        reflexivity).
  split; [exact H|]. cbn [subresults].
  match goal with
  | |- context [filter ?P ?L] =>
      replace (filter P L) with L
        by (symmetry;
            exact (filter_keeps_all (same_subresult_file "leaf" 530) L
                     sample_530_missing))
  end.
  split; [reflexivity|]. split; [reflexivity|].
  repeat split; discriminate.
Defined.

Lemma completed_run_checkpoints_every_target_witness :
  downsample 1 [(530, 0.4, 0.4)] = Ok [(530, 0.4, 0.4)]
  /\ exists w',
       run_optimization Sample.clock Sample.sim Sample.least_squares
         Sample.shgo Sample.dual_annealing Sample.basinhopping
         Sample.read_target
    Sample.processes "leaf" (Some [(530, 0.4, 0.4)]) false
         "least_squares" 1 Sample.world = (Ok tt, w')
       /\ Forall (fun a => subresult_exists "leaf" (fst (fst a)) w' = true)
                 [(530, 0.4, 0.4)]
       /\ (exists fr, persisted_final_result "leaf" w' = Some fr)
       /\ (exists added, subresults w' = subresults Sample.world ++ added)
       /\ stored_subresults "leaf" w' <> [].
Proof.
  assert (Hkept : downsample 1 [(530, 0.4, 0.4)] = Ok [(530, 0.4, 0.4)])
    by reflexivity.
  split; [exact Hkept|].
  destruct sample_fit_530_store
    as (w1 & d & Hrun & Hsub & Hopt & Hc0 & Hc1 & Hc2 & Hc3).
  assert (Hstored : stored_subresults "leaf" w1
                    = [Sample.subresult 500 0.1 0.05 60;
                       Sample.subresult 510 0.2 0.05 90;
                       Sample.subresult 520 0.3 0.05 30; d])
    by (unfold stored_subresults; rewrite Hsub; reflexivity).
  destruct (@make_final_result_completes "leaf"
              ((Sample.clock w1 - Sample.clock Sample.world) / 60) w1)
    as (w' & Hagg).
  - rewrite Hstored. discriminate.
  - rewrite Hstored. intros s [Hs|[Hs|[Hs|[Hs|[]]]]]; subst s;
      repeat split; first [assumption | discriminate].
  - rewrite Hstored. intros first Hfirst Hbasin.
    inversion Hfirst; subst first. discriminate.
  - assert (H : run_optimization Sample.clock Sample.sim Sample.least_squares
                  Sample.shgo Sample.dual_annealing Sample.basinhopping
                  Sample.read_target
    Sample.processes "leaf" (Some [(530, 0.4, 0.4)]) false
                  "least_squares" 1 Sample.world = (Ok tt, w'))
      by (rewrite (@run_optimization_unfolded Sample.clock Sample.sim
                     Sample.least_squares Sample.shgo Sample.dual_annealing
                     Sample.basinhopping Sample.read_target
    Sample.processes "leaf"
                     "least_squares" (Some [(530, 0.4, 0.4)]) false 1
                     [(530, 0.4, 0.4)] Sample.world Hkept);
          cbn [for_each fst snd]; unfold bind; rewrite Hrun; exact Hagg).
    exists w'. split; [exact H|].
    exact (@completed_run_checkpoints_every_target Sample.clock Sample.sim
             Sample.least_squares Sample.shgo Sample.dual_annealing
             Sample.basinhopping Sample.read_target
    Sample.processes "leaf" "least_squares"
             (Some [(530, 0.4, 0.4)]) false 1 [(530, 0.4, 0.4)] Sample.world
             w' Hkept H).
Defined.
